(** * Risk-based login controller (Backend/controller/auth.controller.js)

    A shallow embedding of the authentication controller: the handlers
    [login], [verifyEmail], [resendVerificationCode], [forgotPassword],
    [resetPassword] and [verifyTwoFactorAuth], written as functions over an
    explicit world (user collection, clock, random source, log of outgoing
    calls) in a small state-and-exception monad that follows the handlers'
    try/catch structure.

    Modelling conventions.
    - Request fields are [option string]: [None] is a field absent from the
      body (JavaScript [undefined]); [!x] is true for [None] and for the
      empty string.
    - Instants are milliseconds since the epoch ([Date.now()]), as [Z]; one
      handler run observes one instant.
    - The user collection is the list of stored documents, in collection
      order; [findOne] returns the first match, [save] writes the document
      back under its [_id].  The store, bcrypt and the random source are
      taken to be available (they do not raise).
    - The helpers the controller imports from utils/ and nodemailer/ are
      not part of the controller; they are the fields of [Env], and may
      raise.  The risk score is an integer, as the scorer's contract has
      it. *)

From stdpp Require Import base option list strings gmap.
From Stdlib Require Import ZArith Ascii String Lia.
From Stdlib.Strings Require Import Byte.

Set Warnings "-register-all".
Local Open Scope string_scope.
Local Open Scope Z_scope.

(** ** Data model *)

(** The evidence of one attempt, as the client sends it in [req.body.context].
    The controller reads [device] only; the other fields travel to the
    scorer, the profile updater and the mail templates.  Coordinates and
    typing speed are carried as scaled integers. *)
Module Context.
Record t := mk {
  ip : option string;
  device : option string;
  location : option (Z * Z);
  typingSpeed : option Z;
  loginHours : option Z;
}.
End Context.

(** One entry of [user.contextLogs]. *)
Module ContextLog.
Record t := mk {
  ip : option string;
  device : option string;
  location : option (Z * Z);
  locationName : string;
  timestamp : Z;
  riskScore : Z;
}.
End ContextLog.

(** The user document, with the fields the controller writes at signup and
    reads or writes afterwards. *)
Module User.
Record t := mk {
  _id : Z;
  accountNumber : string;
  ifscCode : string;
  balance : Z;
  email : string;
  password : string;
  name : string;
  isVerified : bool;
  lastLogin : option Z;
  verificationToken : option string;
  verificationTokenExpiresAt : option Z;
  resetPasswordToken : option string;
  resetPasswordExpiresAt : option Z;
  trustedIPs : list string;
  trustedDevices : list string;
  locations : list (Z * Z);
  contextLogs : list ContextLog.t;
  behavioralProfile : option Z * option Z;
  riskScore : Z;
}.

(** [user.verificationToken = c; user.verificationTokenExpiresAt = e] *)
Definition set_verification (c : option string) (e : option Z) (u : t) : t :=
  mk (_id u) (accountNumber u) (ifscCode u) (balance u) (email u)
     (password u) (name u) (isVerified u) (lastLogin u)
     c e
     (resetPasswordToken u) (resetPasswordExpiresAt u)
     (trustedIPs u) (trustedDevices u) (locations u) (contextLogs u)
     (behavioralProfile u) (riskScore u).

(** [user.resetPasswordToken = c; user.resetPasswordExpiresAt = e] *)
Definition set_resetPassword (c : option string) (e : option Z) (u : t) : t :=
  mk (_id u) (accountNumber u) (ifscCode u) (balance u) (email u)
     (password u) (name u) (isVerified u) (lastLogin u)
     (verificationToken u) (verificationTokenExpiresAt u)
     c e
     (trustedIPs u) (trustedDevices u) (locations u) (contextLogs u)
     (behavioralProfile u) (riskScore u).

(** [user.lastLogin = new Date()] *)
Definition set_lastLogin (d : Z) (u : t) : t :=
  mk (_id u) (accountNumber u) (ifscCode u) (balance u) (email u)
     (password u) (name u) (isVerified u) (Some d)
     (verificationToken u) (verificationTokenExpiresAt u)
     (resetPasswordToken u) (resetPasswordExpiresAt u)
     (trustedIPs u) (trustedDevices u) (locations u) (contextLogs u)
     (behavioralProfile u) (riskScore u).

(** [user.isVerified = true] *)
Definition set_isVerified (b : bool) (u : t) : t :=
  mk (_id u) (accountNumber u) (ifscCode u) (balance u) (email u)
     (password u) (name u) b (lastLogin u)
     (verificationToken u) (verificationTokenExpiresAt u)
     (resetPasswordToken u) (resetPasswordExpiresAt u)
     (trustedIPs u) (trustedDevices u) (locations u) (contextLogs u)
     (behavioralProfile u) (riskScore u).

(** [user.password = h] *)
Definition set_password (h : string) (u : t) : t :=
  mk (_id u) (accountNumber u) (ifscCode u) (balance u) (email u)
     h (name u) (isVerified u) (lastLogin u)
     (verificationToken u) (verificationTokenExpiresAt u)
     (resetPasswordToken u) (resetPasswordExpiresAt u)
     (trustedIPs u) (trustedDevices u) (locations u) (contextLogs u)
     (behavioralProfile u) (riskScore u).
End User.

(** The part of the document the spec calls the TrustStore: trusted sets,
    locations, behavioural baseline, context log and last score. *)
Definition TrustStore : Type :=
  list string * list string * list (Z * Z) * (option Z * option Z)
  * list ContextLog.t * Z.

Definition trustStore (u : User.t) : TrustStore :=
  (User.trustedIPs u, User.trustedDevices u, User.locations u,
   User.behavioralProfile u, User.contextLogs u, User.riskScore u).

(** ** Outgoing calls *)

(** The mails of nodemailer/emails.js the modelled handlers send, with
    their arguments. *)
Inductive Mail :=
| VerificationEmail (to code : string)
| WelcomeEmail (to name : string)
| ResetPasswordEmail (to url : string)
| ResetSuccessEmail (to : string)
| NewDeviceLoginAlert (to name : string) (context : Context.t) (url : string)
| SuspiciousActivityWarning (to name : string) (context : Context.t) (risk : Z)
| TwoFactorAuthEmail (to name code : string) (context : Context.t).

(** What a handler run does to the outside, in order. *)
Inductive Event :=
| EvSave (u : User.t)
| EvMail (m : Mail)
| EvEvaluate (context : Context.t) (u : User.t)
| EvUpdateProfile (u : User.t) (context : Context.t) (risk : Z).

(** ** Responses *)

(** A JSON value, as far as the user payload needs one. *)
Inductive JsVal :=
| JUndef
| JBool (b : bool)
| JNum (z : Z)
| JStr (s : string)
| JArr (l : list JsVal)
| JObj (l : list (string * JsVal)).

Inductive Body :=
| JsonMessage (success : bool) (message : string)
| JsonError (error : string)
| JsonRequire2FA (message : string) (email : string)
| JsonUser (message : string) (user : gmap string JsVal).

(** [res.status(s).json(b)], and the cookie [generateTokenAndSetCookie]
    attached to [res] beforehand, if any (the id the session is for). *)
Record Response := mkResponse {
  status : Z;
  body : Body;
  cookie : option Z;
}.

Definition reply (s : Z) (b : Body) : Response := mkResponse s b None.

(** ** The world and the handler monad *)

Record World := mkWorld {
  db : list User.t;
  now : Z;
  drawn : nat;
  trace : list Event;
}.

Inductive Outcome (A : Type) :=
| Returns (a : A)
| Throws (msg : string).
Arguments Returns {A} a.
Arguments Throws {A} msg.

Inductive Result (A : Type) :=
| Ret (a : A) (w : World)
| Throw (msg : string) (w : World).
Arguments Ret {A} a w.
Arguments Throw {A} msg w.

Definition M (A : Type) : Type := World -> Result A.

Definition ret {A} (a : A) : M A := fun w => Ret a w.
Definition throw {A} (msg : string) : M A := fun w => Throw msg w.
Definition bind {A B} (m : M A) (k : A -> M B) : M B :=
  fun w => match m w with
           | Ret a w' => k a w'
           | Throw msg w' => Throw msg w'
           end.
(** [try { m } catch (error) { h(error.message) }] *)
Definition try_catch {A} (m : M A) (h : string -> M A) : M A :=
  fun w => match m w with
           | Ret a w' => Ret a w'
           | Throw msg w' => h msg w'
           end.

Notation "'let*' x ':=' m 'in' k" := (bind m (fun x => k))
  (at level 10, x pattern, m at level 100, k at level 200).

Definition log (e : Event) : M unit :=
  fun w => Ret tt (mkWorld (db w) (now w) (drawn w) (trace w ++ [e])).

Definition lift {A} (o : Outcome A) : M A :=
  match o with
  | Returns a => ret a
  | Throws msg => throw msg
  end.

(** [Date.now()] *)
Definition Date_now : M Z := fun w => Ret (now w) w.

(** [Model.findOne(filter)]: the first stored document the filter accepts. *)
Definition findOne (filter : User.t -> bool) : M (option User.t) :=
  fun w => Ret (find filter (db w)) w.

Definition same_id (u d : User.t) : bool := bool_decide (User._id d = User._id u).

(** [user.save()]: the stored document with this [_id] is replaced; a
    document not yet stored is inserted. *)
Definition store (u : User.t) (l : list User.t) : list User.t :=
  if existsb (same_id u) l
  then map (fun d => if same_id u d then u else d) l
  else l ++ [u].

Definition save (u : User.t) : M unit :=
  fun w => Ret tt (mkWorld (store u (db w)) (now w) (drawn w) (trace w ++ [EvSave u])).

(** ** Random tokens *)

Definition hex_digit (n : N) : ascii :=
  ascii_of_N (if (n <? 10)%N then 48 + n else 87 + n)%N.

(** [Buffer.toString("hex")]: two lower-case digits per byte. *)
Fixpoint toString_hex (bs : list byte) : string :=
  match bs with
  | [] => EmptyString
  | b :: bs' =>
      String (hex_digit (Byte.to_N b / 16))
        (String (hex_digit (Byte.to_N b mod 16)) (toString_hex bs'))
  end.

(** ** The imported helpers *)

(** The collaborators of the controller whose code lives outside it.
    [evaluateContext] is the scorer (an integer score, or an exception);
    [updateContextProfile user context risk] receives the document and
    the instant, and leaves the document as returned, telling whether it
    saved it; [sendMail] is the awaited promise of a mail function;
    [generateVerificationCode] and [randomByte] are read at the next
    unused position of the random source. *)
Record Env := mkEnv {
  CLIENT_URL : string;
  bcrypt_compare : string -> string -> bool;
  bcrypt_hash : string -> string;
  verifyCaptcha : string -> Outcome bool;
  evaluateContext : Context.t -> User.t -> Outcome Z;
  updateContextProfile : User.t -> Context.t -> Z -> Z -> Outcome (User.t * bool);
  generateVerificationCode : nat -> string;
  randomByte : nat -> byte;
  sendMail : Mail -> Outcome unit;
}.

(** ** JavaScript odds and ends *)

(** [x] when [x] is truthy: a present, non-empty string. *)
Definition truthy (x : option string) : option string :=
  match x with
  | Some s => if bool_decide (s = "") then None else Some s
  | None => None
  end.

(** [array.includes(x)] on an array of strings. *)
Definition includes (x : option string) (l : list string) : bool :=
  match x with
  | Some s => bool_decide (s ∈ l)
  | None => false
  end.

(** The filter [{ field: { $gt: t } }] on a date field. *)
Definition gt (field : option Z) (t : Z) : bool :=
  match field with
  | Some e => t <? e
  | None => false
  end.

Definition is_undefined (v : JsVal) : bool :=
  match v with
  | JUndef => true
  | _ => false
  end.

(** The filter [{ email }]. *)
Definition has_email (email : string) (u : User.t) : bool :=
  bool_decide (User.email u = email).

(** The filter [{ verificationToken: code, verificationTokenExpiresAt:
    { $gt: t } }]; an absent code is sent as null, which an unset field
    matches. *)
Definition verification_filter (code : option string) (t : Z) (u : User.t) : bool :=
  bool_decide (User.verificationToken u = code)
  && gt (User.verificationTokenExpiresAt u) t.

(** The filter [{ email, verificationToken: code,
    verificationTokenExpiresAt: { $gt: t } }] of verifyTwoFactorAuth. *)
Definition two_factor_filter (email code : string) (t : Z) (u : User.t) : bool :=
  has_email email u && verification_filter (Some code) t u.

(** The filter [{ resetPasswordToken: token, resetPasswordExpiresAt:
    { $gt: t } }]. *)
Definition reset_filter (token : string) (t : Z) (u : User.t) : bool :=
  bool_decide (User.resetPasswordToken u = Some token)
  && gt (User.resetPasswordExpiresAt u) t.

Definition js_opt {A} (f : A -> JsVal) (o : option A) : JsVal :=
  match o with
  | Some a => f a
  | None => JUndef
  end.

Definition js_location (p : Z * Z) : JsVal :=
  JObj [("lat", JNum p.1); ("lon", JNum p.2)].

Definition js_contextLog (l : ContextLog.t) : JsVal :=
  JObj [("ip", js_opt JStr (ContextLog.ip l));
        ("device", js_opt JStr (ContextLog.device l));
        ("location",
          JObj [("lat", js_opt (fun p => JNum p.1) (ContextLog.location l));
                ("lon", js_opt (fun p => JNum p.2) (ContextLog.location l));
                ("locationName", JStr (ContextLog.locationName l))]);
        ("timestamp", JNum (ContextLog.timestamp l));
        ("riskScore", JNum (ContextLog.riskScore l))].

(** [user._doc]: the document as a plain object. *)
Definition _doc (u : User.t) : gmap string JsVal :=
  list_to_map
    [("_id", JNum (User._id u));
     ("accountNumber", JStr (User.accountNumber u));
     ("ifscCode", JStr (User.ifscCode u));
     ("balance", JNum (User.balance u));
     ("email", JStr (User.email u));
     ("password", JStr (User.password u));
     ("name", JStr (User.name u));
     ("isVerified", JBool (User.isVerified u));
     ("lastLogin", js_opt JNum (User.lastLogin u));
     ("verificationToken", js_opt JStr (User.verificationToken u));
     ("verificationTokenExpiresAt", js_opt JNum (User.verificationTokenExpiresAt u));
     ("resetPasswordToken", js_opt JStr (User.resetPasswordToken u));
     ("resetPasswordExpiresAt", js_opt JNum (User.resetPasswordExpiresAt u));
     ("trustedIPs", JArr (JStr <$> User.trustedIPs u));
     ("trustedDevices", JArr (JStr <$> User.trustedDevices u));
     ("locations", JArr (js_location <$> User.locations u));
     ("contextLogs", JArr (js_contextLog <$> User.contextLogs u));
     ("behavioralProfile",
       JObj [("typingSpeed", js_opt JNum (User.behavioralProfile u).1);
             ("loginHours", js_opt JNum (User.behavioralProfile u).2)]);
     ("riskScore", JNum (User.riskScore u))].

(** [{ ...user._doc, password: undefined }] *)
Definition without_password (u : User.t) : gmap string JsVal :=
  <["password" := JUndef]> (_doc u).

(** [{ ...user._doc, password: undefined, trustedIPs: undefined,
      trustedDevices: undefined, locations: undefined,
      behavioralProfile: undefined, riskScore: undefined }] *)
Definition without_private (u : User.t) : gmap string JsVal :=
  <["riskScore" := JUndef]>
    (<["behavioralProfile" := JUndef]>
      (<["locations" := JUndef]>
        (<["trustedDevices" := JUndef]>
          (<["trustedIPs" := JUndef]>
            (<["password" := JUndef]> (_doc u)))))).

(** What [res.json] puts on the wire: [JSON.stringify] drops the
    properties whose value is [undefined]. *)
Definition stringify_fields (o : gmap string JsVal) : gmap string JsVal :=
  filter (fun kv => is_undefined kv.2 = false) o.

(** ** The handlers *)

Section Controller.
Variable E : Env.

(** An awaited mail: the call is made, and its rejection is raised. *)
Definition send (m : Mail) : M unit :=
  let* _ := log (EvMail m) in lift (sendMail E m).

(** A mail whose promise is not awaited: the call is made, and a
    rejection never reaches the handler's [catch]. *)
Definition send_detached (m : Mail) : M unit := log (EvMail m).

(** [crypto.randomBytes(n)] *)
Definition crypto_randomBytes (n : nat) : M (list byte) :=
  fun w => Ret (map (randomByte E) (seq (drawn w) n))
               (mkWorld (db w) (now w) (drawn w + n)%nat (trace w)).

Definition call_generateVerificationCode : M string :=
  fun w => Ret (generateVerificationCode E (drawn w))
               (mkWorld (db w) (now w) (S (drawn w)) (trace w)).

Definition call_evaluateContext (context : Context.t) (user : User.t) : M Z :=
  let* _ := log (EvEvaluate context user) in
  lift (evaluateContext E context user).

Definition call_updateContextProfile
    (user : User.t) (context : Context.t) (risk : Z) : M User.t :=
  let* _ := log (EvUpdateProfile user context risk) in
  let* t := Date_now in
  let* r := lift (updateContextProfile E user context risk t) in
  if r.2 then let* _ := save r.1 in ret r.1 else ret r.1.

(** [`${process.env.CLIENT_URL}/reset-password/${resetToken}`] *)
Definition reset_url (resetToken : string) : string :=
  CLIENT_URL E ++ "/reset-password/" ++ resetToken.

(** A handler: the body of the outer [try], and its [catch]. *)
Definition handle (m : M Response) (h : string -> Response)
    (w : World) : Response * World :=
  match m w with
  | Ret r w' => (r, w')
  | Throw msg w' => (h msg, w')
  end.

Definition server_error : Response :=
  reply 500 (JsonMessage false "Server error").

(** *** login *)

Definition TypeError_device : string :=
  "Cannot read properties of undefined (reading 'device')".

(** Lines 150-164: the new-device side channel.  [context.device] is
    read first, and raises when the body carries no context. *)
Definition newDeviceCheck (user : User.t) (context : option Context.t)
    : M (User.t * Context.t) :=
  match context with
  | None => throw TypeError_device
  | Some context =>
      let isDeviceTrusted :=
        includes (Context.device context) (User.trustedDevices user) in
      if negb isDeviceTrusted then
        let* bytes := crypto_randomBytes 20 in
        let resetToken := toString_hex bytes in
        let* t := Date_now in
        let resetTokenExpiresAt := t + 30 * 60 * 1000 in
        let user :=
          User.set_resetPassword (Some resetToken) (Some resetTokenExpiresAt) user in
        let* _ := save user in
        let* _ := send (NewDeviceLoginAlert (User.email user) (User.name user)
                          context (reset_url resetToken)) in
        ret (user, context)
      else ret (user, context)
  end.

Definition blocked : Response :=
  reply 403 (JsonMessage false
    "Suspicious activity detected, login blocked for your security. Check your email for details.").

(** Lines 166-208: scoring and the three-way decision.  [inl] is a
    response returned from inside the [try]; [inr] is the document with
    which control leaves the [try]. *)
Definition riskDecision (user : User.t) (context : Context.t)
    : M (Response + User.t) :=
  let* risk := call_evaluateContext context user in
  if 10 <=? risk then
    let* _ := send (SuspiciousActivityWarning (User.email user) (User.name user)
                      context risk) in
    ret (inl blocked)
  else if 5 <=? risk then
    let* verificationToken := call_generateVerificationCode in
    let* t := Date_now in
    let user :=
      User.set_verification (Some verificationToken) (Some (t + 5 * 60 * 1000)) user in
    let* _ := save user in
    let* _ := send (TwoFactorAuthEmail (User.email user) (User.name user)
                      verificationToken context) in
    let* user := call_updateContextProfile user context risk in
    ret (inl (reply 200
                (JsonRequire2FA "Two-factor authentication required" (User.email user))))
  else
    let* t := Date_now in
    let user := User.set_lastLogin t user in
    let* user := call_updateContextProfile user context risk in
    let* _ := save user in
    ret (inr user).

(** Lines 149-212: the inner [try] and its [catch]. *)
Definition contextCheck (user : User.t) (context : option Context.t)
    : M (Response + User.t) :=
  try_catch
    (let* uc := newDeviceCheck user context in riskDecision uc.1 uc.2)
    (fun _ => ret (inl server_error)).

Definition logged_in (user : User.t) : Response :=
  mkResponse 200 (JsonUser "Logged in successfully" (without_private user))
             (Some (User._id user)).

Definition login (email password : option string)
    (context : option Context.t) (captcha : option string)
    : World -> Response * World :=
  handle
    (match truthy email, truthy password with
     | Some email, Some password =>
         match truthy captcha with
         | None => ret (reply 400 (JsonMessage false "Captcha is required!"))
         | Some captcha =>
             let* user := findOne (has_email email) in
             match user with
             | None => ret (reply 400 (JsonMessage false "User not found!"))
             | Some user =>
                 if negb (bcrypt_compare E password (User.password user)) then
                   ret (reply 400 (JsonMessage false "Wrong Password!"))
                 else
                   let* isHuman := lift (verifyCaptcha E captcha) in
                   if negb isHuman then ret (reply 403 (JsonError "Bot detected"))
                   else
                     let* r := contextCheck user context in
                     match r with
                     | inl response => ret response
                     | inr user => ret (logged_in user)
                     end
             end
         end
     | _, _ => throw "All fields are required!"
     end)
    (fun msg => reply 400 (JsonMessage false msg)).

(** *** verifyEmail *)

Definition invalid_or_expired : Response :=
  reply 400 (JsonMessage false "Invalid or expired verification code").

Definition verifyEmail (verificationCode : option string)
    : World -> Response * World :=
  handle
    (let* t := Date_now in
     let* user := findOne (verification_filter verificationCode t) in
     match user with
     | None => ret invalid_or_expired
     | Some user =>
         let user := User.set_isVerified true user in
         let user := User.set_verification None None user in
         let* _ := save user in
         let* _ := send (WelcomeEmail (User.email user) (User.name user)) in
         ret (reply 200 (JsonUser "Email verified successfully" (without_password user)))
     end)
    (fun _ => server_error).

(** *** resendVerificationCode *)

Definition resendVerificationCode (email : option string)
    : World -> Response * World :=
  handle
    (match truthy email with
     | None => ret (reply 400 (JsonMessage false "Email is required!"))
     | Some email =>
         let* user := findOne (has_email email) in
         match user with
         | None => ret (reply 400 (JsonMessage false "User not found!"))
         | Some user =>
             if User.isVerified user then
               ret (reply 400 (JsonMessage false "User already verified!"))
             else
               let* verificationToken := call_generateVerificationCode in
               let* t := Date_now in
               let user :=
                 User.set_verification (Some verificationToken) (Some (t + 60 * 1000)) user in
               let* _ := save user in
               let* _ := send (VerificationEmail (User.email user) verificationToken) in
               ret (reply 200 (JsonMessage true "Verification code resent successfully"))
         end
     end)
    (fun _ => server_error).

(** *** forgotPassword *)

(** The guard on a missing email sends its response and does not
    return: the handler goes on with the lookup, and whatever it sends
    later is raised against a response already sent.  The client holds
    the first response; the effects of the rest stay. *)
Definition forgotPassword (email : option string)
    : World -> Response * World :=
  fun w =>
    let rest :=
      handle
        (let* user := findOne (fun u =>
           match email with
           | Some email => has_email email u
           | None => false
           end) in
         match user with
         | None => ret (reply 400 (JsonMessage false "User not found!"))
         | Some user =>
             let* bytes := crypto_randomBytes 20 in
             let resetToken := toString_hex bytes in
             let* t := Date_now in
             let resetTokenExpiresAt := t + 30 * 60 * 1000 in
             let user :=
               User.set_resetPassword (Some resetToken) (Some resetTokenExpiresAt) user in
             let* _ := save user in
             let* _ := send_detached
                         (ResetPasswordEmail (User.email user) (reset_url resetToken)) in
             ret (reply 200 (JsonMessage true "Password reset token sent to your email"))
         end)
        (fun _ => server_error) w in
    match truthy email with
    | None => (reply 400 (JsonMessage false "Email is required!"), rest.2)
    | Some _ => rest
    end.

(** *** resetPassword *)

Definition resetPassword (token : string) (newPassword : option string)
    : World -> Response * World :=
  handle
    (match truthy newPassword with
     | None => ret (reply 400 (JsonMessage false "New password is required!"))
     | Some newPassword =>
         let* t := Date_now in
         let* user := findOne (reset_filter token t) in
         match user with
         | None => ret (reply 400 (JsonMessage false "Invalid or expired reset token"))
         | Some user =>
             let hashedPassword := bcrypt_hash E newPassword in
             let user := User.set_password hashedPassword user in
             let user := User.set_resetPassword None None user in
             let* _ := save user in
             let* _ := send_detached (ResetSuccessEmail (User.email user)) in
             ret (reply 200 (JsonMessage true "Password reset successfully"))
         end
     end)
    (fun _ => server_error).

(** *** verifyTwoFactorAuth *)

Definition two_factor_done (user : User.t) : Response :=
  mkResponse 200
    (JsonUser "Two-factor authentication completed successfully" (without_private user))
    (Some (User._id user)).

Definition verifyTwoFactorAuth (email verificationCode : option string)
    : World -> Response * World :=
  handle
    (match truthy email, truthy verificationCode with
     | Some email, Some verificationCode =>
         let* t := Date_now in
         let* user := findOne (two_factor_filter email verificationCode t) in
         match user with
         | None => ret invalid_or_expired
         | Some user =>
             let user := User.set_verification None None user in
             let* _ := save user in
             ret (two_factor_done user)
         end
     | _, _ =>
         ret (reply 400 (JsonMessage false "Email and verification code are required!"))
     end)
    (fun _ => server_error).

End Controller.

(** ** A concrete deployment, for running the handlers *)

Module Scenario.

Definition codes : list string := ["482913"; "730155"; "265084"; "917346"].

(** The baseline after one more observation: the mean of the stored value
    and the new one, the new one when nothing is stored, the stored one
    when the context has none. *)
Definition incorporate (baseline observed : option Z) : option Z :=
  match baseline, observed with
  | Some b, Some o => Some ((b + o) / 2)
  | None, Some o => Some o
  | _, None => baseline
  end.

(** Modelled from the spec: utils/updateContextProfile.js is not part of
    the controller.  By the spec's section 4.3 the context is appended to
    the log with its score, its ip and device join the trusted sets, its
    location is appended, the behavioural baseline incorporates the new
    typing speed and login hour, and the score is recorded. *)
Definition fold (u : User.t) (c : Context.t) (risk : Z) (t : Z) : User.t :=
  User.mk (User._id u) (User.accountNumber u) (User.ifscCode u) (User.balance u)
    (User.email u) (User.password u) (User.name u) (User.isVerified u)
    (User.lastLogin u)
    (User.verificationToken u) (User.verificationTokenExpiresAt u)
    (User.resetPasswordToken u) (User.resetPasswordExpiresAt u)
    (match Context.ip c with
     | Some i => if bool_decide (i ∈ User.trustedIPs u) then User.trustedIPs u
                 else User.trustedIPs u ++ [i]
     | None => User.trustedIPs u
     end)
    (match Context.device c with
     | Some d => if bool_decide (d ∈ User.trustedDevices u) then User.trustedDevices u
                 else User.trustedDevices u ++ [d]
     | None => User.trustedDevices u
     end)
    (match Context.location c with
     | Some p => User.locations u ++ [p]
     | None => User.locations u
     end)
    (User.contextLogs u ++
       [ContextLog.mk (Context.ip c) (Context.device c) (Context.location c)
          "Unknown" t risk])
    (incorporate (User.behavioralProfile u).1 (Context.typingSpeed c),
     incorporate (User.behavioralProfile u).2 (Context.loginHours c))
    risk.

(** Everything answers, and the updater saves the document it folded;
    the scorer returns [risk]. *)
Definition env (risk : Outcome Z) : Env :=
  mkEnv "https://bank.example"
    (fun password hash => bool_decide (hash = "bcrypt:" ++ password))
    (fun password => "bcrypt:" ++ password)
    (fun captcha => Returns (bool_decide (captcha = "human")))
    (fun _ _ => risk)
    (fun u c r t => Returns (fold u c r t, true))
    (fun n => nth n codes "000000")
    (fun n => default Byte.x00 (Byte.of_N (N.of_nat (n * 37 + 11) mod 256)))
    (fun _ => Returns tt).

Definition alice : User.t :=
  User.mk 1 "ACC0001" "BANK0001" 2500 "alice@example.org" "bcrypt:correct horse"
    "Alice" false None None None None None
    ["1.2.3.4"] ["chrome-macos-abc"] [(52520000, 13405000)]
    [ContextLog.mk (Some "1.2.3.4") (Some "chrome-macos-abc")
       (Some (52520000, 13405000)) "Berlin" 1700000000000 0]
    (Some 42, Some 9) 0.

Definition bob : User.t :=
  User.mk 2 "ACC0002" "BANK0001" 10 "bob@example.org" "bcrypt:hunter2"
    "Bob" true None None None None None
    ["5.6.7.8"] ["firefox-linux-xyz"] [(48857000, 2352000)] [] (Some 55, Some 20) 0.

Definition w0 : World := mkWorld [alice; bob] 1700000100000 0 [].

(** Alice's usual browser, and a browser she has not used before. *)
Definition known : Context.t :=
  Context.mk (Some "1.2.3.4") (Some "chrome-macos-abc")
    (Some (52520000, 13405000)) (Some 42) (Some 9).

Definition unknown : Context.t :=
  Context.mk (Some "9.9.9.9") (Some "safari-ios-new")
    (Some (35676000, 139650000)) (Some 80) (Some 3).

(** A context object with no fields. *)
Definition empty : Context.t := Context.mk None None None None None.

Definition later (ms : Z) (w : World) : World :=
  mkWorld (db w) (now w + ms) (drawn w) (trace w).

(** A deployment whose scorer finds nothing unusual. *)
Definition quiet : Env := env (Returns 0).

(** Alice, not yet verified, asks for her email-verification code again. *)
Definition after_resend : World :=
(resendVerificationCode quiet (Some "alice@example.org") w0).2.

(** A minute and a second later, the code of [after_resend] has expired. *)
Definition stale : World := later 61000 after_resend.

(** A deployment whose scorer returns 7 and whose mail transport is down:
    every mail is refused. *)
Definition mail_down : Env :=
  let E := env (Returns 7) in
  mkEnv (CLIENT_URL E) (bcrypt_compare E) (bcrypt_hash E) (verifyCaptcha E)
    (evaluateContext E) (updateContextProfile E) (generateVerificationCode E)
    (randomByte E) (fun _ => Throws "connect ECONNREFUSED 127.0.0.1:587").

(** Alice logs in from her usual browser while the mail transport is
    down. *)
Definition after_mail_down : Response * World :=
login mail_down (Some "alice@example.org") (Some "correct horse") (Some known)
  (Some "human") w0.

(** A deployment whose scorer raises, as on a context without location. *)
Definition strict : Env :=
env (Throws "Cannot read properties of undefined (reading 'latitude')").

End Scenario.


(** ** Vocabulary of the properties *)

(** The store never holds two documents under one [_id]. *)
Definition unique_ids (l : list User.t) : Prop := NoDup (User._id <$> l).

(** The credential and captcha checks of [login] pass, for the document
    [user]: the fields are present, [findOne] returns [user], the password
    matches its hash and the captcha is a human's. *)
Definition accepted (E : Env) (email password captcha : option string)
    (w : World) (user : User.t) : Prop :=
  ∃ e p c,
    truthy email = Some e ∧ truthy password = Some p ∧ truthy captcha = Some c
    ∧ find (has_email e) (db w) = Some user
    ∧ bcrypt_compare E p (User.password user) = true
    ∧ verifyCaptcha E c = Returns true.

(** What [login] answers once the checks have passed, from the outcome of
    the inner [try]. *)
Definition finish (r : Result (Response + User.t)) : Response * World :=
  match r with
  | Ret (inl response) w => (response, w)
  | Ret (inr user) w => (logged_in user, w)
  | Throw msg w => (reply 400 (JsonMessage false msg), w)
  end.

(** The user [id] is stored, and each of its documents carries this reset
    token and deadline. *)
Definition holds_reset (id : Z) (token : option string) (deadline : option Z)
    (l : list User.t) : Prop :=
  (∃ d, d ∈ l ∧ User._id d = id)
  ∧ ∀ d, d ∈ l → User._id d = id →
      User.resetPasswordToken d = token ∧ User.resetPasswordExpiresAt d = deadline.

(** The same for the verification code. *)
Definition holds_verification (id : Z) (code : option string) (deadline : option Z)
    (l : list User.t) : Prop :=
  (∃ d, d ∈ l ∧ User._id d = id)
  ∧ ∀ d, d ∈ l → User._id d = id →
      User.verificationToken d = code ∧ User.verificationTokenExpiresAt d = deadline.

(** The profile updater keeps the identity and the token fields of the
    document it is given (it folds the context into the TrustStore). *)
Definition updater_keeps_tokens (E : Env) : Prop :=
  ∀ u c r t u' saved,
    updateContextProfile E u c r t = Returns (u', saved) →
    User._id u' = User._id u
    ∧ User.verificationToken u' = User.verificationToken u
    ∧ User.verificationTokenExpiresAt u' = User.verificationTokenExpiresAt u
    ∧ User.resetPasswordToken u' = User.resetPasswordToken u
    ∧ User.resetPasswordExpiresAt u' = User.resetPasswordExpiresAt u.

(** The world after further outgoing calls. *)
Definition add_events (es : list Event) (w : World) : World :=
  mkWorld (db w) (now w) (drawn w) (trace w ++ es).

(** The world an outcome leaves. *)
Definition world_of {A} (r : Result A) : World :=
  match r with
  | Ret _ w => w
  | Throw _ w => w
  end.

Definition is_new_device_alert (e : Event) : bool :=
  match e with
  | EvMail (NewDeviceLoginAlert _ _ _ _) => true
  | _ => false
  end.

(** *** Purposes of verification codes *)

Inductive Purpose := EmailVerify | TwoFactor.

(** The code a mail delivers to an address, with the purpose it was issued
    for: sendVerificationEmail carries email-verification codes,
    sendTwoFactorAuthEmail second-factor codes. *)
Definition delivers (email : string) (e : Event) : option (string * Purpose) :=
  match e with
  | EvMail (VerificationEmail to code) =>
      if bool_decide (to = email) then Some (code, EmailVerify) else None
  | EvMail (TwoFactorAuthEmail to _ code _) =>
      if bool_decide (to = email) then Some (code, TwoFactor) else None
  | _ => None
  end.

(** The verification code last issued to an address, and its purpose. *)
Definition last_issued (email : string) (tr : list Event) : option (string * Purpose) :=
  last (omap (delivers email) tr).

(** The spec's [VerificationToken{purpose: TwoFactor}], live for an
    address: the code last issued to it was a second-factor code, and a
    stored document of that address carries it with a deadline ahead.  (The
    document has no purpose field; the purpose of a stored code is the one
    it was issued for.) *)
Definition live_two_factor_token (w : World) (email code : string) : Prop :=
  last_issued email (trace w) = Some (code, TwoFactor)
  ∧ ∃ u, u ∈ db w ∧ User.email u = email
      ∧ User.verificationToken u = Some code
      ∧ gt (User.verificationTokenExpiresAt u) (now w) = true.

(** The rejection the spec promises for a request with missing context
    fields: a client error (a 4xx status), and a store left as it was (no
    TrustStore mutation, no token stored). *)
Definition client_error_without_effect (w : World) (out : Response * World) : Prop :=
  400 <= status out.1 < 500 ∧ db out.2 = db w.

(** The reset token [crypto.randomBytes(20).toString("hex")] yields in a
    world. *)
Definition fresh_reset_token (E : Env) (w : World) : string :=
  toString_hex (map (randomByte E) (seq (drawn w) 20)).

(** The answer carries no user record. *)
Definition no_user (r : Response) : Prop :=
  match body r with
  | JsonUser _ _ => False
  | _ => True
  end.

(** The fields the success answers of login and verifyTwoFactorAuth set
    to [undefined]. *)
Definition private_fields : list string :=
  ["password"; "trustedIPs"; "trustedDevices"; "locations"; "behavioralProfile";
   "riskScore"].

(** The fields of the document that make up the spec's TrustStore:
    trusted sets, known locations, behavioural baseline, context log and
    last score. *)
Definition trust_store_fields : list string :=
  ["trustedIPs"; "trustedDevices"; "locations"; "behavioralProfile"; "contextLogs";
   "riskScore"].

(** No TrustStore field is on the wire. *)
Definition hides_trust_store (r : Response) : Prop :=
  match body r with
  | JsonUser _ p => ∀ k, k ∈ trust_store_fields → stringify_fields p !! k = None
  | _ => True
  end.

(** * The rest of the controller *)

(** ** signup *)

(** What signup needs beyond [Env]: the helpers
    utils/generateAccountDetails.js and utils/getLocationName.js, the
    [_id] Mongoose gives a new document, and the defaults of
    models/user.model.js for the fields the constructor is not given. *)
Record SignupEnv := mkSignupEnv {
  generateAccountDetails : nat -> string * string;
  getLocationName : Z -> Z -> Outcome (option string);
  ObjectId : nat -> Z;
  default_balance : Z;
  default_isVerified : bool;
  default_lastLogin : Z -> option Z;
}.

Definition TypeError_ip : string :=
  "Cannot read properties of undefined (reading 'ip')".

Definition TypeError_latitude : string :=
  "Cannot read properties of undefined (reading 'latitude')".

(** [name || "Unknown"] *)
Definition or_Unknown (name : option string) : string :=
  match truthy name with
  | Some n => n
  | None => "Unknown"
  end.

Section Accounts.
Variable E : Env.
Variable A : SignupEnv.

Definition call_generateAccountDetails : M (string * string) :=
  fun w => Ret (generateAccountDetails A (drawn w))
               (mkWorld (db w) (now w) (S (drawn w)) (trace w)).

(** [new User(...)] draws the document's [_id]; Mongoose is taken never
    to give an [_id] that is in use. *)
Definition new_ObjectId : M Z :=
  fun w => Ret (ObjectId A (drawn w))
               (mkWorld (db w) (now w) (S (drawn w)) (trace w)).

(** Lines 57-95: the document signup builds, from a context that has its
    ip, device and location. *)
Definition new_user (_id : Z) (accountDetails : string * string)
    (email hashedPassword name verificationToken : string) (t : Z)
    (ip device : string) (location : Z * Z) (locationName : option string)
    (typingSpeed loginHours : option Z) : User.t :=
  User.mk _id accountDetails.1 accountDetails.2 (default_balance A)
    email hashedPassword name (default_isVerified A) (default_lastLogin A t)
    (Some verificationToken) (Some (t + 60 * 1000)) None None
    [ip] [device] [location]
    [ContextLog.mk (Some ip) (Some device) (Some location)
       (or_Unknown locationName) t 0]
    (typingSpeed, loginHours) 0.

(** Lines 26-115.  The answer is [None] when the context has a location
    but lacks its ip or its device: the arrays [[context.ip]] and
    [[context.device]] would then hold an entry that is no string, which
    the document type here does not represent.  Once the cookie is set on
    the response, the answer of the [catch] carries it too. *)
Definition signup_body (email password name : option string)
    (context : option Context.t) (captcha : option string)
    : M (option Response) :=
  match truthy email, truthy password, truthy name with
  | Some email, Some password, Some name =>
      match truthy captcha with
      | None => ret (Some (reply 400 (JsonMessage false "Captcha is required!")))
      | Some captcha =>
          let* userAlreadyExists := findOne (has_email email) in
          match userAlreadyExists with
          | Some _ => ret (Some (reply 400 (JsonMessage false "User Already Exists!")))
          | None =>
              let hashedPassword := bcrypt_hash E password in
              let* verificationToken := call_generateVerificationCode E in
              let* accountDetails := call_generateAccountDetails in
              let* isHuman := lift (verifyCaptcha E captcha) in
              if negb isHuman then ret (Some (reply 403 (JsonError "Bot detected")))
              else
                let* t := Date_now in
                match context with
                | None => throw TypeError_ip
                | Some context =>
                    match Context.location context with
                    | None => throw TypeError_latitude
                    | Some location =>
                        let* locationName :=
                          lift (getLocationName A location.1 location.2) in
                        match Context.ip context, Context.device context with
                        | Some ip, Some device =>
                            let* _id := new_ObjectId in
                            let user :=
                              new_user _id accountDetails email hashedPassword name
                                verificationToken t ip device location locationName
                                (Context.typingSpeed context)
                                (Context.loginHours context) in
                            let* _ := save user in
                            try_catch
                              (let* _ := send E (VerificationEmail (User.email user)
                                                   verificationToken) in
                               ret (Some (mkResponse 201
                                            (JsonUser "User Created Successfully"
                                               (without_password user))
                                            (Some (User._id user)))))
                              (fun msg =>
                                 ret (Some (mkResponse 400 (JsonMessage false msg)
                                              (Some (User._id user)))))
                        | _, _ => ret None
                        end
                    end
                end
          end
      end
  | _, _, _ => throw "All fields are required!"
  end.

Definition signup (email password name : option string)
    (context : option Context.t) (captcha : option string)
    (w : World) : option (Response * World) :=
  match signup_body email password name context captcha w with
  | Ret (Some r) w' => Some (r, w')
  | Ret None _ => None
  | Throw msg w' => Some (reply 400 (JsonMessage false msg), w')
  end.

End Accounts.

(** ** The handlers behind the session check *)

(** The filter of [Model.findById(id)]; an absent id is sent as null,
    which no [_id] matches. *)
Definition has_id (id : option Z) (u : User.t) : bool :=
  match id with
  | Some i => bool_decide (User._id u = i)
  | None => false
  end.

(** [user.riskScore = r] *)
Definition set_riskScore (r : Z) (u : User.t) : User.t :=
  User.mk (User._id u) (User.accountNumber u) (User.ifscCode u) (User.balance u)
    (User.email u) (User.password u) (User.name u) (User.isVerified u)
    (User.lastLogin u)
    (User.verificationToken u) (User.verificationTokenExpiresAt u)
    (User.resetPasswordToken u) (User.resetPasswordExpiresAt u)
    (User.trustedIPs u) (User.trustedDevices u) (User.locations u)
    (User.contextLogs u) (User.behavioralProfile u) r.

(** Lines 544-562. *)
Definition resetRiskScore (userId : option Z) : World -> Response * World :=
  handle
    (let* user := findOne (has_id userId) in
     match user with
     | None => ret (reply 404 (JsonMessage false "User not found"))
     | Some user =>
         if User.riskScore user <=? 0 then
           ret (reply 400 (JsonMessage false "Risk score is already 0."))
         else
           let user := set_riskScore 0 user in
           let* _ := save user in
           ret (reply 200 (JsonMessage true "Risk score reset to 0."))
     end)
    (fun _ => server_error).

(** The answers of the handlers that only read. *)
Inductive ReadBody :=
| ReadMessage (success : bool) (message : string)
| ReadUser (user : gmap string JsVal)
| ReadAccountDetails (name accountNumber ifscCode : string) (balance : Z)
| ReadPayee (name accountNumber ifscCode : string).

(** Lines 388-401: [select("-password")] leaves the password out of the
    document that is sent. *)
Definition checkAuth (userId : option Z) (w : World) : Z * ReadBody :=
  match find (has_id userId) (db w) with
  | None => (404, ReadMessage false "User not found")
  | Some user => (200, ReadUser (delete "password" (_doc user)))
  end.

(** Lines 432-456. *)
Definition getMyAccountDetails (userId : option Z) (w : World) : Z * ReadBody :=
  match find (has_id userId) (db w) with
  | None => (404, ReadMessage false "User not found")
  | Some user =>
      (200, ReadAccountDetails (User.name user) (User.accountNumber user)
              (User.ifscCode user) (User.balance user))
  end.

(** Lines 459-491. *)
Definition findUserByAccountNumber (accountNumber : option string) (w : World)
    : Z * ReadBody :=
  match truthy accountNumber with
  | None => (400, ReadMessage false "Account number is required")
  | Some accountNumber =>
      match find (fun u => bool_decide (User.accountNumber u = accountNumber)) (db w) with
      | None => (404, ReadMessage false "User not found with this account number")
      | Some user =>
          (200, ReadPayee (User.name user) (User.accountNumber user)
                  (User.ifscCode user))
      end
  end.

(** ** deleteAccount *)

(** [Model.deleteOne(filter)]: the first match goes. *)
Fixpoint deleteOne {A} (filter : A -> bool) (l : list A) : list A :=
  match l with
  | [] => []
  | x :: l' => if filter x then l' else x :: deleteOne filter l'
  end.

(** [Model.deleteMany(filter)]: every match goes. *)
Definition deleteMany {A} (filter : A -> bool) (l : list A) : list A :=
  List.filter (fun x => negb (filter x)) l.

(** An answer that may also clear the session cookie
    ([res.clearCookie("token")]). *)
Record Answer := mkAnswer {
  response : Response;
  clearCookie : bool;
}.

(** Lines 383-386. *)
Definition logout : Answer :=
  mkAnswer (reply 200 (JsonMessage true "Logged out successfully")) true.

Section Deletion.
(** The documents of models/profile.model.js, transaction.model.js and
    serviceRequest.model.js, by the fields deleteAccount filters on, and
    the mail function it awaits. *)
Variables Profile Transaction ServiceRequest : Type.
Variable profile_user : Profile -> Z.
Variables transaction_userId transaction_recipientId : Transaction -> Z.
Variable serviceRequest_email : ServiceRequest -> string.
Variable sendAccountDeletionEmail : string -> string -> Outcome unit.

(** The user collection with the three other collections, and the
    account-deletion mails asked for (address and name). *)
Record Bank := mkBank {
  users : World;
  profiles : list Profile;
  transactions : list Transaction;
  serviceRequests : list ServiceRequest;
  deletionMails : list (string * string);
}.

(** Lines 403-429. *)
Definition deleteAccount (userId : option Z) (b : Bank) : Answer * Bank :=
  match find (has_id userId) (db (users b)) with
  | None => (mkAnswer (reply 404 (JsonMessage false "User not found")) false, b)
  | Some user =>
      let id := User._id user in
      let b' :=
        mkBank
          (mkWorld (deleteOne (fun u => bool_decide (User._id u = id)) (db (users b)))
             (now (users b)) (drawn (users b)) (trace (users b)))
          (deleteOne (fun p => bool_decide (profile_user p = id)) (profiles b))
          (deleteMany (fun t => bool_decide (transaction_userId t = id)
                                || bool_decide (transaction_recipientId t = id))
             (transactions b))
          (deleteMany (fun r => bool_decide (serviceRequest_email r = User.email user))
             (serviceRequests b))
          (deletionMails b ++ [(User.email user, User.name user)]) in
      match sendAccountDeletionEmail (User.email user) (User.name user) with
      | Returns _ =>
          (mkAnswer (reply 200 (JsonMessage true
                       "Account and all related data deleted successfully")) true,
           b')
      | Throws _ => (mkAnswer server_error true, b')
      end
  end.

End Deletion.

Arguments mkBank {Profile Transaction ServiceRequest}.
Arguments users {Profile Transaction ServiceRequest} b.
Arguments profiles {Profile Transaction ServiceRequest} b.
Arguments transactions {Profile Transaction ServiceRequest} b.
Arguments serviceRequests {Profile Transaction ServiceRequest} b.
Arguments deletionMails {Profile Transaction ServiceRequest} b.
Arguments deleteAccount {Profile Transaction ServiceRequest}.

(** ** Vocabulary of the further properties *)

(** The user [id] is stored, and each of its documents satisfies [P]. *)
Definition stored_with (id : Z) (P : User.t -> Prop) (l : list User.t) : Prop :=
  (∃ d, d ∈ l ∧ User._id d = id)
  ∧ ∀ d, d ∈ l → User._id d = id → P d.

(** No stored document of another user carries this verification code. *)
Definition code_only_of (id : Z) (code : string) (l : list User.t) : Prop :=
  ∀ d, d ∈ l → User._id d ≠ id → User.verificationToken d ≠ Some code.

(** No stored document of another user carries this reset token. *)
Definition reset_token_only_of (id : Z) (token : string) (l : list User.t) : Prop :=
  ∀ d, d ∈ l → User._id d ≠ id → User.resetPasswordToken d ≠ Some token.

(** The profile updater keeps the identity, the token fields and the
    address of the document it is given. *)
Definition updater_keeps_account (E : Env) : Prop :=
  updater_keeps_tokens E
  ∧ ∀ u c r t u' saved,
      updateContextProfile E u c r t = Returns (u', saved) →
      User.email u' = User.email u.

(** * The verification page (EmailVerificationPage) *)

Module EmailVerificationPage.

(** A JavaScript string is a sequence of UTF-16 code units: [length],
    [slice] and [split("")] count code units, so a character outside the
    ASCII range such as U+00E9 is one unit, and a character outside the
    basic plane is two. *)
Definition CodeUnit : Type := N.
Definition JsString : Type := list CodeUnit.

(** The code units of a string of ASCII characters. *)
Definition units (s : string) : JsString :=
  map N_of_ascii (list_ascii_of_string s).

(** One entry of the [code] array: a string, [undefined], or no entry at
    all (what an assignment past the end leaves in between). *)
Inductive Slot := Hole | Undefined | Chars (s : JsString).

(** [useState(["", "", "", "", "", ""])] *)
Definition initial : list Slot := replicate 6 (Chars []).

(** [[...code]]: a missing entry is copied as [undefined]. *)
Definition spread (code : list Slot) : list Slot :=
  map (fun s => match s with Hole => Undefined | _ => s end) code.

(** [array[i] = v]: past the end the array grows, leaving holes. *)
Definition assign (i : nat) (v : Slot) (l : list Slot) : list Slot :=
  if decide (i < List.length l)%nat then <[i:=v]> l
  else l ++ replicate (i - List.length l) Hole ++ [v].

(** [value.slice(0, n)] *)
Definition slice (n : nat) (value : JsString) : JsString := take n value.

(** [s.split("")]: one string per code unit. *)
Definition split (s : JsString) : list JsString := map (fun u => [u]) s.

(** [pastedValue[i] || ""] *)
Definition pasted (pastedValue : list JsString) (i : nat) : JsString :=
  match pastedValue !! i with
  | Some (u :: s) => u :: s
  | _ => []
  end.

(** [digit !== ""] *)
Definition filled (digit : Slot) : bool :=
  match digit with
  | Chars [] => false
  | _ => true
  end.

(** [!digit] *)
Definition falsy (digit : Slot) : bool :=
  match digit with
  | Chars (_ :: _) => false
  | _ => true
  end.

Fixpoint findLastIndex_from (f : Slot -> bool) (l : list Slot) (i found : Z) : Z :=
  match l with
  | [] => found
  | x :: l' => findLastIndex_from f l' (i + 1) (if f x then i else found)
  end.

(** [array.findLastIndex(f)], -1 when no entry passes; a missing entry
    is tested as [undefined]. *)
Definition findLastIndex (f : Slot -> bool) (l : list Slot) : Z :=
  findLastIndex_from f l 0 (-1).

(** Lines 40-59: the new [code], and the index of the input that is
    asked to take the focus, if any. *)
Definition handleChange (code : list Slot) (index : nat) (value : JsString)
    : list Slot * option nat :=
  let newCode := spread code in
  if (1 <? List.length value)%nat then
    let pastedValue := split (slice 6 value) in
    let newCode :=
      foldl (fun acc i => assign i (Chars (pasted pastedValue i)) acc)
        newCode (seq 0 6) in
    let lastFilledIndex := findLastIndex filled newCode in
    let focusIndex := if lastFilledIndex <? 5 then lastFilledIndex + 1 else 5 in
    (newCode, Some (Z.to_nat focusIndex))
  else
    let newCode := assign index (Chars (slice 1 value)) newCode in
    (newCode,
     match value with
     | _ :: _ => if (index <? 5)%nat then Some (index + 1)%nat else None
     | [] => None
     end).

(** Lines 61-66: the input asked to take the focus on a key press. *)
Definition handleKeyDown (code : list Slot) (index : nat) (key : JsString)
    : option nat :=
  if bool_decide (key = units "Backspace")
     && falsy (default Undefined (code !! index))
     && (0 <? index)%nat
  then Some (index - 1)%nat else None.

(** [code.join("")] *)
Definition join (code : list Slot) : JsString :=
  List.concat (map (fun s => match s with Chars c => c | _ => [] end) code).

(** [code.every((digit) => digit !== "")], which skips missing entries. *)
Definition every_filled (code : list Slot) : bool :=
  forallb (fun s => match s with Hole => true | _ => filled s end) code.

(** Lines 68-85: the code the page submits to [verifyEmail] by itself
    once [code] has changed, if it does. *)
Definition autoSubmit (code : list Slot) : option JsString :=
  if every_filled code then Some (join code) else None.

(** The page as it shows: six boxes, each holding at most one code
    unit. *)
Definition six_boxes (code : list Slot) : Prop :=
  List.length code = 6%nat
  ∧ Forall (fun s => ∃ c, s = Chars c ∧ (List.length c <= 1)%nat) code.

(** A user typing keys one after another, each into the box that has the
    focus, starting in box [index]: the [code] after each key. *)
Fixpoint typing (code : list Slot) (index : nat) (keys : list CodeUnit)
    : list (list Slot) :=
  match keys with
  | [] => []
  | k :: keys' =>
      let r := handleChange code index [k] in
      r.1 :: typing r.1 (default index r.2) keys'
  end.

End EmailVerificationPage.

(** ** Further concrete cases *)

Module Cases.

(** A signup environment: account numbers by position, a geocoder that
    knows one name, ids counted from 100, and the usual defaults. *)
Definition signupEnv : SignupEnv :=
  mkSignupEnv
    (fun n => ("ACC10" ++ String (ascii_of_nat (48 + n mod 10)) "", "BANK0001"))
    (fun _ _ => Returns (Some "Tokyo"))
    (fun n => 100 + Z.of_nat n)
    0 false (fun _ => None).

(** Carol signs up from a browser of her own. *)
Definition carol : option (Response * World) :=
  signup Scenario.quiet signupEnv (Some "carol@example.org") (Some "s3cret")
    (Some "Carol") (Some Scenario.unknown) (Some "human") Scenario.w0.

Definition carol_answer : Response :=
  match carol with
  | Some (r, _) => r
  | None => server_error
  end.

Definition carol_world : World :=
  match carol with
  | Some (_, w) => w
  | None => Scenario.w0
  end.

(** The document that signup stores. *)
Definition carol_user : User.t :=
  new_user signupEnv 102 ("ACC101", "BANK0001") "carol@example.org"
    "bcrypt:s3cret" "Carol" "482913" 1700000100000
    "9.9.9.9" "safari-ios-new" (35676000, 139650000) (Some "Tokyo")
    (Some 80) (Some 3).

(** Alice asks for a password reset. *)
Definition after_forgot : World :=
  (forgotPassword Scenario.quiet (Some "alice@example.org") Scenario.w0).2.

(** Alice's stored score is 7. *)
Definition risky : World :=
  mkWorld [set_riskScore 7 Scenario.alice; Scenario.bob] 1700000100000 0 [].

(** Profiles (user, text), transactions (sender, recipient, amount) and
    service requests (address, text) beside the users of [Scenario.w0]. *)
Definition bank : Bank (Z * string) (Z * Z * Z) (string * string) :=
  mkBank Scenario.w0
    [(1, "Alice"); (2, "Bob")]
    [(1, 2, 50); (2, 1, 20); (2, 2, 5)]
    [("alice@example.org", "new card"); ("bob@example.org", "loan")]
    [].

Definition deleteAccount_bank (userId : option Z)
    : Answer * Bank (Z * string) (Z * Z * Z) (string * string) :=
  deleteAccount (fun p => p.1) (fun t => t.1.1) (fun t => t.1.2) (fun r => r.1)
    (fun _ _ => Returns tt) userId bank.

End Cases.

(** ** Stored documents *)

Lemma store_elem (u d : User.t) (l : list User.t) :
  d ∈ store u l → d = u ∨ (d ∈ l ∧ User._id d ≠ User._id u).
Proof.
  unfold store. destruct (existsb (same_id u) l) eqn:Hex.
  - intros Hd. apply list_elem_of_fmap in Hd as (x & -> & Hx).
    unfold same_id. case_bool_decide; [by left | right; done].
  - intros Hd. apply elem_of_app in Hd as [Hd | Hd].
    + destruct (decide (User._id d = User._id u)) as [Heq | Hne]; [| by right].
      exfalso. assert (existsb (same_id u) l = true) as Hex'; [| congruence].
      apply existsb_exists. exists d. split; [by apply list_elem_of_In |].
      unfold same_id. by apply bool_decide_eq_true.
    + apply list_elem_of_singleton in Hd. by left.
Qed.

Lemma store_self (u : User.t) (l : list User.t) : u ∈ store u l.
Proof.
  unfold store. destruct (existsb (same_id u) l) eqn:Hex.
  - apply existsb_exists in Hex as (d & Hd & Hid).
    apply list_elem_of_fmap. exists d. rewrite Hid.
    split; [done | by apply list_elem_of_In].
  - apply elem_of_app. right. by apply list_elem_of_singleton.
Qed.

Lemma store_same_id (u d : User.t) (l : list User.t) :
  d ∈ store u l → User._id d = User._id u → d = u.
Proof. intros Hd Hid. apply store_elem in Hd as [-> | [_ Hne]]; done. Qed.

Lemma find_elem (f : User.t → bool) (l : list User.t) (u : User.t) :
  find f l = Some u → u ∈ l ∧ f u = true.
Proof. intros H. apply find_some in H as [H ?]. by apply list_elem_of_In in H. Qed.

Lemma find_none_iff (f : User.t → bool) (l : list User.t) :
  find f l = None ↔ ∀ u, u ∈ l → f u = false.
Proof.
  split.
  - intros H u Hu. apply (find_none f l H). by apply list_elem_of_In.
  - intros H. destruct (find f l) as [u |] eqn:Hf; [| done].
    apply find_elem in Hf as [Hu Hfu]. rewrite (H u Hu) in Hfu. done.
Qed.

Lemma unique_ids_eq (l : list User.t) (u d : User.t) :
  unique_ids l → u ∈ l → d ∈ l → User._id d = User._id u → d = u.
Proof.
  unfold unique_ids. induction l as [| a l IH]; intros Hnd Hu Hd Hid.
  - by apply elem_of_nil in Hu.
  - rewrite fmap_cons in Hnd. apply NoDup_cons in Hnd as [Ha Hnd].
    apply elem_of_cons in Hu as [-> | Hu]; apply elem_of_cons in Hd as [-> | Hd];
      try done.
    + exfalso. apply Ha. rewrite <- Hid. apply list_elem_of_fmap. by exists d.
    + exfalso. apply Ha. rewrite Hid. apply list_elem_of_fmap. by exists u.
    + by apply IH.
Qed.

(** Saving a document that differs from the stored one outside the
    TrustStore leaves every stored TrustStore as it was. *)
Lemma store_trustStore (u0 u : User.t) (l : list User.t) :
  unique_ids l → u0 ∈ l → User._id u = User._id u0 →
  trustStore u = trustStore u0 →
  trustStore <$> store u l = trustStore <$> l.
Proof.
  intros Hnd Hu0 Hid Ht. unfold store.
  assert (existsb (same_id u) l = true) as ->.
  { apply existsb_exists. exists u0. split; [by apply list_elem_of_In |].
    unfold same_id. apply bool_decide_eq_true. done. }
  rewrite <- list_fmap_compose. apply list_fmap_ext. intros i d Hd. simpl.
  apply list_elem_of_lookup_2 in Hd. unfold same_id. case_bool_decide as Hd'; [| done].
  rewrite Ht. f_equal. symmetry. apply (unique_ids_eq l); congruence.
Qed.

(** ** Running the handlers *)

Ltac run :=
  repeat (progress (cbn [bind ret throw lift try_catch log save send send_detached
                          Date_now findOne handle finish fst snd
                          call_evaluateContext call_updateContextProfile
                          call_generateVerificationCode crypto_randomBytes
                          db now drawn trace status body cookie reply]
                    || unfold bind, ret, throw, lift, try_catch, log, save, send,
                         send_detached, Date_now, findOne, handle,
                         call_evaluateContext, call_updateContextProfile,
                         call_generateVerificationCode, crypto_randomBytes)).

(** Once the checks have passed, [login] is the inner [try] and the
    answer built from its outcome. *)
Lemma login_accepted E email password context captcha w user :
  accepted E email password captcha w user →
  login E email password context captcha w = finish (contextCheck E user context w).
Proof.
  intros (e & p & c & He & Hp & Hc & Hfind & Hpw & Hcap).
  unfold login. rewrite He, Hp, Hc. run.
  rewrite Hfind, Hpw. cbn [negb]. rewrite Hcap. cbn [negb].
  run. destruct (contextCheck E user context w) as [[r | u] w' | msg w']; done.
Qed.

(** The inner [catch] answers every exception. *)
Lemma contextCheck_catches E user context w msg w' :
  contextCheck E user context w ≠ Throw msg w'.
Proof.
  unfold contextCheck, try_catch.
  destruct (bind _ _ w); done.
Qed.

(** The two ways the new-device side channel completes. *)
Lemma newDeviceCheck_ret E user context w user1 ctx w1 :
  newDeviceCheck E user context w = Ret (user1, ctx) w1 →
  context = Some ctx ∧ now w1 = now w ∧
  ((includes (Context.device ctx) (User.trustedDevices user) = true
    ∧ user1 = user ∧ w1 = w)
   ∨
   (includes (Context.device ctx) (User.trustedDevices user) = false
    ∧ let resetToken := toString_hex (map (randomByte E) (seq (drawn w) 20)) in
      let alert := NewDeviceLoginAlert (User.email user) (User.name user) ctx
                     (reset_url E resetToken) in
      user1 = User.set_resetPassword (Some resetToken)
                (Some (now w + 30 * 60 * 1000)) user
      ∧ sendMail E alert = Returns tt
      ∧ w1 = mkWorld (store user1 (db w)) (now w) (drawn w + 20)
               (trace w ++ [EvSave user1; EvMail alert]))).
Proof.
  unfold newDeviceCheck. destruct context as [c |]; [| done].
  destruct (includes (Context.device c) (User.trustedDevices user)) eqn:Hinc;
    cbn [negb].
  - intros [= -> -> ->]. split; [done |]. split; [done |]. by left.
  - run. destruct (sendMail E _) as [[] |] eqn:Hmail; [| done].
    run. intros [= <- <- <-]. cbn. split; [done |]. split; [done |]. right.
    split; [done |]. split; [done |]. split; [done |].
    rewrite <- app_assoc. done.
Qed.

Lemma newDeviceCheck_trustStore E user context w user1 ctx w1 :
  unique_ids (db w) → user ∈ db w →
  newDeviceCheck E user context w = Ret (user1, ctx) w1 →
  trustStore <$> db w1 = trustStore <$> db w.
Proof.
  intros Hnd Hu H. apply newDeviceCheck_ret in H as (_ & _ & [(_ & _ & ->) | (_ & H)]);
    [done |].
  cbn zeta in H. destruct H as (-> & _ & ->). cbn [db].
  by apply (store_trustStore user).
Qed.

Lemma newDeviceCheck_identity E user context w user1 ctx w1 :
  newDeviceCheck E user context w = Ret (user1, ctx) w1 →
  User._id user1 = User._id user ∧ User.email user1 = User.email user
  ∧ User.name user1 = User.name user.
Proof.
  intros H. apply newDeviceCheck_ret in H as (_ & _ & [(_ & -> & _) | (_ & H)]);
    [done |].
  cbn zeta in H. destruct H as (-> & _). done.
Qed.

(** ** The decision policy *)

Lemma contextCheck_after E user context w user1 ctx w1 :
  newDeviceCheck E user context w = Ret (user1, ctx) w1 →
  contextCheck E user context w =
  try_catch (riskDecision E user1 ctx) (λ _, ret (inl server_error)) w1.
Proof.
  intros H. unfold contextCheck, try_catch. unfold bind at 1. by rewrite H.
Qed.

(** The blocking branch of [riskDecision]. *)
Lemma riskDecision_blocked E user ctx w score :
  evaluateContext E ctx user = Returns score → 10 <= score →
  let alert := SuspiciousActivityWarning (User.email user) (User.name user) ctx score in
  riskDecision E user ctx w =
  match sendMail E alert with
  | Returns _ => Ret (inl blocked) (add_events [EvEvaluate ctx user; EvMail alert] w)
  | Throws msg => Throw msg (add_events [EvEvaluate ctx user; EvMail alert] w)
  end.
Proof.
  intros Hscore HS alert. unfold riskDecision. run. rewrite Hscore. run.
  assert ((10 <=? score) = true) as -> by lia. fold alert.
  unfold add_events. destruct (sendMail E alert) as [[] | msg]; run;
    by rewrite <- app_assoc.
Qed.

(** C1. A login whose checks pass and whose score is at least 10 is
    blocked: the answer is the 403 rejection (the 500 one when the alert
    mail itself fails), the suspicious-activity alert is sent with the
    context and the score right after scoring, no cookie is set, the profile
    updater is not called, nothing is stored after the new-device side
    channel, and the TrustStore of every stored user is as before the
    attempt. *)
Theorem login_blocks_at_high_risk E email password context captcha w
    user user1 ctx w1 score :
  unique_ids (db w) →
  accepted E email password captcha w user →
  newDeviceCheck E user context w = Ret (user1, ctx) w1 →
  evaluateContext E ctx user1 = Returns score →
  10 <= score →
  let alert := SuspiciousActivityWarning (User.email user) (User.name user) ctx score in
  let out := login E email password context captcha w in
  out.1 = match sendMail E alert with
          | Returns _ => blocked
          | Throws _ => server_error
          end
  ∧ 400 <= status out.1
  ∧ cookie out.1 = None
  ∧ trace out.2 = (trace w1 ++ [EvEvaluate ctx user1; EvMail alert])%list
  ∧ db out.2 = db w1
  ∧ trustStore <$> db out.2 = trustStore <$> db w.
Proof.
  intros Hnd Hacc Hdev Hscore HS alert out.
  assert (user ∈ db w) as Huser.
  { destruct Hacc as (e & _ & _ & _ & _ & _ & Hf & _). by apply find_elem in Hf as []. }
  pose proof (newDeviceCheck_trustStore _ _ _ _ _ _ _ Hnd Huser Hdev) as Htrust.
  pose proof (newDeviceCheck_identity _ _ _ _ _ _ _ Hdev) as (_ & Hemail & Hname).
  assert (out = (match sendMail E alert with
                 | Returns _ => blocked
                 | Throws _ => server_error
                 end,
                 add_events [EvEvaluate ctx user1; EvMail alert] w1)) as ->.
  { subst out. rewrite (login_accepted _ _ _ _ _ _ _ Hacc).
    rewrite (contextCheck_after _ _ _ _ _ _ _ Hdev). unfold try_catch.
    rewrite (riskDecision_blocked _ _ _ _ _ Hscore HS). rewrite Hemail, Hname.
    fold alert. by destruct (sendMail E alert). }
  cbn [fst snd add_events db trace].
  destruct (sendMail E alert); repeat split; done.
Qed.

(** The call of the profile updater, by what the updater answers. *)
Lemma call_updateContextProfile_eq E u c r w :
  call_updateContextProfile E u c r w =
  match updateContextProfile E u c r (now w) with
  | Returns (u', true) =>
      Ret u' (mkWorld (store u' (db w)) (now w) (drawn w)
                (trace w ++ [EvUpdateProfile u c r; EvSave u']))
  | Returns (u', false) => Ret u' (add_events [EvUpdateProfile u c r] w)
  | Throws msg => Throw msg (add_events [EvUpdateProfile u c r] w)
  end.
Proof.
  unfold call_updateContextProfile. run.
  destruct (updateContextProfile E u c r (now w)) as [[u' []] | msg]; run;
    unfold add_events; try done.
  by rewrite <- app_assoc.
Qed.

(** The second-factor branch of [riskDecision]. *)
Lemma riskDecision_two_factor E user ctx w score :
  evaluateContext E ctx user = Returns score → 5 <= score < 10 →
  let code := generateVerificationCode E (drawn w) in
  let user2 := User.set_verification (Some code) (Some (now w + 5 * 60 * 1000)) user in
  let mail := TwoFactorAuthEmail (User.email user) (User.name user) code ctx in
  let w2 := mkWorld (store user2 (db w)) (now w) (S (drawn w))
              (trace w ++ [EvEvaluate ctx user; EvSave user2; EvMail mail]) in
  riskDecision E user ctx w =
  match sendMail E mail with
  | Throws msg => Throw msg w2
  | Returns _ =>
      match call_updateContextProfile E user2 ctx score w2 with
      | Ret user3 w3 =>
          Ret (inl (reply 200 (JsonRequire2FA "Two-factor authentication required"
                                 (User.email user3)))) w3
      | Throw msg w3 => Throw msg w3
      end
  end.
Proof.
  intros Hscore Hs code user2 mail w2. rewrite call_updateContextProfile_eq.
  unfold riskDecision. run. rewrite Hscore. run.
  assert ((10 <=? score) = false) as -> by lia.
  assert ((5 <=? score) = true) as -> by lia. run.
  fold code. fold user2. change (User.email user2) with (User.email user).
  change (User.name user2) with (User.name user). fold mail.
  rewrite <- !app_assoc. cbn [app]. fold w2.
  destruct (sendMail E mail) as [[] | msg]; [| done]. cbn [now w2].
  destruct (updateContextProfile E user2 ctx score (now w)) as [[u' []] | msg];
    cbn [fst snd]; unfold add_events; cbn [db now drawn trace w2];
    rewrite <- ?app_assoc; done.
Qed.

(** The allowing branch of [riskDecision]. *)
Lemma riskDecision_allowed E user ctx w score :
  evaluateContext E ctx user = Returns score → score < 5 →
  riskDecision E user ctx w =
  match call_updateContextProfile E (User.set_lastLogin (now w) user) ctx score
          (add_events [EvEvaluate ctx user] w) with
  | Ret user3 w3 =>
      Ret (inr user3)
        (mkWorld (store user3 (db w3)) (now w3) (drawn w3) (trace w3 ++ [EvSave user3]))
  | Throw msg w3 => Throw msg w3
  end.
Proof.
  intros Hscore Hs. unfold riskDecision.
  unfold bind at 1. unfold call_evaluateContext. run. rewrite Hscore. run.
  assert ((10 <=? score) = false) as -> by lia.
  assert ((5 <=? score) = false) as -> by lia.
  unfold add_events.
  destruct (updateContextProfile E (User.set_lastLogin (now w) user) ctx score (now w))
    as [[u' []] | msg]; run; done.
Qed.

Lemma riskDecision_throws E user ctx w msg :
  evaluateContext E ctx user = Throws msg →
  riskDecision E user ctx w = Throw msg (add_events [EvEvaluate ctx user] w).
Proof. intros Hscore. unfold riskDecision. run. rewrite Hscore. done. Qed.

Lemma store_holds_verification (u : User.t) (l : list User.t) :
  holds_verification (User._id u) (User.verificationToken u)
    (User.verificationTokenExpiresAt u) (store u l).
Proof.
  split.
  - exists u. split; [apply store_self | done].
  - intros d Hd Hid. by rewrite (store_same_id u d l Hd Hid).
Qed.

Lemma store_holds_reset (u : User.t) (l : list User.t) :
  holds_reset (User._id u) (User.resetPasswordToken u)
    (User.resetPasswordExpiresAt u) (store u l).
Proof.
  split.
  - exists u. split; [apply store_self | done].
  - intros d Hd Hid. by rewrite (store_same_id u d l Hd Hid).
Qed.

(** ** Verification codes *)

Lemma gt_true (field : option Z) (t : Z) :
  gt field t = true ↔ ∃ d, field = Some d ∧ t < d.
Proof.
  unfold gt. destruct field as [d |].
  - rewrite Z.ltb_lt. split; [intros H; by exists d | by intros (? & [= ->] & ?)].
  - split; [done | by intros (? & ? & ?)].
Qed.

Lemma verification_filter_true (code : option string) (t : Z) (u : User.t) :
  verification_filter code t u = true ↔
  User.verificationToken u = code
  ∧ ∃ d, User.verificationTokenExpiresAt u = Some d ∧ t < d.
Proof.
  unfold verification_filter.
  rewrite andb_true_iff, bool_decide_eq_true, gt_true. done.
Qed.

Lemma two_factor_filter_true (email code : string) (t : Z) (u : User.t) :
  two_factor_filter email code t u = true ↔
  User.email u = email ∧ User.verificationToken u = Some code
  ∧ ∃ d, User.verificationTokenExpiresAt u = Some d ∧ t < d.
Proof.
  unfold two_factor_filter, has_email.
  rewrite andb_true_iff, bool_decide_eq_true, verification_filter_true. done.
Qed.

Lemma truthy_Some (x : option string) (s : string) :
  truthy x = Some s ↔ x = Some s ∧ s ≠ "".
Proof.
  unfold truthy. destruct x as [s' |]; [| by split; [| intros []]].
  case_bool_decide; split; try done.
  - intros [[= ->] ?]. done.
  - intros [= ->]. done.
  - intros [[= ->] ?]. done.
Qed.

(** [verifyTwoFactorAuth], by what its lookup finds. *)
Lemma verifyTwoFactorAuth_eq email verificationCode w :
  verifyTwoFactorAuth email verificationCode w =
  match truthy email, truthy verificationCode with
  | Some e, Some c =>
      match find (two_factor_filter e c (now w)) (db w) with
      | Some u =>
          let u' := User.set_verification None None u in
          (two_factor_done u',
           mkWorld (store u' (db w)) (now w) (drawn w) (trace w ++ [EvSave u']))
      | None => (invalid_or_expired, w)
      end
  | _, _ =>
      (reply 400 (JsonMessage false "Email and verification code are required!"), w)
  end.
Proof.
  unfold verifyTwoFactorAuth.
  destruct (truthy email) as [e |], (truthy verificationCode) as [c |]; run; try done.
  destruct (find _ (db w)); done.
Qed.

(** C3, as the code has it.  The second factor is accepted exactly when
    both fields are present and some stored document has that email, that
    code and a deadline strictly ahead, whichever flow issued the code.
    When it is accepted the first such document has its code and deadline
    cleared and saved, and the answer sets the session cookie for it; when
    it is not, nothing changes, no cookie is set, and a wrong code and an
    expired one get the same answer. *)
Theorem verifyTwoFactorAuth_accepts_iff email verificationCode w :
  let out := verifyTwoFactorAuth email verificationCode w in
  (status out.1 = 200 ↔
     ∃ e c u d, truthy email = Some e ∧ truthy verificationCode = Some c
       ∧ u ∈ db w ∧ User.email u = e ∧ User.verificationToken u = Some c
       ∧ User.verificationTokenExpiresAt u = Some d ∧ now w < d)
  ∧ (status out.1 = 200 →
       ∃ e c u, truthy email = Some e ∧ truthy verificationCode = Some c
         ∧ find (two_factor_filter e c (now w)) (db w) = Some u
         ∧ let u' := User.set_verification None None u in
           out = (two_factor_done u',
                  mkWorld (store u' (db w)) (now w) (drawn w) (trace w ++ [EvSave u']))
           ∧ cookie out.1 = Some (User._id u)
           ∧ holds_verification (User._id u) None None (db out.2))
  ∧ (status out.1 ≠ 200 →
       out.2 = w ∧ cookie out.1 = None
       ∧ (is_Some (truthy email) → is_Some (truthy verificationCode) →
          out.1 = invalid_or_expired)).
Proof.
  intros out. subst out. rewrite verifyTwoFactorAuth_eq.
  destruct (truthy email) as [e |], (truthy verificationCode) as [c |];
    try (cbn; repeat split; try done;
         try (intros (? & ? & ? & ? & ? & ? & _); done);
         try (by intros [] []); fail).
  destruct (find (two_factor_filter e c (now w)) (db w)) as [u |] eqn:Hfind.
  - pose proof (find_elem _ _ _ Hfind) as [Hu Hf].
    apply two_factor_filter_true in Hf as (He & Hc & d & Hd & Hlt).
    cbn. repeat split; try done.
    + intros _. by exists e, c, u, d.
    + intros _. exists e, c, u. do 5 (split; [done |]).
      apply (store_holds_verification (User.set_verification None None u)).
  - cbn. repeat split; try done.
    intros (e' & c' & u & d & [= <-] & [= <-] & Hu & He & Hc & Hd & Hlt).
    rewrite find_none_iff in Hfind. specialize (Hfind u Hu).
    assert (two_factor_filter e c (now w) u = true); [| congruence].
    apply two_factor_filter_true. repeat split; try done. by exists d.
Qed.

(** C3, as stated, fails: a code issued for email verification (by
    resendVerificationCode) completes the second factor, although no
    second-factor token was ever issued to that address. *)
Lemma two_factor_accepts_email_verification_code :
  ¬ (status (verifyTwoFactorAuth (Some "alice@example.org") (Some "482913")
               Scenario.after_resend).1 = 200
     ↔ live_two_factor_token Scenario.after_resend "alice@example.org" "482913").
Proof.
  intros [H _].
  assert (status (verifyTwoFactorAuth (Some "alice@example.org") (Some "482913")
                    Scenario.after_resend).1 = 200) as Hok by (vm_compute; done).
  apply H in Hok as [Hlast _]. vm_compute in Hlast. discriminate.
Qed.

(** [verifyEmail], by what its lookup finds. *)
Lemma verifyEmail_eq E verificationCode w :
  verifyEmail E verificationCode w =
  match find (verification_filter verificationCode (now w)) (db w) with
  | Some u =>
      let u' := User.set_verification None None (User.set_isVerified true u) in
      let mail := WelcomeEmail (User.email u) (User.name u) in
      (match sendMail E mail with
       | Returns _ =>
           reply 200 (JsonUser "Email verified successfully" (without_password u'))
       | Throws _ => server_error
       end,
       mkWorld (store u' (db w)) (now w) (drawn w)
         (trace w ++ [EvSave u'; EvMail mail]))
  | None => (invalid_or_expired, w)
  end.
Proof.
  unfold verifyEmail. run.
  destruct (find _ (db w)) as [u |]; [| done]. run.
  change (User.email (User.set_verification None None (User.set_isVerified true u)))
    with (User.email u).
  change (User.name (User.set_verification None None (User.set_isVerified true u)))
    with (User.name u).
  destruct (sendMail E _) as [[] |]; run; by rewrite <- app_assoc.
Qed.

(** C4. A stored verification token whose deadline is not strictly after
    the current instant never validates, in verifyEmail or in
    verifyTwoFactorAuth, even when the submitted code equals the stored
    one: when every stored document carrying the code is expired, the
    request is rejected and nothing changes; and whenever a code is
    accepted, the document it is taken from has its deadline strictly
    ahead. *)
Theorem expired_token_never_validates E w :
  (∀ code,
     (∀ u d, u ∈ db w → User.verificationToken u = code →
             User.verificationTokenExpiresAt u = Some d → d <= now w) →
     verifyEmail E code w = (invalid_or_expired, w))
  ∧ (∀ email code,
       (∀ u d, u ∈ db w → User.email u = email →
               User.verificationToken u = Some code →
               User.verificationTokenExpiresAt u = Some d → d <= now w) →
       let out := verifyTwoFactorAuth (Some email) (Some code) w in
       status out.1 = 400 ∧ cookie out.1 = None ∧ out.2 = w)
  ∧ (∀ code,
       verifyEmail E code w ≠ (invalid_or_expired, w) →
       ∃ u d, find (verification_filter code (now w)) (db w) = Some u
         ∧ User.verificationToken u = code
         ∧ User.verificationTokenExpiresAt u = Some d ∧ now w < d)
  ∧ (∀ email code,
       status (verifyTwoFactorAuth email code w).1 = 200 →
       ∃ e c u d, truthy email = Some e ∧ truthy code = Some c
         ∧ find (two_factor_filter e c (now w)) (db w) = Some u
         ∧ User.verificationToken u = Some c
         ∧ User.verificationTokenExpiresAt u = Some d ∧ now w < d).
Proof.
  split; [| split; [| split]].
  - intros code Hexp. rewrite verifyEmail_eq.
    destruct (find _ (db w)) as [u |] eqn:Hfind; [| done].
    apply find_elem in Hfind as [Hu Hf].
    apply verification_filter_true in Hf as (Hc & d & Hd & Hlt).
    specialize (Hexp u d Hu Hc Hd). lia.
  - intros email code Hexp out. subst out. rewrite verifyTwoFactorAuth_eq.
    destruct (truthy (Some email)) as [e |] eqn:He; [| done].
    destruct (truthy (Some code)) as [c |] eqn:Hc; [| done].
    destruct (find _ (db w)) as [u |] eqn:Hfind; [| done].
    apply find_elem in Hfind as [Hu Hf].
    apply two_factor_filter_true in Hf as (Hue & Huc & d & Hd & Hlt).
    apply truthy_Some in He as [[= ->] _]. apply truthy_Some in Hc as [[= ->] _].
    specialize (Hexp u d Hu Hue Huc Hd). lia.
  - intros code Hne. rewrite verifyEmail_eq in Hne.
    destruct (find _ (db w)) as [u |] eqn:Hfind; [| done].
    pose proof (find_elem _ _ _ Hfind) as [Hu Hf].
    apply verification_filter_true in Hf as (Hc & d & Hd & Hlt).
    by exists u, d.
  - intros email code. rewrite verifyTwoFactorAuth_eq.
    destruct (truthy email) as [e |], (truthy code) as [c |]; try done.
    destruct (find _ (db w)) as [u |] eqn:Hfind; [| done]. intros _.
    pose proof (find_elem _ _ _ Hfind) as [Hu Hf].
    apply two_factor_filter_true in Hf as (Hue & Huc & d & Hd & Hlt).
    by exists e, c, u, d.
Qed.

(** ** The new-device side channel *)

Lemma toString_hex_length (bs : list byte) :
  String.length (toString_hex bs) = (2 * List.length bs)%nat.
Proof. induction bs as [| b bs IH]; cbn [toString_hex String.length List.length]; lia. Qed.

Lemma newDeviceCheck_untrusted E user ctx w :
  includes (Context.device ctx) (User.trustedDevices user) = false →
  let resetToken := toString_hex (map (randomByte E) (seq (drawn w) 20)) in
  let user1 := User.set_resetPassword (Some resetToken)
                 (Some (now w + 30 * 60 * 1000)) user in
  let alert := NewDeviceLoginAlert (User.email user) (User.name user) ctx
                 (reset_url E resetToken) in
  let w1 := mkWorld (store user1 (db w)) (now w) (drawn w + 20)
              (trace w ++ [EvSave user1; EvMail alert]) in
  newDeviceCheck E user (Some ctx) w =
  match sendMail E alert with
  | Returns _ => Ret (user1, ctx) w1
  | Throws msg => Throw msg w1
  end.
Proof.
  intros Hinc resetToken user1 alert w1. unfold newDeviceCheck. rewrite Hinc.
  cbn [negb]. run. fold resetToken. fold user1.
  change (User.email user1) with (User.email user).
  change (User.name user1) with (User.name user). fold alert.
  rewrite <- app_assoc. cbn [app]. fold w1.
  destruct (sendMail E alert) as [[] |]; done.
Qed.

(** Whatever [riskDecision] does, it starts by scoring and sends no
    new-device alert. *)
Lemma riskDecision_trace E user ctx w :
  ∃ rest,
    trace (world_of (riskDecision E user ctx w))
    = (trace w ++ EvEvaluate ctx user :: rest)%list
    ∧ Forall (λ e, is_new_device_alert e = false) rest.
Proof.
  destruct (evaluateContext E ctx user) as [score | msg] eqn:Hscore.
  - destruct (decide (10 <= score)) as [Hhigh | Hhigh];
      [| destruct (decide (5 <= score)) as [Hmid | Hlow]].
    + rewrite (riskDecision_blocked _ _ _ _ _ Hscore Hhigh).
      destruct (sendMail E _); cbn [world_of add_events trace];
        eexists; (split; [reflexivity | repeat constructor]).
    + assert (5 <= score < 10) as Hs by lia.
      rewrite (riskDecision_two_factor _ _ _ _ _ Hscore Hs).
      rewrite call_updateContextProfile_eq. cbv zeta.
      destruct (sendMail E _); [| by eexists; (split; [reflexivity | repeat constructor])].
      cbn [now].
      destruct (updateContextProfile E _ ctx score (now w)) as [[u' []] | msg];
        cbn [world_of add_events trace]; rewrite <- ?app_assoc; cbn [app];
        eexists; (split; [reflexivity | repeat constructor]).
    + assert (score < 5) as Hs by lia.
      rewrite (riskDecision_allowed _ _ _ _ _ Hscore Hs).
      rewrite call_updateContextProfile_eq. cbn [add_events now].
      destruct (updateContextProfile E _ ctx score (now w)) as [[u' []] | msg];
        cbn [world_of add_events trace]; rewrite <- ?app_assoc; cbn [app];
        eexists; (split; [reflexivity | repeat constructor]).
  - rewrite (riskDecision_throws _ _ _ _ _ Hscore). exists []. split; [done | constructor].
Qed.

Lemma finish_try_catch_world (m : M (Response + User.t)) (r : Response) (w : World) :
  (finish (try_catch m (λ _, ret (inl r)) w)).2 = world_of (m w).
Proof. unfold try_catch. destruct (m w) as [[? | ?] ? | ? ?]; done. Qed.

(** ** Session credentials *)

(** Either the checks of [login] pass for some document, or [login]
    answers with an error status, without a cookie or a user record, and
    changes nothing. *)
Lemma login_cases E email password context captcha w :
  (∃ user, accepted E email password captcha w user)
  ∨ (∃ s b, login E email password context captcha w = (reply s b, w)
       ∧ 400 <= s ∧ no_user (reply s b)).
Proof.
  unfold login, accepted.
  destruct (truthy email) as [e |]; [| right; eexists _, _; by split].
  destruct (truthy password) as [p |]; [| right; eexists _, _; by split].
  destruct (truthy captcha) as [c |]; [| right; eexists _, _; by split].
  run. destruct (find (has_email e) (db w)) as [user |] eqn:Hfind;
    [| right; eexists _, _; by split].
  destruct (bcrypt_compare E p (User.password user)) eqn:Hpw;
    [| right; eexists _, _; by split].
  cbn [negb]. destruct (verifyCaptcha E c) as [[] | msg] eqn:Hcap;
    [| right; eexists _, _; by split ..].
  left. exists user, e, p, c. done.
Qed.

(** What [riskDecision] returns, by the score. *)
Lemma riskDecision_ret E user ctx w r w' :
  riskDecision E user ctx w = Ret r w' →
  ∃ score, evaluateContext E ctx user = Returns score ∧
    match r with
    | inl response =>
        cookie response = None ∧ no_user response
        ∧ ((10 <= score ∧ response = blocked)
           ∨ (5 <= score < 10
              ∧ ∃ e, response =
                     reply 200 (JsonRequire2FA "Two-factor authentication required" e)))
    | inr _ => score < 5
    end.
Proof.
  destruct (evaluateContext E ctx user) as [score | msg] eqn:Hscore.
  - intros H. exists score. split; [done |]. revert H.
    destruct (decide (10 <= score)) as [Hhigh | Hhigh];
      [| destruct (decide (5 <= score)) as [Hmid | Hlow]].
    + rewrite (riskDecision_blocked _ _ _ _ _ Hscore Hhigh).
      destruct (sendMail E _); [| done]. intros [= <- _].
      split; [done |]. split; [done | by left].
    + assert (5 <= score < 10) as Hs by lia.
      rewrite (riskDecision_two_factor _ _ _ _ _ Hscore Hs). cbv zeta.
      destruct (sendMail E _); [| done].
      destruct (call_updateContextProfile E _ ctx score _) as [u3 w3 |]; [| done].
      intros [= <- _]. split; [done |]. split; [done |]. right.
      split; [done |]. by eexists.
    + assert (score < 5) as Hs by lia.
      rewrite (riskDecision_allowed _ _ _ _ _ Hscore Hs).
      destruct (call_updateContextProfile E _ ctx score _) as [u3 w3 |]; [| done].
      by intros [= <- _].
  - by rewrite (riskDecision_throws _ _ _ _ _ Hscore).
Qed.

(** What the inner [try] of [login] leaves, by the score. *)
Lemma contextCheck_ret E user context w r w' :
  contextCheck E user context w = Ret r w' →
  match r with
  | inl response =>
      cookie response = None ∧ no_user response
      ∧ (400 <= status response
         ∨ ∃ e, response =
                reply 200 (JsonRequire2FA "Two-factor authentication required" e))
  | inr _ =>
      ∃ user1 ctx w1 score,
        newDeviceCheck E user context w = Ret (user1, ctx) w1
        ∧ evaluateContext E ctx user1 = Returns score ∧ score < 5
  end.
Proof.
  unfold contextCheck, try_catch. unfold bind at 1.
  destruct (newDeviceCheck E user context w) as [[user1 ctx] w1 | msg w1] eqn:Hdev.
  - cbn [fst snd].
    destruct (riskDecision E user1 ctx w1) as [r0 w0 | msg w0] eqn:Hrisk.
    + intros [= <- <-]. apply riskDecision_ret in Hrisk as (score & Hscore & Hr).
      destruct r0 as [response | u].
      { destruct Hr as (? & ? & [[_ ->] | [_ He]]); split_and!; try done.
        - by left.
        - by right. }
      by exists user1, ctx, w1, score.
    + intros [= <- <-]. split_and!; try done. by left.
  - intros [= <- <-]. split_and!; try done. by left.
Qed.

(** C6. The session cookie is set only on the allowed outcome: by
    [login] only in its final answer, reached when the checks passed and
    the score is below 5, and by [verifyTwoFactorAuth] only when its lookup
    found a live matching code.  The blocking answer and the
    second-factor-pending answer set none, and neither does any other
    answer of the handlers that issue or consume tokens. *)
Theorem session_only_when_allowed E :
  (∀ email password context captcha w,
     let out := login E email password context captcha w in
     cookie out.1 ≠ None →
     ∃ user user1 ctx w1 score user3,
       accepted E email password captcha w user
       ∧ newDeviceCheck E user context w = Ret (user1, ctx) w1
       ∧ evaluateContext E ctx user1 = Returns score ∧ score < 5
       ∧ out.1 = logged_in user3)
  ∧ (∀ email code w,
       let out := verifyTwoFactorAuth email code w in
       cookie out.1 ≠ None →
       ∃ e c u, truthy email = Some e ∧ truthy code = Some c
         ∧ find (two_factor_filter e c (now w)) (db w) = Some u
         ∧ out.1 = two_factor_done (User.set_verification None None u))
  ∧ cookie blocked = None
  ∧ (∀ m e, cookie (reply 200 (JsonRequire2FA m e)) = None)
  ∧ (∀ code w, cookie (verifyEmail E code w).1 = None)
  ∧ (∀ email w, cookie (resendVerificationCode E email w).1 = None)
  ∧ (∀ email w, cookie (forgotPassword E email w).1 = None)
  ∧ (∀ token newPassword w, cookie (resetPassword E token newPassword w).1 = None).
Proof.
  split; [| split; [| split; [done | split; [done | split; [| split; [| split]]]]]].
  - intros email password context captcha w out Hcookie.
    subst out.
    destruct (login_cases E email password context captcha w)
      as [[user Hacc] | (s & b & Hlogin & _)]; [| by rewrite Hlogin in Hcookie].
    rewrite (login_accepted _ _ _ _ _ _ _ Hacc) in *.
    destruct (contextCheck E user context w) as [r w' | msg w'] eqn:Hcheck;
      [| by apply contextCheck_catches in Hcheck].
    apply contextCheck_ret in Hcheck.
    destruct r as [response | user3]; [by destruct Hcheck |].
    destruct Hcheck as (user1 & ctx & w1 & score & Hdev & Hscore & Hs).
    by exists user, user1, ctx, w1, score, user3.
  - intros email code w out. subst out. rewrite verifyTwoFactorAuth_eq.
    destruct (truthy email) as [e |], (truthy code) as [c |]; try done.
    destruct (find _ (db w)) as [u |] eqn:Hfind; [| done]. intros _.
    by exists e, c, u.
  - intros code w. rewrite verifyEmail_eq.
    destruct (find _ (db w)); [| done]. cbn. by destruct (sendMail E _).
  - intros email w. unfold resendVerificationCode.
    destruct (truthy email); [| done]. run.
    destruct (find _ (db w)) as [u |]; [| done].
    destruct (User.isVerified u); [done |]. run. by destruct (sendMail E _) as [[] |].
  - intros email w. unfold forgotPassword.
    destruct (truthy email); [| done]. run. by destruct (find _ (db w)).
  - intros token newPassword w. unfold resetPassword.
    destruct (truthy newPassword); [| done]. run. by destruct (find _ (db w)).
Qed.

(** ** Missing input *)

(** C7, as stated, fails: a login whose context object is present but has
    none of its fields is answered with a server error, after a reset
    token has been stored on the user and mailed. *)
Lemma login_empty_context_issues_reset_token :
  ¬ client_error_without_effect Scenario.w0
      (login Scenario.strict (Some "alice@example.org") (Some "correct horse")
         (Some Scenario.empty) (Some "human") Scenario.w0)
  ∧ status (login Scenario.strict (Some "alice@example.org") (Some "correct horse")
              (Some Scenario.empty) (Some "human") Scenario.w0).1 = 500
  ∧ User.resetPasswordToken <$>
      db (login Scenario.strict (Some "alice@example.org") (Some "correct horse")
            (Some Scenario.empty) (Some "human") Scenario.w0).2
    = [Some "0b30557a9fc4e90e33587da2c7ec11365b80a5ca"; None]
  ∧ User.resetPasswordToken <$> db Scenario.w0 = [None; None].
Proof.
  split; [| by vm_compute].
  intros [[_ Hstatus] _]. vm_compute in Hstatus. discriminate.
Qed.

(** C7, as the code has it.  A login without email or password, or
    without captcha, is rejected with status 400 and no effect at all.  A
    login whose context object is absent is rejected with no effect at
    all and no cookie: by the earlier checks when they fail, and with the
    server error (status 500) once they have passed. *)
Theorem login_missing_input E email password context captcha w :
  let out := login E email password context captcha w in
  (truthy email = None ∨ truthy password = None →
   out = (reply 400 (JsonMessage false "All fields are required!"), w))
  ∧ (is_Some (truthy email) → is_Some (truthy password) → truthy captcha = None →
     out = (reply 400 (JsonMessage false "Captcha is required!"), w))
  ∧ (context = None →
     out.2 = w ∧ cookie out.1 = None ∧ 400 <= status out.1
     ∧ ∀ user, accepted E email password captcha w user → out.1 = server_error).
Proof.
  intros out. subst out. split; [| split].
  - unfold login. intros [-> | Hp]; [done |].
    destruct (truthy email); [by rewrite Hp | done].
  - unfold login. intros [e ->] [p ->] ->. done.
  - intros ->.
    assert (∀ user, accepted E email password captcha w user →
              login E email password None captcha w = (server_error, w)) as Hacc.
    { intros user Hacc. by rewrite (login_accepted _ _ _ _ _ _ _ Hacc). }
    destruct (login_cases E email password None captcha w)
      as [[user Hu] | (s & b & Hlogin & Hs & _)].
    + rewrite (Hacc user Hu). repeat split; try done.
    + rewrite Hlogin. repeat split; try done.
      intros user Hu. rewrite (Hacc user Hu) in Hlogin. by injection Hlogin as <- <-.
Qed.

(** ** One slot per token *)

Lemma store_other (u d : User.t) (l : list User.t) :
  d ∈ l → User._id d ≠ User._id u → d ∈ store u l.
Proof.
  intros Hd Hne. unfold store. destruct (existsb (same_id u) l).
  - apply list_elem_of_fmap. exists d. split; [| done].
    unfold same_id. by case_bool_decide.
  - apply elem_of_app. by left.
Qed.

Lemma store_keeps_reset (u : User.t) (l : list User.t) id token deadline :
  holds_reset id token deadline l →
  (User._id u = id →
   User.resetPasswordToken u = token ∧ User.resetPasswordExpiresAt u = deadline) →
  holds_reset id token deadline (store u l).
Proof.
  intros [(d & Hd & Hid) Hall] Hu. split.
  - destruct (decide (User._id u = id)) as [Heq | Hne].
    + exists u. split; [apply store_self | done].
    + exists d. split; [apply store_other; congruence | done].
  - intros d' Hd' Hid'. apply store_elem in Hd' as [-> | [Hd' _]]; auto.
Qed.

Lemma store_keeps_verification (u : User.t) (l : list User.t) id code deadline :
  holds_verification id code deadline l →
  (User._id u = id →
   User.verificationToken u = code ∧ User.verificationTokenExpiresAt u = deadline) →
  holds_verification id code deadline (store u l).
Proof.
  intros [(d & Hd & Hid) Hall] Hu. split.
  - destruct (decide (User._id u = id)) as [Heq | Hne].
    + exists u. split; [apply store_self | done].
    + exists d. split; [apply store_other; congruence | done].
  - intros d' Hd' Hid'. apply store_elem in Hd' as [-> | [Hd' _]]; auto.
Qed.

(** The profile updater, called on a document whose reset token is the
    stored one, leaves it stored. *)
Lemma call_updateContextProfile_keeps_reset E u c r w id token deadline :
  updater_keeps_tokens E →
  User._id u = id → User.resetPasswordToken u = token →
  User.resetPasswordExpiresAt u = deadline →
  holds_reset id token deadline (db w) →
  holds_reset id token deadline (db (world_of (call_updateContextProfile E u c r w)))
  ∧ ∀ u' w', call_updateContextProfile E u c r w = Ret u' w' →
      User._id u' = id ∧ User.resetPasswordToken u' = token
      ∧ User.resetPasswordExpiresAt u' = deadline.
Proof.
  intros Hkeep Hid Htok Hdl Hholds. rewrite call_updateContextProfile_eq.
  destruct (updateContextProfile E u c r (now w)) as [[u' saved] | msg] eqn:Hupd;
    [| by split].
  apply Hkeep in Hupd as (Hid' & _ & _ & Htok' & Hdl').
  assert (User._id u' = id ∧ User.resetPasswordToken u' = token
          ∧ User.resetPasswordExpiresAt u' = deadline) as Hu' by (split_and!; congruence).
  destruct saved; cbn [world_of db add_events]; split.
  - apply store_keeps_reset; [done | intros _; by destruct Hu' as (_ & ? & ?)].
  - by intros ? ? [= <- _].
  - done.
  - by intros ? ? [= <- _].
Qed.

Lemma riskDecision_keeps_reset E user ctx w :
  updater_keeps_tokens E →
  holds_reset (User._id user) (User.resetPasswordToken user)
    (User.resetPasswordExpiresAt user) (db w) →
  holds_reset (User._id user) (User.resetPasswordToken user)
    (User.resetPasswordExpiresAt user) (db (world_of (riskDecision E user ctx w))).
Proof.
  intros Hkeep Hholds.
  destruct (evaluateContext E ctx user) as [score | msg] eqn:Hscore;
    [| by rewrite (riskDecision_throws _ _ _ _ _ Hscore)].
  destruct (decide (10 <= score)) as [Hhigh | Hhigh];
    [| destruct (decide (5 <= score)) as [Hmid | Hlow]].
  - rewrite (riskDecision_blocked _ _ _ _ _ Hscore Hhigh). by destruct (sendMail E _).
  - assert (5 <= score < 10) as Hs by lia.
    rewrite (riskDecision_two_factor _ _ _ _ _ Hscore Hs). cbv zeta.
    set (user2 := User.set_verification _ _ user).
    set (w2 := mkWorld (store user2 (db w)) _ _ _).
    assert (holds_reset (User._id user) (User.resetPasswordToken user)
              (User.resetPasswordExpiresAt user) (db w2)) as Hholds2.
    { apply store_keeps_reset; done. }
    destruct (sendMail E _); [| done].
    pose proof (call_updateContextProfile_keeps_reset E user2 ctx score w2 _ _ _
                  Hkeep eq_refl eq_refl eq_refl Hholds2) as [H _].
    by destruct (call_updateContextProfile E user2 ctx score w2).
  - assert (score < 5) as Hs by lia.
    rewrite (riskDecision_allowed _ _ _ _ _ Hscore Hs).
    set (user2 := User.set_lastLogin _ user).
    set (w2 := add_events _ w).
    pose proof (call_updateContextProfile_keeps_reset E user2 ctx score w2 _ _ _
                  Hkeep eq_refl eq_refl eq_refl Hholds) as [H Hret].
    destruct (call_updateContextProfile E user2 ctx score w2) as [u3 w3 | msg w3];
      [| done].
    cbn [world_of db] in *. destruct (Hret u3 w3 eq_refl) as (Hid & Htok & Hdl).
    apply store_keeps_reset; [done | by intros _].
Qed.

Lemma reset_filter_true (token : string) (t : Z) (u : User.t) :
  reset_filter token t u = true ↔
  User.resetPasswordToken u = Some token
  ∧ ∃ d, User.resetPasswordExpiresAt u = Some d ∧ t < d.
Proof.
  unfold reset_filter. rewrite andb_true_iff, bool_decide_eq_true, gt_true. done.
Qed.

(** [forgotPassword] for the address of a stored user. *)
Lemma forgotPassword_found E e w user :
  e ≠ "" → find (has_email e) (db w) = Some user →
  let resetToken := fresh_reset_token E w in
  let user1 := User.set_resetPassword (Some resetToken)
                 (Some (now w + 30 * 60 * 1000)) user in
  forgotPassword E (Some e) w =
  (reply 200 (JsonMessage true "Password reset token sent to your email"),
   mkWorld (store user1 (db w)) (now w) (drawn w + 20)
     (trace w ++ [EvSave user1;
                  EvMail (ResetPasswordEmail (User.email user) (reset_url E resetToken))])).
Proof.
  intros He Hfind resetToken user1. unfold forgotPassword.
  assert (truthy (Some e) = Some e) as -> by by apply truthy_Some.
  assert (find (λ u, has_email e u) (db w) = Some user) as Hfind' by exact Hfind.
  run. rewrite Hfind'. run. fold (fresh_reset_token E w). fold resetToken. fold user1.
  by rewrite <- app_assoc.
Qed.

(** [resetPassword] when no stored document matches the token. *)
Lemma resetPassword_none E token newPassword w :
  find (reset_filter token (now w)) (db w) = None →
  status (resetPassword E token newPassword w).1 = 400
  ∧ (resetPassword E token newPassword w).2 = w.
Proof.
  intros Hfind. unfold resetPassword. destruct (truthy newPassword); [| done].
  run. by rewrite Hfind.
Qed.

(** C8. A user has one reset-token slot, written by both flows: after
    forgotPassword, and after a login from an untrusted device, every
    stored document of the user carries the token just drawn and its
    deadline, whatever it carried before.  A different, earlier token then
    selects no document of that user in resetPassword, which rejects it
    when no other user carries it. *)
Theorem reset_token_overwritten E w user :
  updater_keeps_tokens E →
  let new := fresh_reset_token E w in
  let deadline := now w + 30 * 60 * 1000 in
  (∀ e, e ≠ "" → find (has_email e) (db w) = Some user →
     holds_reset (User._id user) (Some new) (Some deadline)
       (db (forgotPassword E (Some e) w).2))
  ∧ (∀ email password captcha ctx,
       accepted E email password captcha w user →
       includes (Context.device ctx) (User.trustedDevices user) = false →
       holds_reset (User._id user) (Some new) (Some deadline)
         (db (login E email password (Some ctx) captcha w).2))
  ∧ (∀ w' old newPassword,
       holds_reset (User._id user) (Some new) (Some deadline) (db w') →
       old ≠ new →
       (∀ d, find (reset_filter old (now w')) (db w') = Some d →
             User._id d ≠ User._id user)
       ∧ ((∀ d, d ∈ db w' → User._id d ≠ User._id user →
                User.resetPasswordToken d ≠ Some old) →
          status (resetPassword E old newPassword w').1 = 400
          ∧ (resetPassword E old newPassword w').2 = w')).
Proof.
  intros Hkeep new deadline.
  set (user1 := User.set_resetPassword (Some new) (Some deadline) user).
  split; [| split].
  - intros e He Hfind. rewrite (forgotPassword_found _ _ _ _ He Hfind).
    apply (store_holds_reset user1).
  - intros email password captcha ctx Hacc Hinc.
    rewrite (login_accepted _ _ _ _ _ _ _ Hacc). unfold contextCheck.
    rewrite finish_try_catch_world. unfold bind.
    rewrite (newDeviceCheck_untrusted _ _ _ _ Hinc).
    fold (fresh_reset_token E w). fold new. fold deadline. fold user1.
    destruct (sendMail E _); [| apply (store_holds_reset user1)].
    cbn [fst snd]. apply (riskDecision_keeps_reset E user1); [done |].
    apply (store_holds_reset user1).
  - intros w' old newPassword [_ Hall] Hne.
    assert (∀ d, d ∈ db w' → reset_filter old (now w') d = true →
                 User._id d ≠ User._id user) as Hsel.
    { intros d Hd Hf Hid. apply reset_filter_true in Hf as [Htok _].
      destruct (Hall d Hd Hid) as [Htok' _]. congruence. }
    split.
    + intros d Hfind. apply find_elem in Hfind as [Hd Hf]. by apply Hsel.
    + intros Hothers. apply resetPassword_none. apply find_none_iff.
      intros d Hd. destruct (reset_filter old (now w') d) eqn:Hf; [| done].
      exfalso. apply (Hothers d Hd); [by apply Hsel |].
      by apply reset_filter_true in Hf as [-> _].
Qed.

(** [resendVerificationCode] for the address of a stored, unverified user. *)
Lemma resendVerificationCode_found E e w user :
  e ≠ "" → find (has_email e) (db w) = Some user → User.isVerified user = false →
  let code := generateVerificationCode E (drawn w) in
  let user1 := User.set_verification (Some code) (Some (now w + 60 * 1000)) user in
  let mail := VerificationEmail (User.email user) code in
  resendVerificationCode E (Some e) w =
  (match sendMail E mail with
   | Returns _ => reply 200 (JsonMessage true "Verification code resent successfully")
   | Throws _ => server_error
   end,
   mkWorld (store user1 (db w)) (now w) (S (drawn w))
     (trace w ++ [EvSave user1; EvMail mail])).
Proof.
  intros He Hfind Hver code user1 mail. unfold resendVerificationCode.
  assert (truthy (Some e) = Some e) as -> by by apply truthy_Some.
  run. rewrite Hfind, Hver. run. fold code. fold user1.
  change (User.email user1) with (User.email user). fold mail.
  destruct (sendMail E mail) as [[] |]; run; by rewrite <- app_assoc.
Qed.

(** The second-factor branch leaves the code it drew on the user. *)
Lemma riskDecision_two_factor_holds E user ctx w score :
  updater_keeps_tokens E →
  evaluateContext E ctx user = Returns score → 5 <= score < 10 →
  holds_verification (User._id user)
    (Some (generateVerificationCode E (drawn w))) (Some (now w + 5 * 60 * 1000))
    (db (world_of (riskDecision E user ctx w))).
Proof.
  intros Hkeep Hscore Hs.
  rewrite (riskDecision_two_factor _ _ _ _ _ Hscore Hs). cbv zeta.
  set (code := generateVerificationCode E (drawn w)).
  set (user2 := User.set_verification _ _ user).
  set (w2 := mkWorld (store user2 (db w)) _ _ _).
  assert (holds_verification (User._id user) (Some code)
            (Some (now w + 5 * 60 * 1000)) (db w2)) as Hholds
    by apply (store_holds_verification user2).
  destruct (sendMail E _); [| done].
  rewrite call_updateContextProfile_eq.
  destruct (updateContextProfile E user2 ctx score (now w2)) as [[u' saved] | msg]
    eqn:Hupd; [| done].
  apply Hkeep in Hupd as (Hid & Htok & Hdl & _).
  destruct saved; [| done]. cbn [world_of db].
  apply store_keeps_verification; [done |]. intros _. by rewrite Htok, Hdl.
Qed.

Lemma store_stored_with (u : User.t) (P : User.t → Prop) (l : list User.t) :
  P u → stored_with (User._id u) P (store u l).
Proof.
  intros HP. split.
  - exists u. split; [apply store_self | done].
  - intros d Hd Hid. by rewrite (store_same_id u d l Hd Hid).
Qed.

(** ** The new-device side channel, in the store *)

(** C5. A login whose checks pass, from a device absent from the user's
    trustedDevices, first stores a reset token (twenty random bytes in
    hexadecimal, forty characters) with its deadline on the user and
    sends the new-device alert with the reset link; this happens once,
    before the scorer is called and whatever the scorer then answers.
    The token is what the store holds for the user once login has
    answered: the store is exactly the one that save left when the alert
    fails, when the scorer raises and when it blocks, and in every branch
    the user's documents carry the token and its deadline, the profile
    updater keeping the token fields. *)
Theorem new_device_side_channel E email password captcha w user ctx :
  accepted E email password captcha w user →
  includes (Context.device ctx) (User.trustedDevices user) = false →
  let resetToken := toString_hex (map (randomByte E) (seq (drawn w) 20)) in
  let user1 := User.set_resetPassword (Some resetToken)
                 (Some (now w + 30 * 60 * 1000)) user in
  let alert := NewDeviceLoginAlert (User.email user) (User.name user) ctx
                 (reset_url E resetToken) in
  let out := login E email password (Some ctx) captcha w in
  String.length resetToken = 40%nat
  ∧ (updater_keeps_tokens E →
     holds_reset (User._id user) (Some resetToken) (Some (now w + 30 * 60 * 1000))
       (db out.2))
  ∧ (match evaluateContext E ctx user1 with
     | Returns score => 10 <= score
     | Throws _ => True
     end → db out.2 = store user1 (db w))
  ∧ ∃ rest,
      trace out.2 = (trace w ++ [EvSave user1; EvMail alert] ++ rest)%list
      ∧ Forall (λ e, is_new_device_alert e = false) rest
      ∧ match sendMail E alert with
        | Returns _ => ∃ rest', rest = EvEvaluate ctx user1 :: rest'
        | Throws _ => rest = [] ∧ out.1 = server_error ∧ db out.2 = store user1 (db w)
        end.
Proof.
  intros Hacc Hinc resetToken user1 alert out.
  set (w1 := mkWorld (store user1 (db w)) (now w) (drawn w + 20)
               (trace w ++ [EvSave user1; EvMail alert])).
  assert (out.2 = match sendMail E alert with
                  | Returns _ => world_of (riskDecision E user1 ctx w1)
                  | Throws _ => w1
                  end) as Hworld.
  { subst out. rewrite (login_accepted _ _ _ _ _ _ _ Hacc). unfold contextCheck.
    rewrite finish_try_catch_world. unfold bind.
    rewrite (newDeviceCheck_untrusted _ _ _ _ Hinc).
    fold resetToken. fold user1. fold alert. fold w1.
    by destruct (sendMail E alert) as [[] | msg]. }
  split; [| split; [| split]].
  - subst resetToken. rewrite toString_hex_length, length_map, length_seq. done.
  - intros Hkeep. rewrite Hworld.
    destruct (sendMail E alert); [| apply (store_holds_reset user1)].
    apply (riskDecision_keeps_reset E user1); [done |].
    apply (store_holds_reset user1).
  - intros Hscore. rewrite Hworld. destruct (sendMail E alert); [| done].
    destruct (evaluateContext E ctx user1) as [score | msg] eqn:Heval.
    + rewrite (riskDecision_blocked _ _ _ _ _ Heval Hscore).
      by destruct (sendMail E _).
    + by rewrite (riskDecision_throws _ _ _ _ _ Heval).
  - destruct (sendMail E alert) as [[] | msg] eqn:Hmail.
    + rewrite Hworld.
      destruct (riskDecision_trace E user1 ctx w1) as (rest & Htrace & Hrest).
      exists (EvEvaluate ctx user1 :: rest). rewrite Htrace. cbn [trace w1].
      rewrite <- app_assoc. split; [done |]. split; [| by exists rest].
      constructor; done.
    + exists []. rewrite Hworld. split; [by rewrite app_nil_r |].
      split; [constructor |]. split; [done |]. split; [| done].
      subst out. rewrite (login_accepted _ _ _ _ _ _ _ Hacc).
      unfold contextCheck, try_catch, bind.
      rewrite (newDeviceCheck_untrusted _ _ _ _ Hinc).
      fold resetToken. fold user1. fold alert. by rewrite Hmail.
Qed.

(** ** The second-factor branch, whatever the collaborators do *)

(** C2, as stated, fails: with a score of 7 and the second-factor mail
    refused, login does not end in the second-factor answer but in the
    server error; the code is stored on the user all the same, and the
    profile updater is never called. *)
Lemma login_second_factor_mail_fails :
  evaluateContext Scenario.mail_down Scenario.known Scenario.alice = Returns 7
  ∧ Scenario.after_mail_down.1 = server_error
  ∧ User.verificationToken <$> db Scenario.after_mail_down.2 = [Some "482913"; None]
  ∧ trace Scenario.after_mail_down.2
    = [EvEvaluate Scenario.known Scenario.alice;
       EvSave (User.set_verification (Some "482913") (Some 1700000400000)
                 Scenario.alice);
       EvMail (TwoFactorAuthEmail "alice@example.org" "Alice" "482913"
                 Scenario.known)].
Proof. by vm_compute. Qed.

(** C2, as the code has it.  A login whose checks pass and whose score is
    in [5, 10) never sets a cookie.  A code drawn afresh is stored on the
    user with a deadline five minutes after the instant of issuance and
    the second-factor mail is asked for with the context.  When the mail
    fails the answer is the server error and the profile updater is not
    called; when it is sent, the updater is called on that document with
    the context and the score, and the answer is the second-factor one
    when the updater returns, the server error when it raises.  What is
    stored for the user at the end is the document the updater saved; when
    it saves nothing, or is not reached, the stored TrustStore is the one
    from before scoring.  The code and its deadline are on the user's
    documents in every case, the updater keeping the token fields. *)
Theorem login_requires_second_factor E email password context captcha w
    user user1 ctx w1 score :
  accepted E email password captcha w user →
  newDeviceCheck E user context w = Ret (user1, ctx) w1 →
  evaluateContext E ctx user1 = Returns score →
  5 <= score < 10 →
  let code := generateVerificationCode E (drawn w1) in
  let user2 := User.set_verification (Some code) (Some (now w + 5 * 60 * 1000)) user1 in
  let mail := TwoFactorAuthEmail (User.email user) (User.name user) code ctx in
  let issued := (trace w1 ++ [EvEvaluate ctx user1; EvSave user2; EvMail mail])%list in
  let out := login E email password context captcha w in
  cookie out.1 = None
  ∧ (updater_keeps_tokens E →
     holds_verification (User._id user) (Some code) (Some (now w + 5 * 60 * 1000))
       (db out.2))
  ∧ match sendMail E mail with
    | Throws _ =>
        out.1 = server_error
        ∧ trace out.2 = issued
        ∧ db out.2 = store user2 (db w1)
        ∧ stored_with (User._id user) (λ d, trustStore d = trustStore user1) (db out.2)
    | Returns _ =>
        match updateContextProfile E user2 ctx score (now w) with
        | Throws _ =>
            out.1 = server_error
            ∧ trace out.2 = (issued ++ [EvUpdateProfile user2 ctx score])%list
            ∧ db out.2 = store user2 (db w1)
            ∧ stored_with (User._id user) (λ d, trustStore d = trustStore user1)
                (db out.2)
        | Returns (user3, saved) =>
            out.1 = reply 200 (JsonRequire2FA "Two-factor authentication required"
                                 (User.email user3))
            ∧ trace out.2 =
                (issued ++ [EvUpdateProfile user2 ctx score]
                 ++ if saved then [EvSave user3] else [])%list
            ∧ db out.2 = (if saved then store user3 (store user2 (db w1))
                          else store user2 (db w1))
            ∧ (if saved
               then stored_with (User._id user3) (λ d, d = user3) (db out.2)
               else stored_with (User._id user)
                      (λ d, trustStore d = trustStore user1) (db out.2))
        end
    end.
Proof.
  intros Hacc Hdev Hscore Hs code user2 mail issued out.
  pose proof (newDeviceCheck_identity _ _ _ _ _ _ _ Hdev) as (Hid & Hemail & Hname).
  pose proof (newDeviceCheck_ret _ _ _ _ _ _ _ Hdev) as (_ & Hnow & _).
  set (w2 := mkWorld (store user2 (db w1)) (now w) (S (drawn w1)) issued).
  assert (stored_with (User._id user) (λ d, trustStore d = trustStore user1)
            (db w2)) as Hunfolded
    by (rewrite <- Hid; by apply (store_stored_with user2)).
  assert (riskDecision E user1 ctx w1 =
          match sendMail E mail with
          | Throws msg => Throw msg w2
          | Returns _ =>
              match updateContextProfile E user2 ctx score (now w) with
              | Returns (user3, saved) =>
                  Ret (inl (reply 200 (JsonRequire2FA
                                         "Two-factor authentication required"
                                         (User.email user3))))
                    (if saved
                     then mkWorld (store user3 (db w2)) (now w) (drawn w2)
                            (trace w2 ++ [EvUpdateProfile user2 ctx score; EvSave user3])
                     else add_events [EvUpdateProfile user2 ctx score] w2)
              | Throws msg => Throw msg (add_events [EvUpdateProfile user2 ctx score] w2)
              end
          end) as Hrisk.
  { rewrite (riskDecision_two_factor _ _ _ _ _ Hscore Hs). cbv zeta.
    rewrite Hemail, Hname, Hnow. fold code. fold user2. fold mail. fold issued.
    fold w2. destruct (sendMail E mail); [| done].
    rewrite call_updateContextProfile_eq. cbn [now w2].
    by destruct (updateContextProfile E user2 ctx score (now w)) as [[u3 []] | msg]. }
  assert (out = finish (try_catch (riskDecision E user1 ctx)
                          (λ _, ret (inl server_error)) w1)) as Hout.
  { subst out. rewrite (login_accepted _ _ _ _ _ _ _ Hacc).
    by rewrite (contextCheck_after _ _ _ _ _ _ _ Hdev). }
  split; [| split].
  - rewrite Hout. unfold try_catch. rewrite Hrisk.
    destruct (sendMail E mail); [| done].
    by destruct (updateContextProfile E user2 ctx score (now w)) as [[u3 []] | msg].
  - intros Hkeep. rewrite Hout, finish_try_catch_world, <- Hid, <- Hnow.
    by apply (riskDecision_two_factor_holds E user1 ctx w1 score).
  - rewrite Hout. unfold try_catch. rewrite Hrisk.
    destruct (sendMail E mail); [| done].
    destruct (updateContextProfile E user2 ctx score (now w)) as [[u3 []] | msg];
      cbn [finish fst snd db trace add_events w2 ret]; split_and!; try done.
    by apply store_stored_with.
Qed.

(** C9. Issuing a verification code again overwrites the stored one:
    after resendVerificationCode, and after the second-factor branch of
    login, every stored document of the user carries the code just drawn
    and its deadline.  A different, earlier code is then rejected by
    verifyTwoFactorAuth for that user's address, and selects no document
    of that user in verifyEmail, which rejects it when no other user
    carries it. *)
Theorem verification_code_overwritten E w user :
  updater_keeps_tokens E →
  (∀ e, e ≠ "" → find (has_email e) (db w) = Some user →
     User.isVerified user = false →
     holds_verification (User._id user)
       (Some (generateVerificationCode E (drawn w))) (Some (now w + 60 * 1000))
       (db (resendVerificationCode E (Some e) w).2))
  ∧ (∀ email password context captcha user1 ctx w1 score,
       accepted E email password captcha w user →
       newDeviceCheck E user context w = Ret (user1, ctx) w1 →
       evaluateContext E ctx user1 = Returns score → 5 <= score < 10 →
       holds_verification (User._id user)
         (Some (generateVerificationCode E (drawn w1))) (Some (now w + 5 * 60 * 1000))
         (db (login E email password context captcha w).2))
  ∧ (∀ w' new deadline old,
       holds_verification (User._id user) (Some new) deadline (db w') →
       old ≠ new →
       (∀ d, find (verification_filter (Some old) (now w')) (db w') = Some d →
             User._id d ≠ User._id user)
       ∧ ((∀ d, d ∈ db w' → User.email d = User.email user →
                User._id d = User._id user) →
          status (verifyTwoFactorAuth (Some (User.email user)) (Some old) w').1 = 400
          ∧ cookie (verifyTwoFactorAuth (Some (User.email user)) (Some old) w').1 = None
          ∧ (verifyTwoFactorAuth (Some (User.email user)) (Some old) w').2 = w')
       ∧ ((∀ d, d ∈ db w' → User._id d ≠ User._id user →
                User.verificationToken d ≠ Some old) →
          verifyEmail E (Some old) w' = (invalid_or_expired, w'))).
Proof.
  intros Hkeep. split; [| split].
  - intros e He Hfind Hver.
    rewrite (resendVerificationCode_found _ _ _ _ He Hfind Hver).
    apply (store_holds_verification (User.set_verification _ _ user)).
  - intros email password context captcha user1 ctx w1 score Hacc Hdev Hscore Hs.
    pose proof (newDeviceCheck_identity _ _ _ _ _ _ _ Hdev) as (Hid & _ & _).
    pose proof (newDeviceCheck_ret _ _ _ _ _ _ _ Hdev) as (_ & Hnow & _).
    rewrite (login_accepted _ _ _ _ _ _ _ Hacc).
    rewrite (contextCheck_after _ _ _ _ _ _ _ Hdev), finish_try_catch_world.
    rewrite <- Hid, <- Hnow. by apply (riskDecision_two_factor_holds _ _ _ _ score).
  - intros w' new deadline old [_ Hall] Hne.
    assert (∀ d, d ∈ db w' → verification_filter (Some old) (now w') d = true →
                 User._id d ≠ User._id user) as Hsel.
    { intros d Hd Hf Hid. apply verification_filter_true in Hf as [Htok _].
      destruct (Hall d Hd Hid) as [Htok' _]. congruence. }
    split; [| split].
    + intros d Hfind. apply find_elem in Hfind as [Hd Hf]. by apply Hsel.
    + intros Hemail. rewrite verifyTwoFactorAuth_eq.
      destruct (truthy (Some (User.email user))) as [e |] eqn:He; [| done].
      destruct (truthy (Some old)) as [c |] eqn:Hc; [| done].
      apply truthy_Some in He as [[= <-] _]. apply truthy_Some in Hc as [[= <-] _].
      destruct (find _ (db w')) as [d |] eqn:Hfind; [| done].
      exfalso. apply find_elem in Hfind as [Hd Hf].
      unfold two_factor_filter in Hf. apply andb_true_iff in Hf as [Hmail Hf].
      apply bool_decide_eq_true in Hmail. by apply (Hsel d Hd Hf), Hemail.
    + intros Hothers. rewrite verifyEmail_eq.
      destruct (find _ (db w')) as [d |] eqn:Hfind; [| done].
      exfalso. apply find_elem in Hfind as [Hd Hf].
      apply (Hothers d Hd); [by apply Hsel |].
      by apply verification_filter_true in Hf as [-> _].
Qed.


(** ** The user record in the success answers *)

Lemma without_private_undefined (u : User.t) (k : string) :
  k ∈ private_fields → without_private u !! k = Some JUndef.
Proof.
  unfold private_fields. rewrite !elem_of_cons, elem_of_nil.
  unfold without_private.
  intros [-> | [-> | [-> | [-> | [-> | [-> | []]]]]]]; by simplify_map_eq.
Qed.

Lemma stringify_fields_undefined (p : gmap string JsVal) (k : string) :
  p !! k = Some JUndef → stringify_fields p !! k = None.
Proof.
  intros H. unfold stringify_fields. apply map_lookup_filter_None. right.
  intros v Hv. rewrite H in Hv. by injection Hv as <-.
Qed.

Lemma without_private_contextLogs (u : User.t) :
  stringify_fields (without_private u) !! "contextLogs"
  = Some (JArr (js_contextLog <$> User.contextLogs u)).
Proof.
  unfold stringify_fields. apply map_lookup_filter_Some. split; [| done].
  unfold without_private, _doc. cbn [list_to_map foldr]. by simplify_map_eq.
Qed.

(** C10, as stated, fails: the success answer of login leaves the
    TrustStore's context log on the wire, with the addresses, devices,
    locations and scores of the attempts. *)
Lemma login_payload_includes_context_log :
  ¬ hides_trust_store
      (login Scenario.quiet (Some "alice@example.org") (Some "correct horse")
         (Some Scenario.known) (Some "human") Scenario.w0).1.
Proof.
  unfold hides_trust_store.
  destruct (body (login Scenario.quiet (Some "alice@example.org")
                    (Some "correct horse") (Some Scenario.known) (Some "human")
                    Scenario.w0).1) as [| | | m p] eqn:Hb;
    try (vm_compute in Hb; discriminate).
  intros H.
  assert ("contextLogs" ∈ trust_store_fields) as Hk
    by (unfold trust_store_fields; rewrite !elem_of_cons; tauto).
  specialize (H "contextLogs" Hk).
  vm_compute in Hb. injection Hb as <- <-. vm_compute in H. discriminate.
Qed.

(** C10, as the code has it.  A success answer of login is either the
    second-factor-pending answer, which carries no user record, or the
    user record of the document; a success answer of verifyTwoFactorAuth
    is the user record.  In that record password, trustedIPs,
    trustedDevices, locations, behavioralProfile and riskScore are set to
    undefined and are not on the wire; the contextLogs array of the
    document stays on the wire. *)
Theorem success_payload_fields E :
  (∀ email password context captcha w,
     let r := (login E email password context captcha w).1 in
     status r = 200 →
     (∃ e, r = reply 200 (JsonRequire2FA "Two-factor authentication required" e))
     ∨ ∃ u, body r = JsonUser "Logged in successfully" (without_private u))
  ∧ (∀ email code w,
       let r := (verifyTwoFactorAuth email code w).1 in
       status r = 200 →
       ∃ u, body r = JsonUser "Two-factor authentication completed successfully"
                       (without_private u))
  ∧ (∀ u k, k ∈ private_fields →
       without_private u !! k = Some JUndef
       ∧ stringify_fields (without_private u) !! k = None)
  ∧ (∀ u, stringify_fields (without_private u) !! "contextLogs"
          = Some (JArr (js_contextLog <$> User.contextLogs u))).
Proof.
  split; [| split; [| split]].
  - intros email password context captcha w r Hok. subst r.
    destruct (login_cases E email password context captcha w)
      as [[user Hacc] | (s & b & Hlogin & Hs & _)].
    + rewrite (login_accepted _ _ _ _ _ _ _ Hacc) in *.
      destruct (contextCheck E user context w) as [res w' | msg w'] eqn:Hcheck;
        [| by apply contextCheck_catches in Hcheck].
      apply contextCheck_ret in Hcheck. destruct res as [response | user3].
      * destruct Hcheck as (_ & _ & [Hs | [e ->]]).
        -- cbn [finish fst] in Hok. lia.
        -- left. by exists e.
      * right. by exists user3.
    + rewrite Hlogin in Hok. cbn in Hok. lia.
  - intros email code w r. subst r. rewrite verifyTwoFactorAuth_eq.
    destruct (truthy email), (truthy code); try done.
    destruct (find _ (db w)) as [u |]; [| done]. intros _. by eexists.
  - intros u k Hk. pose proof (without_private_undefined u k Hk) as H.
    split; [done | by apply stringify_fields_undefined].
  - apply without_private_contextLogs.
Qed.

(** ** The theorems at work on the concrete deployment *)

Lemma scenario_unique_ids : unique_ids (db Scenario.w0).
Proof. unfold unique_ids. apply (bool_decide_unpack _). vm_compute. exact I. Qed.

Lemma scenario_accepted (risk : Outcome Z) :
  accepted (Scenario.env risk) (Some "alice@example.org") (Some "correct horse")
    (Some "human") Scenario.w0 Scenario.alice.
Proof.
  exists "alice@example.org", "correct horse", "human". vm_compute. repeat split.
Qed.

Lemma scenario_keeps_tokens (risk : Outcome Z) :
  updater_keeps_tokens (Scenario.env risk).
Proof. intros u c r t u' saved [= <- _]. repeat split. Qed.

Lemma login_blocks_at_high_risk_witness :
  (login (Scenario.env (Returns 12)) (Some "alice@example.org")
     (Some "correct horse") (Some Scenario.known) (Some "human") Scenario.w0).1
  = blocked.
Proof.
  refine (proj1 (login_blocks_at_high_risk (Scenario.env (Returns 12))
                   (Some "alice@example.org") (Some "correct horse")
                   (Some Scenario.known) (Some "human") Scenario.w0
                   Scenario.alice Scenario.alice Scenario.known Scenario.w0 12
                   scenario_unique_ids (scenario_accepted _) _ _ _)).
  - vm_compute. reflexivity.
  - reflexivity.
  - lia.
Defined.

Lemma login_requires_second_factor_witness :
  (login (Scenario.env (Returns 7)) (Some "alice@example.org")
     (Some "correct horse") (Some Scenario.known) (Some "human") Scenario.w0).1
  = reply 200 (JsonRequire2FA "Two-factor authentication required"
                 "alice@example.org").
Proof.
  refine (proj1 (proj2 (proj2
            (login_requires_second_factor (Scenario.env (Returns 7))
               (Some "alice@example.org") (Some "correct horse")
               (Some Scenario.known) (Some "human") Scenario.w0
               Scenario.alice Scenario.alice Scenario.known Scenario.w0 7
               (scenario_accepted _) _ _ _)))).
  - vm_compute. reflexivity.
  - reflexivity.
  - lia.
Defined.

Lemma new_device_side_channel_witness :
  holds_reset 1 (Some "0b30557a9fc4e90e33587da2c7ec11365b80a5ca")
    (Some 1700001900000)
    (db (login Scenario.quiet (Some "alice@example.org") (Some "correct horse")
           (Some Scenario.unknown) (Some "human") Scenario.w0).2).
Proof.
  refine (proj1 (proj2
            (new_device_side_channel Scenario.quiet (Some "alice@example.org")
               (Some "correct horse") (Some "human") Scenario.w0 Scenario.alice
               Scenario.unknown (scenario_accepted _) _))
            (scenario_keeps_tokens _)).
  vm_compute. reflexivity.
Defined.

Lemma verifyTwoFactorAuth_accepts_iff_witness :
  (verifyTwoFactorAuth (Some "alice@example.org") (Some "000000")
     Scenario.after_resend).1 = invalid_or_expired
  ∧ status (verifyTwoFactorAuth (Some "alice@example.org") (Some "482913")
              Scenario.after_resend).1 = 200.
Proof.
  split.
  - refine (proj2 (proj2 (proj2 (proj2
              (verifyTwoFactorAuth_accepts_iff (Some "alice@example.org")
                 (Some "000000") Scenario.after_resend)) _)) _ _).
    + vm_compute. discriminate.
    + eexists. vm_compute. reflexivity.
    + eexists. vm_compute. reflexivity.
  - refine (proj2 (proj1
              (verifyTwoFactorAuth_accepts_iff (Some "alice@example.org")
                 (Some "482913") Scenario.after_resend)) _).
    exists "alice@example.org", "482913",
      (User.set_verification (Some "482913") (Some 1700000160000) Scenario.alice),
      1700000160000.
    vm_compute. repeat split. apply list_elem_of_here.
Defined.

Lemma expired_token_never_validates_witness :
  verifyEmail Scenario.quiet (Some "482913") Scenario.stale
  = (invalid_or_expired, Scenario.stale)
  ∧ status (verifyTwoFactorAuth (Some "alice@example.org") (Some "482913")
              Scenario.stale).1 = 400.
Proof.
  assert (∀ u d, u ∈ db Scenario.stale →
                 User.verificationToken u = Some "482913" →
                 User.verificationTokenExpiresAt u = Some d →
                 d <= now Scenario.stale) as Hexpired.
  { intros u d Hu Htok Hd.
    apply elem_of_cons in Hu as [-> | Hu].
    - vm_compute in Hd. injection Hd as <-. vm_compute. discriminate.
    - apply elem_of_cons in Hu as [-> | Hu].
      + vm_compute in Htok. discriminate.
      + by apply elem_of_nil in Hu. }
  split.
  - exact (proj1 (expired_token_never_validates Scenario.quiet Scenario.stale)
             (Some "482913") Hexpired).
  - refine (proj1 (proj1 (proj2
              (expired_token_never_validates Scenario.quiet Scenario.stale))
              "alice@example.org" "482913" _)).
    intros u d Hu _. by apply Hexpired.
Defined.

Lemma session_only_when_allowed_witness :
  ∃ user user1 ctx w1 score user3,
    accepted Scenario.quiet (Some "alice@example.org") (Some "correct horse")
      (Some "human") Scenario.w0 user
    ∧ newDeviceCheck Scenario.quiet user (Some Scenario.known) Scenario.w0
      = Ret (user1, ctx) w1
    ∧ evaluateContext Scenario.quiet ctx user1 = Returns score ∧ score < 5
    ∧ (login Scenario.quiet (Some "alice@example.org") (Some "correct horse")
         (Some Scenario.known) (Some "human") Scenario.w0).1 = logged_in user3.
Proof.
  refine (proj1 (session_only_when_allowed Scenario.quiet)
            (Some "alice@example.org") (Some "correct horse")
            (Some Scenario.known) (Some "human") Scenario.w0 _).
  vm_compute. discriminate.
Defined.

Lemma login_missing_input_witness :
  (login Scenario.quiet (Some "alice@example.org") (Some "correct horse") None
     (Some "human") Scenario.w0).2 = Scenario.w0
  ∧ login Scenario.quiet (Some "alice@example.org") None (Some Scenario.known)
      (Some "human") Scenario.w0
    = (reply 400 (JsonMessage false "All fields are required!"), Scenario.w0).
Proof.
  split.
  - refine (proj1 (proj2 (proj2
              (login_missing_input Scenario.quiet (Some "alice@example.org")
                 (Some "correct horse") None (Some "human") Scenario.w0)) _)).
    reflexivity.
  - refine (proj1
              (login_missing_input Scenario.quiet (Some "alice@example.org")
                 None (Some Scenario.known) (Some "human") Scenario.w0) _).
    right. reflexivity.
Defined.

Lemma reset_token_overwritten_witness :
  holds_reset 1 (Some "0b30557a9fc4e90e33587da2c7ec11365b80a5ca")
    (Some 1700001900000)
    (db (forgotPassword Scenario.quiet (Some "alice@example.org") Scenario.w0).2).
Proof.
  refine (proj1 (reset_token_overwritten Scenario.quiet Scenario.w0 Scenario.alice
                   (scenario_keeps_tokens _)) "alice@example.org" _ _).
  - discriminate.
  - vm_compute. reflexivity.
Defined.

Lemma verification_code_overwritten_witness :
  holds_verification 1 (Some "482913") (Some 1700000160000)
    (db (resendVerificationCode Scenario.quiet (Some "alice@example.org")
           Scenario.w0).2).
Proof.
  refine (proj1 (verification_code_overwritten Scenario.quiet Scenario.w0
                   Scenario.alice (scenario_keeps_tokens _))
            "alice@example.org" _ _ _).
  - discriminate.
  - vm_compute. reflexivity.
  - reflexivity.
Defined.

Lemma success_payload_fields_witness :
  stringify_fields (without_private Scenario.alice) !! "password" = None
  ∧ ∃ u, body (verifyTwoFactorAuth (Some "alice@example.org") (Some "482913")
                 Scenario.after_resend).1
         = JsonUser "Two-factor authentication completed successfully"
             (without_private u).
Proof.
  split.
  - refine (proj2 (proj1 (proj2 (proj2 (success_payload_fields Scenario.quiet)))
                     Scenario.alice "password" _)).
    unfold private_fields. apply list_elem_of_here.
  - refine (proj1 (proj2 (success_payload_fields Scenario.quiet))
              (Some "alice@example.org") (Some "482913") Scenario.after_resend _).
    vm_compute. reflexivity.
Defined.

(** * Further properties of the controller *)

(** ** login: the remaining paths *)

(** X1. A login whose checks pass and whose score is below 5 is allowed:
    lastLogin is set to the instant of the attempt, the profile updater is
    called on that document with the context and the score, the document
    it returns is saved, and the answer is the user record with the
    session cookie for that document.  No mail is sent after the
    new-device side channel.  When the updater raises, the answer is the
    server error, without a cookie, and nothing is stored after the
    new-device side channel. *)
Theorem login_allows_at_low_risk E email password context captcha w
    user user1 ctx w1 score :
  accepted E email password captcha w user →
  newDeviceCheck E user context w = Ret (user1, ctx) w1 →
  evaluateContext E ctx user1 = Returns score →
  score < 5 →
  let user2 := User.set_lastLogin (now w) user1 in
  let out := login E email password context captcha w in
  match updateContextProfile E user2 ctx score (now w) with
  | Returns (user3, saved) =>
      out.1 = logged_in user3
      ∧ cookie out.1 = Some (User._id user3)
      ∧ trace out.2 =
          (trace w1 ++ [EvEvaluate ctx user1; EvUpdateProfile user2 ctx score]
           ++ (if saved then [EvSave user3] else []) ++ [EvSave user3])%list
      ∧ db out.2 = store user3 (if saved then store user3 (db w1) else db w1)
  | Throws _ =>
      out.1 = server_error
      ∧ trace out.2 =
          (trace w1 ++ [EvEvaluate ctx user1; EvUpdateProfile user2 ctx score])%list
      ∧ db out.2 = db w1
  end.
Proof.
  intros Hacc Hdev Hscore Hs user2 out.
  pose proof (newDeviceCheck_ret _ _ _ _ _ _ _ Hdev) as (_ & Hnow & _).
  subst out. rewrite (login_accepted _ _ _ _ _ _ _ Hacc).
  rewrite (contextCheck_after _ _ _ _ _ _ _ Hdev). unfold try_catch.
  rewrite (riskDecision_allowed _ _ _ _ _ Hscore Hs).
  rewrite call_updateContextProfile_eq. cbn [add_events now]. rewrite Hnow.
  fold user2.
  destruct (updateContextProfile E user2 ctx score (now w)) as [[user3 []] | msg];
    unfold ret; cbn [finish fst snd db trace cookie logged_in add_events];
    rewrite <- ?app_assoc; cbn [app]; repeat split; done.
Qed.

Lemma login_unknown_email E e p c context w :
  e ≠ "" → p ≠ "" → c ≠ "" →
  find (has_email e) (db w) = None →
  login E (Some e) (Some p) context (Some c) w
  = (reply 400 (JsonMessage false "User not found!"), w).
Proof.
  intros He Hp Hc Hfind. unfold login.
  assert (truthy (Some e) = Some e) as -> by by apply truthy_Some.
  assert (truthy (Some p) = Some p) as -> by by apply truthy_Some.
  assert (truthy (Some c) = Some c) as -> by by apply truthy_Some.
  run. by rewrite Hfind.
Qed.

(** X2. A login for an address no stored user has, or with a password
    that does not match the hash of the first user with that address, is
    answered with status 400 ("User not found!", "Wrong Password!")
    whatever the context and the captcha are, and has no effect: nothing
    is stored, drawn or mailed, and no cookie is set. *)
Theorem login_refuses_bad_credentials E e p c context w :
  e ≠ "" → p ≠ "" → c ≠ "" →
  let out := login E (Some e) (Some p) context (Some c) w in
  (find (has_email e) (db w) = None →
   out = (reply 400 (JsonMessage false "User not found!"), w))
  ∧ (∀ user, find (has_email e) (db w) = Some user →
       bcrypt_compare E p (User.password user) = false →
       out = (reply 400 (JsonMessage false "Wrong Password!"), w)).
Proof.
  intros He Hp Hc out. subst out. split.
  - by apply login_unknown_email.
  - intros user Hfind Hpw. unfold login.
    assert (truthy (Some e) = Some e) as -> by by apply truthy_Some.
    assert (truthy (Some p) = Some p) as -> by by apply truthy_Some.
    assert (truthy (Some c) = Some c) as -> by by apply truthy_Some.
    run. by rewrite Hfind, Hpw.
Qed.

Lemma newDeviceCheck_trusted E user ctx w :
  includes (Context.device ctx) (User.trustedDevices user) = true →
  newDeviceCheck E user (Some ctx) w = Ret (user, ctx) w.
Proof. intros H. unfold newDeviceCheck. by rewrite H. Qed.

Lemma holds_reset_stored (u : User.t) (l : list User.t) :
  unique_ids l → u ∈ l →
  holds_reset (User._id u) (User.resetPasswordToken u)
    (User.resetPasswordExpiresAt u) l.
Proof.
  intros Hnd Hu. split; [by exists u |].
  intros d Hd Hid. by rewrite (unique_ids_eq l u d Hnd Hu Hd Hid).
Qed.

(** X3. A login whose checks pass, from a device that is among the
    user's trustedDevices, goes straight to scoring: no new-device alert is
    sent at any point of the attempt, and the reset token and deadline
    stored for the user stay as they were (the stored [_id]s being
    distinct, and the profile updater keeping the [_id] and the token
    fields of the document it is given). *)
Theorem login_trusted_device_no_side_channel E email password captcha w user ctx :
  unique_ids (db w) →
  updater_keeps_tokens E →
  accepted E email password captcha w user →
  includes (Context.device ctx) (User.trustedDevices user) = true →
  let out := login E email password (Some ctx) captcha w in
  (∃ rest,
     trace out.2 = (trace w ++ EvEvaluate ctx user :: rest)%list
     ∧ Forall (λ e, is_new_device_alert e = false) rest)
  ∧ holds_reset (User._id user) (User.resetPasswordToken user)
      (User.resetPasswordExpiresAt user) (db out.2).
Proof.
  intros Hnd Hkeep Hacc Hinc out. subst out.
  assert (user ∈ db w) as Huser.
  { destruct Hacc as (e & _ & _ & _ & _ & _ & Hf & _). by apply find_elem in Hf as []. }
  rewrite (login_accepted _ _ _ _ _ _ _ Hacc).
  rewrite (contextCheck_after _ _ _ _ _ _ _ (newDeviceCheck_trusted _ _ _ _ Hinc)).
  rewrite finish_try_catch_world. split.
  - apply riskDecision_trace.
  - apply riskDecision_keeps_reset; [done |]. by apply holds_reset_stored.
Qed.

(** ** The accounts stay the same *)

Lemma store_ids (u : User.t) (l : list User.t) :
  User._id u ∈ (User._id <$> l) →
  User._id <$> store u l = User._id <$> l.
Proof.
  intros Hin. unfold store.
  assert (existsb (same_id u) l = true) as ->.
  { apply list_elem_of_fmap in Hin as (d & Hid & Hd).
    apply existsb_exists. exists d. split; [by apply list_elem_of_In |].
    unfold same_id. by apply bool_decide_eq_true. }
  rewrite <- list_fmap_compose. apply list_fmap_ext. intros i d _. cbn.
  unfold same_id. by case_bool_decide.
Qed.

Lemma found_id (f : User.t → bool) (l : list User.t) (u : User.t) :
  find f l = Some u → User._id u ∈ (User._id <$> l).
Proof. intros H. apply find_elem in H as [H _]. by apply list_elem_of_fmap_2. Qed.

Lemma riskDecision_ids E user ctx w :
  updater_keeps_tokens E →
  User._id user ∈ (User._id <$> db w) →
  User._id <$> db (world_of (riskDecision E user ctx w)) = User._id <$> db w.
Proof.
  intros Hkeep Hin.
  destruct (evaluateContext E ctx user) as [score | msg] eqn:Hscore;
    [| by rewrite (riskDecision_throws _ _ _ _ _ Hscore)].
  destruct (decide (10 <= score)) as [Hhigh | Hhigh];
    [| destruct (decide (5 <= score)) as [Hmid | Hlow]].
  - rewrite (riskDecision_blocked _ _ _ _ _ Hscore Hhigh). by destruct (sendMail E _).
  - assert (5 <= score < 10) as Hs by lia.
    rewrite (riskDecision_two_factor _ _ _ _ _ Hscore Hs). cbv zeta.
    set (user2 := User.set_verification _ _ user).
    assert (User._id <$> store user2 (db w) = User._id <$> db w) as Hids
      by by apply store_ids.
    destruct (sendMail E _); [| done].
    rewrite call_updateContextProfile_eq. cbn [now db].
    destruct (updateContextProfile E user2 ctx score (now w)) as [[u' saved] | msg]
      eqn:Hupd; [| done].
    apply Hkeep in Hupd as (Hid & _).
    destruct saved; cbn [world_of db add_events]; [| done].
    rewrite store_ids; [done |]. rewrite Hid, Hids. done.
  - assert (score < 5) as Hs by lia.
    rewrite (riskDecision_allowed _ _ _ _ _ Hscore Hs).
    rewrite call_updateContextProfile_eq. cbn [add_events now db].
    destruct (updateContextProfile E _ ctx score (now w)) as [[u' saved] | msg]
      eqn:Hupd; [| done].
    apply Hkeep in Hupd as (Hid & _).
    destruct saved; cbn [world_of db add_events].
    + rewrite store_ids; rewrite store_ids; try done; by rewrite Hid.
    + rewrite store_ids; [done | by rewrite Hid].
Qed.

(** X4. None of the handlers that work on an existing account adds or
    removes a document: after login, verifyEmail, resendVerificationCode,
    forgotPassword, resetPassword, verifyTwoFactorAuth and resetRiskScore
    the stored [_id]s are the same, in the same order (so they stay
    distinct).  For login this needs the profile updater to keep the
    [_id] of the document it is given. *)
Theorem handlers_keep_the_accounts E :
  updater_keeps_tokens E →
  (∀ email password context captcha w,
     User._id <$> db (login E email password context captcha w).2
     = User._id <$> db w)
  ∧ (∀ code w, User._id <$> db (verifyEmail E code w).2 = User._id <$> db w)
  ∧ (∀ email w,
       User._id <$> db (resendVerificationCode E email w).2 = User._id <$> db w)
  ∧ (∀ email w, User._id <$> db (forgotPassword E email w).2 = User._id <$> db w)
  ∧ (∀ token newPassword w,
       User._id <$> db (resetPassword E token newPassword w).2 = User._id <$> db w)
  ∧ (∀ email code w,
       User._id <$> db (verifyTwoFactorAuth email code w).2 = User._id <$> db w)
  ∧ (∀ userId w, User._id <$> db (resetRiskScore userId w).2 = User._id <$> db w).
Proof.
  intros Hkeep. split_and!.
  - intros email password context captcha w.
    destruct (login_cases E email password context captcha w)
      as [[user Hacc] | (s & b & -> & _)]; [| done].
    assert (User._id user ∈ (User._id <$> db w)) as Hin.
    { destruct Hacc as (e & _ & _ & _ & _ & _ & Hf & _). by apply found_id in Hf. }
    rewrite (login_accepted _ _ _ _ _ _ _ Hacc). unfold contextCheck.
    rewrite finish_try_catch_world. unfold bind.
    destruct context as [ctx |]; [| done].
    destruct (includes (Context.device ctx) (User.trustedDevices user)) eqn:Hinc.
    + rewrite (newDeviceCheck_trusted _ _ _ _ Hinc). cbn [fst snd].
      by apply riskDecision_ids.
    + rewrite (newDeviceCheck_untrusted _ _ _ _ Hinc). cbv zeta.
      set (user1 := User.set_resetPassword _ _ user).
      assert (User._id <$> store user1 (db w) = User._id <$> db w) as Hids
        by by apply store_ids.
      destruct (sendMail E _); [| done]. cbn [fst snd].
      rewrite riskDecision_ids; [done | done |]. cbn [db]. by rewrite Hids.
  - intros code w. rewrite verifyEmail_eq.
    destruct (find _ (db w)) as [u |] eqn:Hfind; [| done].
    cbn [snd db]. apply store_ids. by apply found_id in Hfind.
  - intros email w. unfold resendVerificationCode.
    destruct (truthy email) as [e |]; [| done]. run.
    destruct (find _ (db w)) as [u |] eqn:Hfind; [| done].
    destruct (User.isVerified u); [done |]. run.
    destruct (sendMail E _) as [[] |]; cbn [snd db];
      apply store_ids; by apply found_id in Hfind.
  - intros email w. unfold forgotPassword.
    assert (User._id <$> db (handle
              (let* user := findOne (λ u, match email with
                                          | Some email => has_email email u
                                          | None => false
                                          end) in
               match user with
               | None => ret (reply 400 (JsonMessage false "User not found!"))
               | Some user =>
                   let* bytes := crypto_randomBytes E 20 in
                   let resetToken := toString_hex bytes in
                   let* t := Date_now in
                   let resetTokenExpiresAt := t + 30 * 60 * 1000 in
                   let user := User.set_resetPassword (Some resetToken)
                                 (Some resetTokenExpiresAt) user in
                   let* _ := save user in
                   let* _ := send_detached
                               (ResetPasswordEmail (User.email user)
                                  (reset_url E resetToken)) in
                   ret (reply 200 (JsonMessage true
                                     "Password reset token sent to your email"))
               end) (λ _, server_error) w).2 = User._id <$> db w) as Hrest.
    { run. destruct (find _ (db w)) as [u |] eqn:Hfind; [| done]. run.
      cbn [snd db]. apply store_ids. by apply found_id in Hfind. }
    by destruct (truthy email).
  - intros token newPassword w. unfold resetPassword.
    destruct (truthy newPassword); [| done]. run.
    destruct (find _ (db w)) as [u |] eqn:Hfind; [| done]. run.
    cbn [snd db]. apply store_ids. by apply found_id in Hfind.
  - intros email code w. rewrite verifyTwoFactorAuth_eq.
    destruct (truthy email), (truthy code); try done.
    destruct (find _ (db w)) as [u |] eqn:Hfind; [| done].
    cbn [snd db]. apply store_ids. by apply found_id in Hfind.
  - intros userId w. unfold resetRiskScore. run.
    destruct (find _ (db w)) as [u |] eqn:Hfind; [| done].
    destruct (User.riskScore u <=? 0); [done |]. run.
    cbn [snd db]. apply store_ids. by apply found_id in Hfind.
Qed.

(** ** Codes and tokens, issued and consumed *)

(** A lookup in the store after a save: when no document of another user
    passes the filter, the lookup finds the saved document or nothing. *)
Lemma find_store (f : User.t → bool) (u : User.t) (l : list User.t) :
  (∀ d, d ∈ l → User._id d ≠ User._id u → f d = false) →
  find f (store u l) = if f u then Some u else None.
Proof.
  intros Hothers.
  assert (∀ d, d ∈ store u l → f d = true → d = u) as Huniq.
  { intros d Hd Hf. apply store_elem in Hd as [-> | [Hd Hne]]; [done |].
    rewrite (Hothers d Hd Hne) in Hf. done. }
  destruct (f u) eqn:Hfu.
  - destruct (find f (store u l)) as [x |] eqn:Hfind.
    + apply find_elem in Hfind as [Hx Hfx]. by rewrite (Huniq x Hx Hfx).
    + rewrite find_none_iff in Hfind. rewrite (Hfind u (store_self u l)) in Hfu. done.
  - apply find_none_iff. intros d Hd. destruct (f d) eqn:Hfd; [| done].
    rewrite (Huniq d Hd Hfd) in Hfd. congruence.
Qed.

(** X5. When verifyEmail finds a user for the code, that user is marked
    verified and its code and deadline are cleared, with its password and
    TrustStore untouched, and this is saved before the welcome mail is
    sent: it holds also when that mail fails and the answer is the server
    error.  The answer never sets a cookie. *)
Theorem verifyEmail_marks_verified E code w u :
  find (verification_filter code (now w)) (db w) = Some u →
  let out := verifyEmail E code w in
  stored_with (User._id u)
    (λ d, User.isVerified d = true
          ∧ User.verificationToken d = None
          ∧ User.verificationTokenExpiresAt d = None
          ∧ User.password d = User.password u
          ∧ User.email d = User.email u
          ∧ trustStore d = trustStore u) (db out.2)
  ∧ out.1 = match sendMail E (WelcomeEmail (User.email u) (User.name u)) with
            | Returns _ =>
                reply 200 (JsonUser "Email verified successfully"
                             (without_password
                                (User.set_verification None None
                                   (User.set_isVerified true u))))
            | Throws _ => server_error
            end
  ∧ cookie out.1 = None.
Proof.
  intros Hfind out. subst out. rewrite verifyEmail_eq, Hfind. cbn [fst snd db].
  split; [| split; [done | by destruct (sendMail E _)]].
  by apply (store_stored_with
              (User.set_verification None None (User.set_isVerified true u))).
Qed.

(** X6. A verification code is good for one use.  After
    verifyTwoFactorAuth has accepted a code for an address that belongs to
    one user, whatever code is submitted for that address afterwards, at
    any instant, is rejected with status 400, without a cookie and without
    effect, as long as no new code is issued. *)
Theorem second_factor_code_single_use e c w w' code' :
  e ≠ "" → c ≠ "" →
  (∀ d1 d2, d1 ∈ db w → d2 ∈ db w → User.email d1 = e → User.email d2 = e →
            User._id d1 = User._id d2) →
  status (verifyTwoFactorAuth (Some e) (Some c) w).1 = 200 →
  db w' = db (verifyTwoFactorAuth (Some e) (Some c) w).2 →
  status (verifyTwoFactorAuth (Some e) code' w').1 = 400
  ∧ cookie (verifyTwoFactorAuth (Some e) code' w').1 = None
  ∧ (verifyTwoFactorAuth (Some e) code' w').2 = w'.
Proof.
  intros He Hc Hone Hok Hdb.
  rewrite verifyTwoFactorAuth_eq in Hok, Hdb.
  rewrite (verifyTwoFactorAuth_eq (Some e) code' w').
  assert (truthy (Some e) = Some e) as Hte by by apply truthy_Some.
  assert (truthy (Some c) = Some c) as Htc by by apply truthy_Some.
  rewrite Hte in *. rewrite Htc in *.
  destruct (find (two_factor_filter e c (now w)) (db w)) as [u |] eqn:Hfind;
    [| done].
  cbn [snd db] in Hdb. apply find_elem in Hfind as [Hu Hf].
  apply two_factor_filter_true in Hf as (Hue & _).
  destruct (truthy code') as [c' |]; [| done].
  assert (find (two_factor_filter e c' (now w')) (db w') = None) as ->; [| done].
  apply find_none_iff. intros d Hd. rewrite Hdb in Hd.
  destruct (two_factor_filter e c' (now w') d) eqn:Hfd; [| done]. exfalso.
  apply two_factor_filter_true in Hfd as (Hde & Hdc & _).
  apply store_elem in Hd as [-> | [Hd Hne]]; [done |].
  apply Hne. cbn. by apply Hone.
Qed.

(** X7. The code resendVerificationCode stores for an unverified user
    verifies that user's email for one minute: while no other user
    carries the same code, verifyEmail with it marks the user verified at
    every instant strictly before the instant of issuance plus 60000 ms,
    and rejects it, changing nothing, from that instant on. *)
Theorem resend_then_verifyEmail E w e user w' :
  e ≠ "" →
  find (has_email e) (db w) = Some user →
  User.isVerified user = false →
  let code := generateVerificationCode E (drawn w) in
  code_only_of (User._id user) code (db w) →
  db w' = db (resendVerificationCode E (Some e) w).2 →
  let out := verifyEmail E (Some code) w' in
  if now w' <? now w + 60 * 1000 then
    stored_with (User._id user)
      (λ d, User.isVerified d = true ∧ User.verificationToken d = None) (db out.2)
  else out = (invalid_or_expired, w').
Proof.
  intros He Hfind Hver code Honly Hdb out. subst out.
  rewrite (resendVerificationCode_found _ _ _ _ He Hfind Hver) in Hdb.
  cbn [snd db] in Hdb. fold code in Hdb.
  set (user1 := User.set_verification (Some code) (Some (now w + 60 * 1000)) user)
    in Hdb.
  rewrite verifyEmail_eq, Hdb.
  rewrite (find_store _ user1).
  - assert (verification_filter (Some code) (now w') user1
            = (now w' <? now w + 60 * 1000)) as ->.
    { unfold verification_filter. cbn. by rewrite bool_decide_eq_true_2. }
    destruct (now w' <? now w + 60 * 1000); [| reflexivity]. cbn [snd db].
    by apply (store_stored_with
                (User.set_verification None None (User.set_isVerified true user1))).
  - intros d Hd Hne. unfold verification_filter.
    rewrite bool_decide_eq_false_2; [done |]. by apply Honly.
Qed.

(** X8. resendVerificationCode refuses, with status 400 and without any
    effect (nothing stored, drawn or mailed), a request without email, an
    address no stored user has, and a user already verified.  For an
    unverified user the new code and its one-minute deadline are stored
    before the mail is sent, so they are stored also when the mail fails
    and the answer is the server error. *)
Theorem resendVerificationCode_outcomes E w :
  (∀ email, truthy email = None →
     resendVerificationCode E email w
     = (reply 400 (JsonMessage false "Email is required!"), w))
  ∧ (∀ e, e ≠ "" → find (has_email e) (db w) = None →
       resendVerificationCode E (Some e) w
       = (reply 400 (JsonMessage false "User not found!"), w))
  ∧ (∀ e user, e ≠ "" → find (has_email e) (db w) = Some user →
       User.isVerified user = true →
       resendVerificationCode E (Some e) w
       = (reply 400 (JsonMessage false "User already verified!"), w))
  ∧ (∀ e user, e ≠ "" → find (has_email e) (db w) = Some user →
       User.isVerified user = false →
       let out := resendVerificationCode E (Some e) w in
       holds_verification (User._id user)
         (Some (generateVerificationCode E (drawn w))) (Some (now w + 60 * 1000))
         (db out.2)
       ∧ (status out.1 = 200 ∨ out.1 = server_error)
       ∧ (status out.1 = 200 ↔
          sendMail E (VerificationEmail (User.email user)
                        (generateVerificationCode E (drawn w))) = Returns tt)).
Proof.
  split_and!.
  - intros email Hnone. unfold resendVerificationCode. by rewrite Hnone.
  - intros e He Hfind. unfold resendVerificationCode.
    assert (truthy (Some e) = Some e) as -> by by apply truthy_Some.
    run. by rewrite Hfind.
  - intros e user He Hfind Hver. unfold resendVerificationCode.
    assert (truthy (Some e) = Some e) as -> by by apply truthy_Some.
    run. by rewrite Hfind, Hver.
  - intros e user He Hfind Hver out. subst out.
    rewrite (resendVerificationCode_found _ _ _ _ He Hfind Hver). cbn [fst snd db].
    split; [apply (store_holds_verification (User.set_verification _ _ user)) |].
    destruct (sendMail E _) as [[] | msg]; cbn.
    + split; [by left |]. done.
    + split; [by right |]. split; [lia | done].
Qed.

(** [resetPassword], by what its lookup finds. *)
Lemma resetPassword_eq E token newPassword w :
  resetPassword E token newPassword w =
  match truthy newPassword with
  | None => (reply 400 (JsonMessage false "New password is required!"), w)
  | Some p =>
      match find (reset_filter token (now w)) (db w) with
      | None => (reply 400 (JsonMessage false "Invalid or expired reset token"), w)
      | Some u =>
          let u' := User.set_resetPassword None None
                      (User.set_password (bcrypt_hash E p) u) in
          (reply 200 (JsonMessage true "Password reset successfully"),
           mkWorld (store u' (db w)) (now w) (drawn w)
             (trace w ++ [EvSave u'; EvMail (ResetSuccessEmail (User.email u))]))
      end
  end.
Proof.
  unfold resetPassword. destruct (truthy newPassword) as [p |]; [| done]. run.
  destruct (find _ (db w)) as [u |]; [| done]. run. by rewrite <- app_assoc.
Qed.

(** X9. The token forgotPassword stores for a user resets that user's
    password for thirty minutes: while no other user carries the same
    token, resetPassword with it and a new password answers 200 at every
    instant strictly before the instant of issuance plus 1800000 ms, and
    then the stored password is the hash of the new one, the token and
    its deadline are cleared, and email and TrustStore are untouched; from
    that instant on it is rejected and nothing changes. *)
Theorem forgotPassword_then_resetPassword E w e user w' p :
  e ≠ "" → p ≠ "" →
  find (has_email e) (db w) = Some user →
  let token := fresh_reset_token E w in
  reset_token_only_of (User._id user) token (db w) →
  db w' = db (forgotPassword E (Some e) w).2 →
  let out := resetPassword E token (Some p) w' in
  if now w' <? now w + 30 * 60 * 1000 then
    status out.1 = 200
    ∧ stored_with (User._id user)
        (λ d, User.password d = bcrypt_hash E p
              ∧ User.resetPasswordToken d = None
              ∧ User.resetPasswordExpiresAt d = None
              ∧ User.email d = User.email user
              ∧ trustStore d = trustStore user) (db out.2)
  else out = (reply 400 (JsonMessage false "Invalid or expired reset token"), w').
Proof.
  intros He Hp Hfind token Honly Hdb out. subst out.
  rewrite (forgotPassword_found _ _ _ _ He Hfind) in Hdb. cbn [snd db] in Hdb.
  fold token in Hdb.
  set (user1 := User.set_resetPassword (Some token) (Some (now w + 30 * 60 * 1000))
                  user) in Hdb.
  rewrite resetPassword_eq, Hdb.
  assert (truthy (Some p) = Some p) as -> by by apply truthy_Some.
  rewrite (find_store _ user1).
  - assert (reset_filter token (now w') user1 = (now w' <? now w + 30 * 60 * 1000))
      as ->.
    { unfold reset_filter. cbn. by rewrite bool_decide_eq_true_2. }
    destruct (now w' <? now w + 30 * 60 * 1000); [| reflexivity].
    cbn [fst snd db status reply]. split; [done |].
    by apply (store_stored_with
                (User.set_resetPassword None None
                   (User.set_password (bcrypt_hash E p) user1))).
  - intros d Hd Hne. unfold reset_filter.
    rewrite bool_decide_eq_false_2; [done |]. by apply Honly.
Qed.

(** X10. A reset token is good for one use.  After resetPassword has
    reset a user's password with a token that no other user carries, the
    same token is rejected at any later instant, with any password, and
    nothing changes. *)
Theorem reset_token_single_use E token p w u w' newPassword :
  p ≠ "" →
  find (reset_filter token (now w)) (db w) = Some u →
  reset_token_only_of (User._id u) token (db w) →
  db w' = db (resetPassword E token (Some p) w).2 →
  status (resetPassword E token newPassword w').1 = 400
  ∧ (resetPassword E token newPassword w').2 = w'.
Proof.
  intros Hp Hfind Honly Hdb. rewrite resetPassword_eq in Hdb.
  assert (truthy (Some p) = Some p) as Htp by by apply truthy_Some.
  rewrite Htp, Hfind in Hdb. cbn [snd db] in Hdb.
  apply resetPassword_none. rewrite Hdb. rewrite find_store; [done |].
  intros d Hd Hne. unfold reset_filter.
  rewrite bool_decide_eq_false_2; [done |]. by apply Honly.
Qed.

Lemma find_has_email_store (e : string) (u u' : User.t) (l : list User.t) :
  find (has_email e) l = Some u →
  User._id u' = User._id u → User.email u' = e →
  find (has_email e) (store u' l) = Some u'.
Proof.
  intros Hfind Hid Hemail. unfold store.
  assert (existsb (same_id u') l = true) as ->.
  { apply find_elem in Hfind as [Hu _]. apply existsb_exists. exists u.
    split; [by apply list_elem_of_In |]. unfold same_id.
    by apply bool_decide_eq_true. }
  induction l as [| a l IH]; [done |]. cbn [map find] in *.
  destruct (same_id u' a) eqn:Ha.
  - assert (has_email e u' = true) as -> by by apply bool_decide_eq_true.
    reflexivity.
  - destruct (has_email e a) eqn:Hea.
    + injection Hfind as ->. apply bool_decide_eq_false in Ha. congruence.
    + by apply IH.
Qed.

(** X11. After a password reset the new password opens the login: when
    the user found for the token is the account of its address and bcrypt
    recognises a password against its own hash, the credential and captcha
    checks of login pass for the address with the new password, for the
    document resetPassword saved. *)
Theorem resetPassword_then_login E token p w u w' c :
  p ≠ "" → c ≠ "" → User.email u ≠ "" →
  find (reset_filter token (now w)) (db w) = Some u →
  find (has_email (User.email u)) (db w) = Some u →
  bcrypt_compare E p (bcrypt_hash E p) = true →
  verifyCaptcha E c = Returns true →
  db w' = db (resetPassword E token (Some p) w).2 →
  accepted E (Some (User.email u)) (Some p) (Some c) w'
    (User.set_resetPassword None None (User.set_password (bcrypt_hash E p) u)).
Proof.
  intros Hp Hc He Hfind Hmail Hbcrypt Hcap Hdb. rewrite resetPassword_eq in Hdb.
  assert (truthy (Some p) = Some p) as Htp by by apply truthy_Some.
  rewrite Htp, Hfind in Hdb. cbn [snd db] in Hdb.
  exists (User.email u), p, c. split_and!; try by apply truthy_Some.
  - rewrite Hdb. by apply (find_has_email_store _ u).
  - done.
  - done.
Qed.

(** X12. forgotPassword on a request without a usable email.  An absent
    email, and an empty one when no stored user has the empty address,
    get the answer 400 "Email is required!" and have no effect; an
    address no stored user has gets 400 "User not found!" and has no
    effect.  The guard on the email does not return, though: when a stored
    user has the empty address, the request with the empty email is
    answered 400 "Email is required!" and still stores a fresh reset token
    on that user and mails it. *)
Theorem forgotPassword_without_email E w :
  forgotPassword E None w = (reply 400 (JsonMessage false "Email is required!"), w)
  ∧ ((∀ d, d ∈ db w → User.email d ≠ "") →
     forgotPassword E (Some "") w
     = (reply 400 (JsonMessage false "Email is required!"), w))
  ∧ (∀ e, e ≠ "" → find (has_email e) (db w) = None →
       forgotPassword E (Some e) w
       = (reply 400 (JsonMessage false "User not found!"), w))
  ∧ (∀ user, find (has_email "") (db w) = Some user →
       let out := forgotPassword E (Some "") w in
       let token := fresh_reset_token E w in
       out.1 = reply 400 (JsonMessage false "Email is required!")
       ∧ holds_reset (User._id user) (Some token) (Some (now w + 30 * 60 * 1000))
           (db out.2)
       ∧ trace out.2 =
           (trace w ++
            [EvSave (User.set_resetPassword (Some token)
                       (Some (now w + 30 * 60 * 1000)) user);
             EvMail (ResetPasswordEmail (User.email user) (reset_url E token))])%list).
Proof.
  split_and!.
  - unfold forgotPassword. cbn [truthy]. run.
    assert (find (λ _ : User.t, false) (db w) = None) as ->; [| done].
    by apply find_none_iff.
  - intros Hnone. unfold forgotPassword.
    assert (truthy (Some "") = None) as -> by done. run.
    assert (find (λ u, has_email "" u) (db w) = None) as ->; [| done].
    apply find_none_iff. intros d Hd. apply bool_decide_eq_false. by apply Hnone.
  - intros e He Hfind. unfold forgotPassword.
    assert (truthy (Some e) = Some e) as -> by by apply truthy_Some.
    assert (find (λ u, has_email e u) (db w) = None) as Hfind' by exact Hfind.
    run. by rewrite Hfind'.
  - intros user Hfind out token. subst out. unfold forgotPassword.
    assert (find (λ u, has_email "" u) (db w) = Some user) as Hfind' by exact Hfind.
    assert (truthy (Some "") = None) as -> by done. run. rewrite Hfind'. run.
    fold (fresh_reset_token E w). fold token. cbn [fst snd db trace].
    split; [done |]. split.
    + apply (store_holds_reset (User.set_resetPassword _ _ user)).
    + by rewrite <- app_assoc.
Qed.

(** X13. resetRiskScore puts a positive stored score back to 0 and
    touches nothing else of the document; asked again, it refuses with
    status 400 and changes nothing.  A score that is 0 or negative is left
    as it is, with the same refusal, and an id no stored user has gets 404
    without effect. *)
Theorem resetRiskScore_once userId w :
  let out := resetRiskScore userId w in
  (find (has_id userId) (db w) = None →
   out = (reply 404 (JsonMessage false "User not found"), w))
  ∧ (∀ u, find (has_id userId) (db w) = Some u → User.riskScore u <= 0 →
       out = (reply 400 (JsonMessage false "Risk score is already 0."), w))
  ∧ (∀ u, find (has_id userId) (db w) = Some u → 0 < User.riskScore u →
       out.1 = reply 200 (JsonMessage true "Risk score reset to 0.")
       ∧ db out.2 = store (set_riskScore 0 u) (db w)
       ∧ stored_with (User._id u) (λ d, d = set_riskScore 0 u) (db out.2)
       ∧ ∀ w', db w' = db out.2 →
           resetRiskScore userId w'
           = (reply 400 (JsonMessage false "Risk score is already 0."), w')).
Proof.
  intros out. subst out. split_and!.
  - intros Hfind. unfold resetRiskScore. run. by rewrite Hfind.
  - intros u Hfind Hle. unfold resetRiskScore. run. rewrite Hfind.
    assert ((User.riskScore u <=? 0) = true) as -> by lia. done.
  - intros u Hfind Hpos.
    assert (resetRiskScore userId w
            = (reply 200 (JsonMessage true "Risk score reset to 0."),
               mkWorld (store (set_riskScore 0 u) (db w)) (now w) (drawn w)
                 (trace w ++ [EvSave (set_riskScore 0 u)]))) as ->.
    { unfold resetRiskScore. run. rewrite Hfind.
      assert ((User.riskScore u <=? 0) = false) as -> by lia. done. }
    cbn [fst snd db]. split; [done |]. split; [done |].
    split; [by apply (store_stored_with (set_riskScore 0 u)) |].
    intros w' Hdb. unfold resetRiskScore. run. rewrite Hdb.
    rewrite (find_store _ (set_riskScore 0 u)).
    + apply find_elem in Hfind as [_ Hid].
      assert (has_id userId (set_riskScore 0 u) = true) as -> by exact Hid.
      done.
    + intros d Hd Hne. apply find_elem in Hfind as [_ Hid].
      unfold has_id in *. destruct userId as [i |]; [| done].
      apply bool_decide_eq_true in Hid. apply bool_decide_eq_false.
      cbn in Hne. congruence.
Qed.

(** X25. The second factor, end to end.  After a login that took the
    second-factor branch, verifyTwoFactorAuth with the address and the code
    that login stored opens the session for that user at every instant
    strictly before the instant of the login plus 300000 ms, clearing the
    code; from that instant on the same code is rejected and nothing
    changes.  (The address belongs to that user only, and the profile
    updater keeps the identity, tokens and address of the document.) *)
Theorem login_then_second_factor E email password context captcha w
    user user1 ctx w1 score w' :
  updater_keeps_account E →
  accepted E email password captcha w user →
  newDeviceCheck E user context w = Ret (user1, ctx) w1 →
  evaluateContext E ctx user1 = Returns score →
  5 <= score < 10 →
  (∀ d, d ∈ db w → User._id d ≠ User._id user → User.email d ≠ User.email user) →
  let code := generateVerificationCode E (drawn w1) in
  code ≠ "" →
  db w' = db (login E email password context captcha w).2 →
  let out := verifyTwoFactorAuth email (Some code) w' in
  if now w' <? now w + 5 * 60 * 1000 then
    status out.1 = 200
    ∧ cookie out.1 = Some (User._id user)
    ∧ holds_verification (User._id user) None None (db out.2)
  else out = (invalid_or_expired, w').
Proof.
  intros [Hkeep Hmail] Hacc Hdev Hscore Hs Hone code Hcode Hdb out. subst out.
  pose proof (newDeviceCheck_identity _ _ _ _ _ _ _ Hdev) as (Hid1 & Hemail1 & _).
  pose proof (newDeviceCheck_ret _ _ _ _ _ _ _ Hdev) as (_ & Hnow & Hw1).
  destruct Hacc as (e & p & c & He & Hp & Hc & Hfind & Hpw & Hcap).
  pose proof (find_elem _ _ _ Hfind) as [Huser Hue].
  apply bool_decide_eq_true in Hue.
  assert (accepted E email password captcha w user) as Hacc
    by (by exists e, p, c).
  set (user2 := User.set_verification (Some code) (Some (now w + 5 * 60 * 1000)) user1).
  (* the documents of the other users in [db w1] are those of [db w] *)
  assert (∀ d, d ∈ db w1 → User._id d ≠ User._id user → User.email d ≠ e) as Hone1.
  { intros d Hd Hne. rewrite <- Hue.
    destruct Hw1 as [(_ & _ & ->) | (_ & Hw1)]; [by apply Hone |].
    cbn zeta in Hw1. destruct Hw1 as (-> & _ & ->). cbn [db] in Hd.
    apply store_elem in Hd as [-> | [Hd _]]; [done | by apply Hone]. }
  assert (User.email user2 = e) as He2 by (cbn; congruence).
  (* the store after login: [user2] saved, then perhaps the folded document *)
  assert (∃ u3, User._id u3 = User._id user ∧ User.email u3 = e
                ∧ User.verificationToken u3 = Some code
                ∧ User.verificationTokenExpiresAt u3 = Some (now w + 5 * 60 * 1000)
                ∧ (db w' = store user2 (db w1)
                   ∨ db w' = store u3 (store user2 (db w1)))) as Hstore.
  { rewrite Hdb, (login_accepted _ _ _ _ _ _ _ Hacc).
    rewrite (contextCheck_after _ _ _ _ _ _ _ Hdev), finish_try_catch_world.
    rewrite (riskDecision_two_factor _ _ _ _ _ Hscore Hs). cbv zeta.
    rewrite Hnow. fold code. fold user2.
    destruct (sendMail E _);
      [| exists user2; split_and!; try done; by left].
    rewrite call_updateContextProfile_eq. cbn [now db].
    destruct (updateContextProfile E user2 ctx score (now w)) as [[u3 saved] | msg]
      eqn:Hupd; [| exists user2; split_and!; try done; by left].
    pose proof (Hmail _ _ _ _ _ _ Hupd) as Hm.
    apply Hkeep in Hupd as (Hi & Ht & Hd & _).
    exists u3. split_and!.
    - by rewrite Hi.
    - by rewrite Hm.
    - by rewrite Ht.
    - by rewrite Hd.
    - destruct saved; [by right | by left]. }
  destruct Hstore as (u3 & Hi3 & He3 & Ht3 & Hd3 & Hstore).
  assert (User._id user2 = User._id user) as Hi2 by done.
  assert (∀ d, d ∈ store user2 (db w1) → User._id d ≠ User._id user →
               two_factor_filter e code (now w') d = false) as Hothers.
  { intros d Hd Hne. apply store_elem in Hd as [-> | [Hd _]]; [done |].
    unfold two_factor_filter, has_email.
    rewrite bool_decide_eq_false_2; [done |]. by apply Hone1. }
  assert (∃ u, User._id u = User._id user
               ∧ find (two_factor_filter e code (now w')) (db w')
                 = (if now w' <? now w + 5 * 60 * 1000 then Some u else None))
    as (u & Hiu & Hfound).
  { destruct Hstore as [-> | ->].
    - exists user2. split; [done |]. rewrite find_store.
      + assert (two_factor_filter e code (now w') user2
                = (now w' <? now w + 5 * 60 * 1000)) as ->; [| done].
        unfold two_factor_filter, has_email, verification_filter. cbn.
        rewrite !bool_decide_eq_true_2; [done | done | congruence].
      + intros d Hd Hne. rewrite Hi2 in Hne.
        unfold two_factor_filter, has_email.
        rewrite bool_decide_eq_false_2; [done |]. by apply Hone1.
    - exists u3. split; [done |]. rewrite find_store.
      + assert (two_factor_filter e code (now w') u3
                = (now w' <? now w + 5 * 60 * 1000)) as ->; [| done].
        unfold two_factor_filter, has_email, verification_filter.
        rewrite Ht3, Hd3. cbn. rewrite !bool_decide_eq_true_2; done.
      + intros d Hd Hne. rewrite Hi3 in Hne. by apply Hothers. }
  rewrite verifyTwoFactorAuth_eq, He.
  assert (truthy (Some code) = Some code) as -> by by apply truthy_Some.
  rewrite Hfound. destruct (now w' <? now w + 5 * 60 * 1000); [| done].
  cbn [fst snd status cookie db two_factor_done]. split_and!; try done.
  - cbn. by rewrite Hiu.
  - rewrite <- Hiu. apply (store_holds_verification (User.set_verification None None u)).
Qed.

(** ** signup *)

Lemma store_fresh (u : User.t) (l : list User.t) :
  (∀ d, d ∈ l → User._id d ≠ User._id u) → store u l = (l ++ [u])%list.
Proof.
  intros Hfresh. unfold store.
  destruct (existsb (same_id u) l) eqn:Hex; [| done].
  apply existsb_exists in Hex as (d & Hd & Hid).
  apply list_elem_of_In in Hd. apply bool_decide_eq_true in Hid.
  by destruct (Hfresh d Hd).
Qed.

(** [signup] with all fields, a free address, a human's captcha and a
    context that has its ip, device and location. *)
Lemma signup_created E A e p n c ctx ip device location locationName w :
  e ≠ "" → p ≠ "" → n ≠ "" → c ≠ "" →
  find (has_email e) (db w) = None →
  verifyCaptcha E c = Returns true →
  Context.ip ctx = Some ip → Context.device ctx = Some device →
  Context.location ctx = Some location →
  getLocationName A location.1 location.2 = Returns locationName →
  let code := generateVerificationCode E (drawn w) in
  let user :=
    new_user A (ObjectId A (S (S (drawn w)))) (generateAccountDetails A (S (drawn w)))
      e (bcrypt_hash E p) n code (now w) ip device location locationName
      (Context.typingSpeed ctx) (Context.loginHours ctx) in
  signup E A (Some e) (Some p) (Some n) (Some ctx) (Some c) w =
  Some (match sendMail E (VerificationEmail e code) with
        | Returns _ =>
            mkResponse 201 (JsonUser "User Created Successfully" (without_password user))
              (Some (User._id user))
        | Throws msg => mkResponse 400 (JsonMessage false msg) (Some (User._id user))
        end,
        mkWorld (store user (db w)) (now w) (S (S (S (drawn w))))
          (trace w ++ [EvSave user; EvMail (VerificationEmail e code)])).
Proof.
  intros He Hp Hn Hc Hfind Hcap Hip Hdev Hloc Hname code user.
  unfold signup, signup_body.
  assert (truthy (Some e) = Some e) as -> by by apply truthy_Some.
  assert (truthy (Some p) = Some p) as -> by by apply truthy_Some.
  assert (truthy (Some n) = Some n) as -> by by apply truthy_Some.
  assert (truthy (Some c) = Some c) as -> by by apply truthy_Some.
  run. rewrite Hfind. unfold call_generateAccountDetails, new_ObjectId. run.
  rewrite Hcap. cbn [negb]. run. rewrite Hloc. run. rewrite Hname. run.
  rewrite Hip, Hdev. unfold new_ObjectId. run. fold code. fold user.
  change (User.email user) with e.
  destruct (sendMail E (VerificationEmail e code)) as [[] | msg]; run;
    by rewrite <- app_assoc.
Qed.

(** The outcomes of [signup], by the cookie of the answer. *)
Lemma signup_effect E A email password name context captcha w r w' :
  signup E A email password name context captcha w = Some (r, w') →
  (cookie r = None ∧ db w' = db w ∧ trace w' = trace w ∧ 400 <= status r)
  ∨ (∃ e user,
       cookie r = Some (User._id user)
       ∧ truthy email = Some e ∧ find (has_email e) (db w) = None
       ∧ User._id user = ObjectId A (S (S (drawn w)))
       ∧ User.email user = e
       ∧ db w' = store user (db w)
       ∧ (status r = 201 ∨ status r = 400)).
Proof.
  unfold signup, signup_body.
  destruct (truthy email) as [e |]; [| by intros [= <- <-]; left].
  destruct (truthy password) as [p |]; [| by intros [= <- <-]; left].
  destruct (truthy name) as [n |]; [| by intros [= <- <-]; left].
  destruct (truthy captcha) as [c |]; [| by intros [= <- <-]; left].
  run. destruct (find (has_email e) (db w)) as [u |] eqn:Hfind;
    [by intros [= <- <-]; left |].
  unfold call_generateAccountDetails. run.
  destruct (verifyCaptcha E c) as [[] | msg]; cbn [negb]; run;
    [| by intros [= <- <-]; left ..].
  destruct context as [ctx |]; [| by intros [= <- <-]; left].
  destruct (Context.location ctx) as [location |]; [| by intros [= <- <-]; left].
  run. destruct (getLocationName A location.1 location.2) as [locationName | msg];
    run; [| by intros [= <- <-]; left].
  destruct (Context.ip ctx) as [ip |]; [| done].
  destruct (Context.device ctx) as [device |]; [| done].
  unfold new_ObjectId. run.
  destruct (sendMail E _) as [[] | msg]; run; intros [= <- <-]; right;
    cbn [cookie db];
    refine (ex_intro _ e (ex_intro _ _
              (conj _ (conj _ (conj _ (conj _ (conj _ (conj eq_refl _))))))));
    [reflexivity | done | done | reflexivity | reflexivity | auto ..].
Qed.

(** X14. signup creates an account exactly when its answer carries the
    session cookie.  An answer without cookie (a missing field, a missing
    or failed captcha, an address already registered, a request without
    context or location) has an error status and leaves the store and the
    log of outgoing calls as they were.  An answer with the cookie comes
    with one document saved for an address that was free, and it is
    either the 201 answer or, when the verification mail fails, a 400
    answer: the account then exists and the session is open all the
    same. *)
Theorem signup_stores_iff_cookie E A email password name context captcha w r w' :
  signup E A email password name context captcha w = Some (r, w') →
  match cookie r with
  | None => db w' = db w ∧ trace w' = trace w ∧ 400 <= status r
  | Some id =>
      ∃ e user,
        truthy email = Some e ∧ find (has_email e) (db w) = None
        ∧ User._id user = id ∧ id = ObjectId A (S (S (drawn w)))
        ∧ User.email user = e
        ∧ db w' = store user (db w)
        ∧ (status r = 201 ∨ status r = 400)
  end.
Proof.
  intros Hsign.
  apply signup_effect in Hsign
    as [(-> & Hdb & Htrace & Hstatus)
       | (e & user & -> & He & Hfind & Hid & Hemail & Hdb & Hstatus)].
  - done.
  - exists e, user. by rewrite <- Hid.
Qed.

(** X15. The device of the signup is trusted from the start: after a
    signup that created the account, a login for that address with the
    signup password passes the credential check (bcrypt recognising a
    password against its own hash) and, coming from the signup device,
    skips the new-device side channel: no reset token is drawn and no
    alert is sent before scoring. *)
Theorem signup_then_login_from_same_device
    E A e p n c ctx ip device location locationName w w' ctx' :
  e ≠ "" → p ≠ "" → n ≠ "" → c ≠ "" →
  find (has_email e) (db w) = None →
  verifyCaptcha E c = Returns true →
  Context.ip ctx = Some ip → Context.device ctx = Some device →
  Context.location ctx = Some location →
  getLocationName A location.1 location.2 = Returns locationName →
  bcrypt_compare E p (bcrypt_hash E p) = true →
  Context.device ctx' = Some device →
  (∃ r w1, signup E A (Some e) (Some p) (Some n) (Some ctx) (Some c) w = Some (r, w1)
           ∧ db w' = db w1) →
  let user :=
    new_user A (ObjectId A (S (S (drawn w)))) (generateAccountDetails A (S (drawn w)))
      e (bcrypt_hash E p) n (generateVerificationCode E (drawn w)) (now w)
      ip device location locationName
      (Context.typingSpeed ctx) (Context.loginHours ctx) in
  accepted E (Some e) (Some p) (Some c) w' user
  ∧ newDeviceCheck E user (Some ctx') w' = Ret (user, ctx') w'.
Proof.
  intros He Hp Hn Hc Hfind Hcap Hip Hdev Hloc Hname Hbcrypt Hdev' (r & w1 & Hsign & Hdb)
    user.
  rewrite (signup_created _ _ _ _ _ _ _ _ _ _ _ _ He Hp Hn Hc Hfind Hcap Hip Hdev
             Hloc Hname) in Hsign.
  injection Hsign as _ <-. cbn [db] in Hdb. fold user in Hdb. split.
  - exists e, p, c. split_and!; try by apply truthy_Some.
    + rewrite Hdb, find_store.
      * assert (has_email e user = true) as -> by by apply bool_decide_eq_true.
        done.
      * intros d Hd _. rewrite find_none_iff in Hfind. by apply Hfind.
    + done.
    + done.
  - apply newDeviceCheck_trusted. rewrite Hdev'. cbn.
    apply bool_decide_eq_true. apply list_elem_of_here.
Qed.

(** X16. The code signup stores verifies the new account's email for one
    minute: while no other user carries the same code, verifyEmail with it
    marks the account verified at every instant strictly before the
    instant of the signup plus 60000 ms, and rejects it, changing nothing,
    from that instant on. *)
Theorem signup_then_verifyEmail
    E A e p n c ctx ip device location locationName w w' :
  e ≠ "" → p ≠ "" → n ≠ "" → c ≠ "" →
  find (has_email e) (db w) = None →
  verifyCaptcha E c = Returns true →
  Context.ip ctx = Some ip → Context.device ctx = Some device →
  Context.location ctx = Some location →
  getLocationName A location.1 location.2 = Returns locationName →
  let code := generateVerificationCode E (drawn w) in
  let id := ObjectId A (S (S (drawn w))) in
  code_only_of id code (db w) →
  (∃ r w1, signup E A (Some e) (Some p) (Some n) (Some ctx) (Some c) w = Some (r, w1)
           ∧ db w' = db w1) →
  let out := verifyEmail E (Some code) w' in
  if now w' <? now w + 60 * 1000 then
    stored_with id
      (λ d, User.isVerified d = true ∧ User.verificationToken d = None
            ∧ User.email d = e) (db out.2)
  else out = (invalid_or_expired, w').
Proof.
  intros He Hp Hn Hc Hfind Hcap Hip Hdev Hloc Hname code id Honly
    (r & w1 & Hsign & Hdb) out. subst out.
  rewrite (signup_created _ _ _ _ _ _ _ _ _ _ _ _ He Hp Hn Hc Hfind Hcap Hip Hdev
             Hloc Hname) in Hsign.
  injection Hsign as _ <-. cbn [db] in Hdb. fold code in Hdb.
  set (user := new_user A _ _ e _ n code _ ip device location locationName _ _) in Hdb.
  rewrite verifyEmail_eq, Hdb. rewrite (find_store _ user).
  - assert (verification_filter (Some code) (now w') user
            = (now w' <? now w + 60 * 1000)) as ->.
    { unfold verification_filter. cbn. by rewrite bool_decide_eq_true_2. }
    destruct (now w' <? now w + 60 * 1000); [| reflexivity]. cbn [snd db].
    by apply (store_stored_with
                (User.set_verification None None (User.set_isVerified true user))).
  - intros d Hd Hne. unfold verification_filter.
    rewrite bool_decide_eq_false_2; [done |]. by apply Honly.
Qed.

(** X17. signup keeps the accounts distinct: when the stored addresses
    are pairwise different, the stored [_id]s are pairwise different and
    the [_id] of the new document is not in use, they still are after
    signup, whatever it answers. *)
Theorem signup_keeps_accounts_distinct
    E A email password name context captcha w r w' :
  NoDup (User.email <$> db w) →
  unique_ids (db w) →
  (∀ d, d ∈ db w → User._id d ≠ ObjectId A (S (S (drawn w)))) →
  signup E A email password name context captcha w = Some (r, w') →
  NoDup (User.email <$> db w') ∧ unique_ids (db w').
Proof.
  intros Hemails Hids Hfresh Hsign.
  apply signup_effect in Hsign
    as [(_ & Hdb & _) | (e & user & _ & _ & Hfind & Hid & Hemail & -> & _)];
    [unfold unique_ids; by rewrite Hdb |].
  rewrite store_fresh by (intros d Hd; rewrite Hid; by apply Hfresh).
  unfold unique_ids. rewrite !fmap_app. cbn [fmap list_fmap].
  split; apply NoDup_app; (split; [done |]); (split; [| apply NoDup_singleton]).
  - intros x Hx Hx'. apply list_elem_of_singleton in Hx' as ->.
    apply list_elem_of_fmap in Hx as (d & Hde & Hd).
    rewrite find_none_iff in Hfind. specialize (Hfind d Hd).
    apply bool_decide_eq_false in Hfind. congruence.
  - intros x Hx Hx'. apply list_elem_of_singleton in Hx' as ->.
    apply list_elem_of_fmap in Hx as (d & Hde & Hd).
    apply (Hfresh d Hd). congruence.
Qed.

(** ** deleteAccount *)

Lemma deleteOne_others {A} (f g : A → bool) (l : list A) :
  (∀ x, g x = true → f x = false) →
  List.filter g (deleteOne f l) = List.filter g l.
Proof.
  intros Hfg. induction l as [| x l IH]; [done |]. cbn [deleteOne].
  destruct (f x) eqn:Hfx.
  - cbn [List.filter]. destruct (g x) eqn:Hgx; [| done].
    rewrite (Hfg x Hgx) in Hfx. done.
  - cbn [List.filter]. by rewrite IH.
Qed.

Lemma deleteOne_count {A} (f : A → bool) (l : list A) :
  List.length (List.filter f (deleteOne f l))
  = Nat.pred (List.length (List.filter f l)).
Proof.
  induction l as [| x l IH]; [done |]. cbn [deleteOne].
  destruct (f x) eqn:Hfx.
  - cbn [List.filter]. by rewrite Hfx.
  - cbn [List.filter]. by rewrite Hfx.
Qed.

Lemma deleteOne_elem {A} (f : A → bool) (l : list A) (x : A) :
  x ∈ deleteOne f l → x ∈ l.
Proof.
  induction l as [| a l IH]; [done |]. cbn [deleteOne].
  destruct (f a).
  - intros H. by apply elem_of_cons; right.
  - intros H. apply elem_of_cons in H as [-> | H].
    + apply list_elem_of_here.
    + apply elem_of_cons. right. by apply IH.
Qed.

Lemma deleteOne_keeps {A} (f : A → bool) (l : list A) (x : A) :
  x ∈ l → f x = false → x ∈ deleteOne f l.
Proof.
  induction l as [| a l IH]; [done |]. cbn [deleteOne]. intros Hx Hfx.
  apply elem_of_cons in Hx as [<- | Hx].
  - rewrite Hfx. apply list_elem_of_here.
  - destruct (f a); [done |]. apply elem_of_cons. right. by apply IH.
Qed.

(** With distinct [_id]s, deleting the first document of an [_id]
    leaves none. *)
Lemma deleteOne_id_gone (id : Z) (l : list User.t) (d : User.t) :
  unique_ids l →
  d ∈ deleteOne (λ u, bool_decide (User._id u = id)) l → User._id d ≠ id.
Proof.
  unfold unique_ids. induction l as [| a l IH]; [by intros _ H; apply elem_of_nil in H |].
  rewrite fmap_cons. intros Hnd. apply NoDup_cons in Hnd as [Ha Hnd].
  cbn [deleteOne]. case_bool_decide as Hid.
  - intros Hd Hdid. apply Ha. rewrite Hid, <- Hdid. by apply list_elem_of_fmap_2.
  - intros Hd. apply elem_of_cons in Hd as [-> | Hd]; [done | by apply IH].
Qed.

Lemma deleteMany_elem {A} (f : A → bool) (l : list A) (x : A) :
  x ∈ deleteMany f l ↔ x ∈ l ∧ f x = false.
Proof.
  unfold deleteMany. rewrite !list_elem_of_In, filter_In, negb_true_iff. done.
Qed.

Section DeletionFacts.
Context {Profile Transaction ServiceRequest : Type}.
Variable profile_user : Profile → Z.
Variables transaction_userId transaction_recipientId : Transaction → Z.
Variable serviceRequest_email : ServiceRequest → string.
Variable sendAccountDeletionEmail : string → string → Outcome unit.

Abbreviation deleteAccount' :=
  (deleteAccount profile_user transaction_userId transaction_recipientId
     serviceRequest_email sendAccountDeletionEmail).

(** X18. deleteAccount for a stored user removes the user's document (no
    document with that [_id] is left, the other users' documents stay),
    every transaction the user sent or received, every service request of
    the user's address, and one profile of the user: the first one, so a
    second profile of the same user would stay.  The other transactions
    and requests are all still there, and the other profiles stay in
    their order.  The cookie is cleared and
    the deletion mail is asked for; when that mail fails the answer is the
    server error, and everything is deleted all the same. *)
Theorem deleteAccount_removes_account userId
    (b : Bank Profile Transaction ServiceRequest) u :
  unique_ids (db (users b)) →
  find (has_id userId) (db (users b)) = Some u →
  let out := deleteAccount' userId b in
  let id := User._id u in
  (∀ d, d ∈ db (users out.2) ↔ d ∈ db (users b) ∧ User._id d ≠ id)
  ∧ (∀ t, t ∈ transactions out.2 ↔
          t ∈ transactions b ∧ transaction_userId t ≠ id
          ∧ transaction_recipientId t ≠ id)
  ∧ (∀ r, r ∈ serviceRequests out.2 ↔
          r ∈ serviceRequests b ∧ serviceRequest_email r ≠ User.email u)
  ∧ List.length (List.filter (λ p, bool_decide (profile_user p = id)) (profiles out.2))
    = Nat.pred (List.length
                  (List.filter (λ p, bool_decide (profile_user p = id)) (profiles b)))
  ∧ List.filter (λ p, negb (bool_decide (profile_user p = id))) (profiles out.2)
    = List.filter (λ p, negb (bool_decide (profile_user p = id))) (profiles b)
  ∧ clearCookie out.1 = true
  ∧ deletionMails out.2 = (deletionMails b ++ [(User.email u, User.name u)])%list
  ∧ response out.1
    = match sendAccountDeletionEmail (User.email u) (User.name u) with
      | Returns _ =>
          reply 200 (JsonMessage true
                       "Account and all related data deleted successfully")
      | Throws _ => server_error
      end.
Proof.
  intros Hnd Hfind out id. subst out. unfold deleteAccount. rewrite Hfind.
  fold id.
  assert (∀ d, d ∈ deleteOne (λ u0, bool_decide (User._id u0 = id)) (db (users b))
               ↔ d ∈ db (users b) ∧ User._id d ≠ id) as Husers.
  { intros d. split.
    - intros Hd. split; [by apply deleteOne_elem in Hd |].
      by apply (deleteOne_id_gone id (db (users b))).
    - intros [Hd Hne]. apply deleteOne_keeps; [done |].
      by apply bool_decide_eq_false. }
  assert (∀ t, t ∈ deleteMany (λ t, bool_decide (transaction_userId t = id)
                                    || bool_decide (transaction_recipientId t = id))
                     (transactions b)
               ↔ t ∈ transactions b ∧ transaction_userId t ≠ id
                 ∧ transaction_recipientId t ≠ id) as Htrans.
  { intros t. rewrite deleteMany_elem, orb_false_iff, !bool_decide_eq_false. done. }
  assert (∀ r, r ∈ deleteMany (λ r, bool_decide (serviceRequest_email r = User.email u))
                     (serviceRequests b)
               ↔ r ∈ serviceRequests b ∧ serviceRequest_email r ≠ User.email u)
    as Hreq.
  { intros r. rewrite deleteMany_elem, bool_decide_eq_false. done. }
  destruct (sendAccountDeletionEmail (User.email u) (User.name u));
    cbn [fst snd users db transactions serviceRequests profiles deletionMails
         clearCookie response];
    (split_and!; try done;
     [apply deleteOne_count
     | apply deleteOne_others; intros p Hp; by apply negb_true_iff in Hp]).
Qed.

(** X19. After deleteAccount the account is gone for the other
    handlers: a second deleteAccount for the same session answers 404
    without clearing the cookie or changing anything, checkAuth and
    getMyAccountDetails answer 404, and, the address having belonged to
    that account only, a login for it is answered "User not found!". *)
Theorem deleteAccount_then_gone E userId
    (b : Bank Profile Transaction ServiceRequest) u p c context :
  unique_ids (db (users b)) →
  find (has_id userId) (db (users b)) = Some u →
  let b' := (deleteAccount' userId b).2 in
  deleteAccount' userId b'
  = (mkAnswer (reply 404 (JsonMessage false "User not found")) false, b')
  ∧ checkAuth userId (users b') = (404, ReadMessage false "User not found")
  ∧ getMyAccountDetails userId (users b')
    = (404, ReadMessage false "User not found")
  ∧ (User.email u ≠ "" → p ≠ "" → c ≠ "" →
     (∀ d, d ∈ db (users b) → User.email d = User.email u → User._id d = User._id u) →
     login E (Some (User.email u)) (Some p) context (Some c) (users b')
     = (reply 400 (JsonMessage false "User not found!"), users b')).
Proof.
  intros Hnd Hfind b'.
  assert (db (users b')
          = deleteOne (λ d, bool_decide (User._id d = User._id u)) (db (users b)))
    as Hdb.
  { subst b'. unfold deleteAccount. rewrite Hfind.
    by destruct (sendAccountDeletionEmail _ _). }
  assert (find (has_id userId) (db (users b')) = None) as Hgone.
  { apply find_none_iff. intros d Hd. rewrite Hdb in Hd.
    apply find_elem in Hfind as [_ Hid]. unfold has_id in *.
    destruct userId as [i |]; [| done]. apply bool_decide_eq_true in Hid.
    apply bool_decide_eq_false. rewrite <- Hid.
    by apply (deleteOne_id_gone (User._id u) (db (users b))). }
  split_and!.
  - unfold deleteAccount at 1. by rewrite Hgone.
  - unfold checkAuth. by rewrite Hgone.
  - unfold getMyAccountDetails. by rewrite Hgone.
  - intros He Hp Hc Hone.
    apply login_unknown_email; try done.
    apply find_none_iff. intros d Hd. rewrite Hdb in Hd.
    apply bool_decide_eq_false. intros Hde.
    apply (deleteOne_id_gone (User._id u) (db (users b)) d Hnd Hd).
    apply Hone; [by apply deleteOne_elem in Hd | done].
Qed.

End DeletionFacts.

(** ** Hexadecimal tokens *)

Lemma hex_digit_code (n : N) :
  (n < 16)%N →
  N_of_ascii (hex_digit n) = (if (n <? 10)%N then 48 + n else 87 + n)%N.
Proof.
  intros Hn. unfold hex_digit. apply N_ascii_embedding.
  destruct (n <? 10)%N; lia.
Qed.

Lemma hex_digit_inj (a b : N) :
  (a < 16)%N → (b < 16)%N → hex_digit a = hex_digit b → a = b.
Proof.
  intros Ha Hb Heq. apply (f_equal N_of_ascii) in Heq.
  rewrite !hex_digit_code in Heq by done.
  destruct (a <? 10)%N eqn:Ha10, (b <? 10)%N eqn:Hb10; lia.
Qed.

Lemma to_N_inj (a b : byte) : Byte.to_N a = Byte.to_N b → a = b.
Proof.
  intros H. pose proof (Byte.of_to_N a) as Ha. rewrite H, Byte.of_to_N in Ha.
  by injection Ha.
Qed.

Lemma toString_hex_inj (bs1 bs2 : list byte) :
  toString_hex bs1 = toString_hex bs2 → bs1 = bs2.
Proof.
  revert bs2. induction bs1 as [| a bs1 IH]; intros [| b bs2]; try done.
  cbn [toString_hex]. intros [= Hhi Hlo Hrest].
  pose proof (Byte.to_N_bounded a) as Ha. pose proof (Byte.to_N_bounded b) as Hb.
  apply hex_digit_inj in Hhi;
    [| apply N.Div0.div_lt_upper_bound; lia | apply N.Div0.div_lt_upper_bound; lia].
  apply hex_digit_inj in Hlo; [| apply N.mod_lt; lia | apply N.mod_lt; lia].
  f_equal; [| by apply IH]. apply to_N_inj.
  rewrite (N.div_mod (Byte.to_N a) 16), (N.div_mod (Byte.to_N b) 16) by lia.
  by rewrite Hhi, Hlo.
Qed.

(** X20. The hexadecimal form of the random bytes determines them: two
    different byte strings never give the same token.  So the reset
    tokens issued in two worlds are equal only if the twenty random bytes
    drawn are the same. *)
Theorem reset_token_determines_bytes E :
  (∀ bs1 bs2, toString_hex bs1 = toString_hex bs2 → bs1 = bs2)
  ∧ (∀ w w', fresh_reset_token E w = fresh_reset_token E w' →
       map (randomByte E) (seq (drawn w) 20) = map (randomByte E) (seq (drawn w') 20)).
Proof.
  split; [apply toString_hex_inj |]. intros w w'. apply toString_hex_inj.
Qed.

(** ** The verification page *)

Module EmailVerificationPageFacts.
Import EmailVerificationPage.

Lemma slice_1_length (value : JsString) : (List.length (slice 1 value) <= 1)%nat.
Proof. unfold slice. rewrite length_take. lia. Qed.

Lemma assign_in_range (i : nat) (v : Slot) (l : list Slot) :
  (i < List.length l)%nat → assign i v l = <[i:=v]> l.
Proof. intros H. unfold assign. by case_decide. Qed.

(** The paste loop over a [code] of six entries. *)
Lemma paste_loop (pastedValue : list JsString) (a0 a1 a2 a3 a4 a5 : Slot) :
  foldl (λ acc i, assign i (Chars (pasted pastedValue i)) acc)
    [a0; a1; a2; a3; a4; a5] (seq 0 6)
  = Chars <$> (pasted pastedValue <$> seq 0 6).
Proof.
  cbn [foldl seq].
  rewrite (assign_in_range 0) by (cbn; lia). cbn [insert list_insert].
  rewrite (assign_in_range 1) by (cbn; lia). cbn [insert list_insert].
  rewrite (assign_in_range 2) by (cbn; lia). cbn [insert list_insert].
  rewrite (assign_in_range 3) by (cbn; lia). cbn [insert list_insert].
  rewrite (assign_in_range 4) by (cbn; lia). cbn [insert list_insert].
  rewrite (assign_in_range 5) by (cbn; lia). reflexivity.
Qed.

Lemma spread_chars (code : list Slot) :
  Forall (λ s, ∃ c, s = Chars c ∧ (List.length c <= 1)%nat) code →
  spread code = code.
Proof.
  induction 1 as [| s code (c & -> & _) _ IH]; [done |].
  unfold spread in *. cbn [map]. by rewrite IH.
Qed.

(** What is pasted into a box is one code unit of the value, or
    nothing. *)
Lemma pasted_split_length (value : JsString) (i : nat) :
  (List.length (pasted (split value) i) <= 1)%nat.
Proof.
  unfold pasted, split. revert i.
  induction value as [| c value IH]; intros [| i]; cbn; try lia. apply IH.
Qed.

(** X21. handleChange keeps the page in shape: from six boxes of at most
    one code unit each, a change in any of the six boxes, with any value
    (typed, deleted or pasted), leaves six boxes of at most one code unit
    each, and the box asked to take the focus, if any, is one of the
    six. *)
Theorem handleChange_keeps_six_boxes code index value :
  six_boxes code → (index < 6)%nat →
  six_boxes (handleChange code index value).1
  ∧ ∀ i, (handleChange code index value).2 = Some i → (i < 6)%nat.
Proof.
  intros [Hlen Hall] Hindex. unfold handleChange.
  rewrite (spread_chars code Hall).
  destruct code as [| a0 [| a1 [| a2 [| a3 [| a4 [| a5 [| a6 code]]]]]]]; try done.
  clear Hlen.
  destruct (1 <? List.length value)%nat eqn:Hpaste.
  - rewrite paste_loop. clear Hall. cbn [fst snd]. split.
    + split; [reflexivity |]. cbn [fmap list_fmap seq].
      repeat (apply Forall_cons; split;
              [eexists; split; [reflexivity | apply pasted_split_length] |]).
      by apply Forall_nil.
    + intros i [= <-]. cbn [fmap list_fmap seq].
      set (pastedValue := split (slice 6 value)).
      unfold findLastIndex. cbn [findLastIndex_from].
      repeat match goal with
             | |- context [filled ?x] => destruct (filled x)
             end; vm_compute; lia.
  - pose proof (slice_1_length value) as Hslice.
    repeat match goal with
           | H : Forall _ (_ :: _) |- _ => apply Forall_cons in H as [(? & -> & ?) H]
           end.
    clear Hall.
    do 6 (destruct index as [| index]; [
      rewrite assign_in_range by (cbn; lia); cbn [insert list_insert];
      split; [split; [reflexivity |];
              repeat (apply Forall_cons; split; [eexists; split; [reflexivity | done] |]);
              by apply Forall_nil
             | intros i; cbn [snd]; destruct value; cbn;
               intros Hi; try discriminate; injection Hi as <-; lia] |]).
    lia.
Qed.

(** X22. Pasting a value of six code units or more into any box of the
    six fills the boxes with its first six code units, whatever they
    held, moves the focus to the last box, and makes the page submit
    exactly those six by itself. *)
Theorem paste_of_full_code code index value :
  List.length code = 6%nat → (6 <= List.length value)%nat →
  (handleChange code index value).1 = Chars <$> split (slice 6 value)
  ∧ (handleChange code index value).2 = Some 5%nat
  ∧ join (handleChange code index value).1 = slice 6 value
  ∧ autoSubmit (handleChange code index value).1 = Some (slice 6 value).
Proof.
  intros Hlen Hvalue.
  destruct code as [| a0 [| a1 [| a2 [| a3 [| a4 [| a5 [| a6 code]]]]]]]; try done.
  destruct value as [| c0 [| c1 [| c2 [| c3 [| c4 [| c5 value]]]]]];
    try (cbn in Hvalue; lia).
  unfold handleChange.
  assert ((1 <? List.length (c0 :: c1 :: c2 :: c3 :: c4 :: c5 :: value))%nat = true)
    as -> by (apply Nat.ltb_lt; cbn; lia).
  unfold spread. cbn [map]. rewrite paste_loop.
  assert (slice 6 (c0 :: c1 :: c2 :: c3 :: c4 :: c5 :: value)
          = [c0; c1; c2; c3; c4; c5]) as ->
    by (unfold slice; cbn; by rewrite take_0).
  by vm_compute.
Qed.

(** X23. Pasting a value of two to five code units into any box of the
    six fills the boxes from the first one with those code units and
    empties all the others, whatever they held; the focus moves to the box
    after the last pasted one, and the page does not submit. *)
Theorem paste_of_short_value code index value :
  List.length code = 6%nat →
  (2 <= List.length value < 6)%nat →
  (handleChange code index value).1
  = ((Chars <$> split value) ++ replicate (6 - List.length value) (Chars []))%list
  ∧ (handleChange code index value).2 = Some (List.length value)
  ∧ autoSubmit (handleChange code index value).1 = None.
Proof.
  intros Hlen Hvalue.
  destruct code as [| a0 [| a1 [| a2 [| a3 [| a4 [| a5 [| a6 code]]]]]]]; try done.
  destruct value as [| c0 [| c1 [| c2 [| c3 [| c4 [| c5 value]]]]]];
    try (cbn in Hvalue; lia);
    unfold handleChange;
    match goal with
    | |- context [(1 <? List.length ?v)%nat] =>
        assert ((1 <? List.length v)%nat = true) as ->
          by (apply Nat.ltb_lt; cbn; lia)
    end;
    unfold spread; cbn [map]; rewrite paste_loop; by vm_compute.
Qed.

(** X24. Typing six characters one after another, each into the box that
    has the focus, starting from the empty page in the first box, fills
    the six boxes in order; the page submits by itself once, after the
    sixth character, and what it submits is the six characters typed. *)
Theorem typing_six_characters (k0 k1 k2 k3 k4 k5 : CodeUnit) :
  let keys := [k0; k1; k2; k3; k4; k5] in
  last (typing initial 0 keys) = Some ((λ k, Chars [k]) <$> keys)
  ∧ autoSubmit <$> typing initial 0 keys
    = (replicate 5 None ++ [Some keys])%list.
Proof.
  cbn [typing].
  unfold initial, handleChange. cbn.
  by vm_compute.
Qed.

End EmailVerificationPageFacts.

(** ** The further theorems at work *)

Lemma login_allows_at_low_risk_witness :
  (login Scenario.quiet (Some "alice@example.org") (Some "correct horse")
     (Some Scenario.known) (Some "human") Scenario.w0).1
  = logged_in (Scenario.fold (User.set_lastLogin (now Scenario.w0) Scenario.alice)
                 Scenario.known 0 (now Scenario.w0)).
Proof.
  refine (proj1 (login_allows_at_low_risk Scenario.quiet
                   (Some "alice@example.org") (Some "correct horse")
                   (Some Scenario.known) (Some "human") Scenario.w0
                   Scenario.alice Scenario.alice Scenario.known Scenario.w0 0
                   (scenario_accepted _) _ _ _)).
  - vm_compute. reflexivity.
  - reflexivity.
  - lia.
Defined.

Lemma login_refuses_bad_credentials_witness :
  login Scenario.quiet (Some "alice@example.org") (Some "wrong horse")
    (Some Scenario.known) (Some "human") Scenario.w0
  = (reply 400 (JsonMessage false "Wrong Password!"), Scenario.w0).
Proof.
  refine (proj2 (login_refuses_bad_credentials Scenario.quiet "alice@example.org"
                   "wrong horse" "human" (Some Scenario.known) Scenario.w0 _ _ _)
            Scenario.alice _ _).
  - discriminate.
  - discriminate.
  - discriminate.
  - vm_compute. reflexivity.
  - vm_compute. reflexivity.
Defined.

Lemma login_trusted_device_no_side_channel_witness :
  holds_reset 1 None None
    (db (login Scenario.quiet (Some "alice@example.org") (Some "correct horse")
           (Some Scenario.known) (Some "human") Scenario.w0).2).
Proof.
  refine (proj2 (login_trusted_device_no_side_channel Scenario.quiet
                   (Some "alice@example.org") (Some "correct horse") (Some "human")
                   Scenario.w0 Scenario.alice Scenario.known
                   scenario_unique_ids (scenario_keeps_tokens _)
                   (scenario_accepted _) _)).
  vm_compute. reflexivity.
Defined.

Lemma handlers_keep_the_accounts_witness :
  User._id <$> db (login Scenario.quiet (Some "alice@example.org")
                     (Some "correct horse") (Some Scenario.unknown) (Some "human")
                     Scenario.w0).2
  = User._id <$> db Scenario.w0.
Proof.
  exact (proj1 (handlers_keep_the_accounts Scenario.quiet (scenario_keeps_tokens _))
           (Some "alice@example.org") (Some "correct horse")
           (Some Scenario.unknown) (Some "human") Scenario.w0).
Defined.

Lemma verifyEmail_marks_verified_witness :
  cookie (verifyEmail Scenario.quiet (Some "482913") Scenario.after_resend).1 = None.
Proof.
  refine (proj2 (proj2 (verifyEmail_marks_verified Scenario.quiet (Some "482913")
                          Scenario.after_resend
                          (User.set_verification (Some "482913")
                             (Some 1700000160000) Scenario.alice) _))).
  vm_compute. reflexivity.
Defined.

Ltac stored_cases H :=
  repeat (apply elem_of_cons in H as [-> | H]); [.. | by apply elem_of_nil in H].

Lemma second_factor_code_single_use_witness :
  status (verifyTwoFactorAuth (Some "alice@example.org") (Some "482913")
            (verifyTwoFactorAuth (Some "alice@example.org") (Some "482913")
               Scenario.after_resend).2).1 = 400.
Proof.
  refine (proj1 (second_factor_code_single_use "alice@example.org" "482913"
                   Scenario.after_resend _ (Some "482913") _ _ _ _ eq_refl)).
  - discriminate.
  - discriminate.
  - intros d1 d2 H1 H2 E1 E2.
    stored_cases H1; stored_cases H2; try reflexivity;
      (vm_compute in E1; try discriminate E1); vm_compute in E2; discriminate E2.
  - vm_compute. reflexivity.
Defined.

Lemma resend_then_verifyEmail_witness :
  stored_with 1 (λ d, User.isVerified d = true ∧ User.verificationToken d = None)
    (db (verifyEmail Scenario.quiet (Some "482913")
           (Scenario.later 1000 Scenario.after_resend)).2).
Proof.
  refine (resend_then_verifyEmail Scenario.quiet Scenario.w0 "alice@example.org"
            Scenario.alice (Scenario.later 1000 Scenario.after_resend)
            _ _ _ _ eq_refl).
  - discriminate.
  - vm_compute. reflexivity.
  - reflexivity.
  - intros d Hd _. stored_cases Hd; vm_compute; discriminate.
Defined.

Lemma resendVerificationCode_outcomes_witness :
  resendVerificationCode Scenario.quiet (Some "bob@example.org") Scenario.w0
  = (reply 400 (JsonMessage false "User already verified!"), Scenario.w0).
Proof.
  refine (proj1 (proj2 (proj2 (resendVerificationCode_outcomes Scenario.quiet
                                 Scenario.w0)))
            "bob@example.org" Scenario.bob _ _ _).
  - discriminate.
  - vm_compute. reflexivity.
  - reflexivity.
Defined.

Lemma forgotPassword_then_resetPassword_witness :
  status (resetPassword Scenario.quiet "0b30557a9fc4e90e33587da2c7ec11365b80a5ca"
            (Some "battery staple") (Scenario.later 1000 Cases.after_forgot)).1 = 200.
Proof.
  refine (proj1 (forgotPassword_then_resetPassword Scenario.quiet Scenario.w0
                   "alice@example.org" Scenario.alice
                   (Scenario.later 1000 Cases.after_forgot) "battery staple"
                   _ _ _ _ eq_refl)).
  - discriminate.
  - discriminate.
  - vm_compute. reflexivity.
  - intros d Hd _. stored_cases Hd; vm_compute; discriminate.
Defined.

Lemma reset_token_single_use_witness :
  status (resetPassword Scenario.quiet "0b30557a9fc4e90e33587da2c7ec11365b80a5ca"
            (Some "another one")
            (resetPassword Scenario.quiet "0b30557a9fc4e90e33587da2c7ec11365b80a5ca"
               (Some "battery staple") Cases.after_forgot).2).1 = 400.
Proof.
  refine (proj1 (reset_token_single_use Scenario.quiet
                   "0b30557a9fc4e90e33587da2c7ec11365b80a5ca" "battery staple"
                   Cases.after_forgot
                   (User.set_resetPassword
                      (Some "0b30557a9fc4e90e33587da2c7ec11365b80a5ca")
                      (Some 1700001900000) Scenario.alice)
                   _ (Some "another one") _ _ _ eq_refl)).
  - discriminate.
  - vm_compute. reflexivity.
  - intros d Hd Hne. stored_cases Hd; [by destruct Hne | vm_compute; discriminate].
Defined.

Lemma resetPassword_then_login_witness :
  accepted Scenario.quiet (Some "alice@example.org") (Some "battery staple")
    (Some "human")
    (resetPassword Scenario.quiet "0b30557a9fc4e90e33587da2c7ec11365b80a5ca"
       (Some "battery staple") Cases.after_forgot).2
    (User.set_resetPassword None None
       (User.set_password "bcrypt:battery staple"
          (User.set_resetPassword
             (Some "0b30557a9fc4e90e33587da2c7ec11365b80a5ca")
             (Some 1700001900000) Scenario.alice))).
Proof.
  refine (resetPassword_then_login Scenario.quiet
            "0b30557a9fc4e90e33587da2c7ec11365b80a5ca" "battery staple"
            Cases.after_forgot
            (User.set_resetPassword
               (Some "0b30557a9fc4e90e33587da2c7ec11365b80a5ca")
               (Some 1700001900000) Scenario.alice)
            _ "human" _ _ _ _ _ _ _ eq_refl).
  - discriminate.
  - discriminate.
  - discriminate.
  - vm_compute. reflexivity.
  - vm_compute. reflexivity.
  - vm_compute. reflexivity.
  - reflexivity.
Defined.

Lemma forgotPassword_without_email_witness :
  forgotPassword Scenario.quiet (Some "nobody@example.org") Scenario.w0
  = (reply 400 (JsonMessage false "User not found!"), Scenario.w0).
Proof.
  refine (proj1 (proj2 (proj2 (forgotPassword_without_email Scenario.quiet
                                 Scenario.w0)))
            "nobody@example.org" _ _).
  - discriminate.
  - vm_compute. reflexivity.
Defined.

Lemma resetRiskScore_once_witness :
  (resetRiskScore (Some 1) Cases.risky).1
  = reply 200 (JsonMessage true "Risk score reset to 0.")
  ∧ resetRiskScore (Some 1) (resetRiskScore (Some 1) Cases.risky).2
    = (reply 400 (JsonMessage false "Risk score is already 0."),
       (resetRiskScore (Some 1) Cases.risky).2).
Proof.
  pose proof (proj2 (proj2 (resetRiskScore_once (Some 1) Cases.risky))
                (set_riskScore 7 Scenario.alice) eq_refl) as H.
  destruct H as (H1 & _ & _ & H2); [vm_compute; reflexivity |].
  split; [exact H1 | by apply H2].
Defined.

Lemma scenario_keeps_account (risk : Outcome Z) :
  updater_keeps_account (Scenario.env risk).
Proof.
  split; [apply scenario_keeps_tokens |].
  by intros u c r t u' saved [= <- _].
Qed.

Lemma login_then_second_factor_witness :
  status (verifyTwoFactorAuth (Some "alice@example.org") (Some "482913")
            (login (Scenario.env (Returns 7)) (Some "alice@example.org")
               (Some "correct horse") (Some Scenario.known) (Some "human")
               Scenario.w0).2).1 = 200.
Proof.
  refine (proj1 (login_then_second_factor (Scenario.env (Returns 7))
                   (Some "alice@example.org") (Some "correct horse")
                   (Some Scenario.known) (Some "human") Scenario.w0
                   Scenario.alice Scenario.alice Scenario.known Scenario.w0 7
                   (login (Scenario.env (Returns 7)) (Some "alice@example.org")
                      (Some "correct horse") (Some Scenario.known) (Some "human")
                      Scenario.w0).2
                   (scenario_keeps_account _) (scenario_accepted _) _ _ _ _ _ _)).
  - vm_compute. reflexivity.
  - reflexivity.
  - lia.
  - intros d Hd Hne. stored_cases Hd; [done | discriminate].
  - discriminate.
  - reflexivity.
Defined.

Lemma carol_signed_up :
  signup Scenario.quiet Cases.signupEnv (Some "carol@example.org") (Some "s3cret")
    (Some "Carol") (Some Scenario.unknown) (Some "human") Scenario.w0
  = Some (Cases.carol_answer, Cases.carol_world).
Proof. vm_compute. reflexivity. Qed.

Lemma signup_stores_iff_cookie_witness :
  ∃ e user,
    truthy (Some "carol@example.org") = Some e
    ∧ find (has_email e) (db Scenario.w0) = None
    ∧ User._id user = 102 ∧ 102 = ObjectId Cases.signupEnv 2
    ∧ User.email user = e
    ∧ db Cases.carol_world = store user (db Scenario.w0)
    ∧ (status Cases.carol_answer = 201 ∨ status Cases.carol_answer = 400).
Proof.
  exact (signup_stores_iff_cookie Scenario.quiet Cases.signupEnv
           (Some "carol@example.org") (Some "s3cret") (Some "Carol")
           (Some Scenario.unknown) (Some "human") Scenario.w0
           Cases.carol_answer Cases.carol_world carol_signed_up).
Defined.

Lemma signup_then_login_from_same_device_witness :
  newDeviceCheck Scenario.quiet Cases.carol_user (Some Scenario.unknown)
    Cases.carol_world
  = Ret (Cases.carol_user, Scenario.unknown) Cases.carol_world.
Proof.
  refine (proj2 (signup_then_login_from_same_device Scenario.quiet Cases.signupEnv
                   "carol@example.org" "s3cret" "Carol" "human" Scenario.unknown
                   "9.9.9.9" "safari-ios-new" (35676000, 139650000) (Some "Tokyo")
                   Scenario.w0 Cases.carol_world Scenario.unknown
                   _ _ _ _ _ _ _ _ _ _ _ _ _)).
  - discriminate.
  - discriminate.
  - discriminate.
  - discriminate.
  - vm_compute. reflexivity.
  - reflexivity.
  - reflexivity.
  - reflexivity.
  - reflexivity.
  - reflexivity.
  - vm_compute. reflexivity.
  - reflexivity.
  - exists Cases.carol_answer, Cases.carol_world. split; [exact carol_signed_up | done].
Defined.

Lemma signup_then_verifyEmail_witness :
  stored_with 102
    (λ d, User.isVerified d = true ∧ User.verificationToken d = None
          ∧ User.email d = "carol@example.org")
    (db (verifyEmail Scenario.quiet (Some "482913")
           (Scenario.later 1000 Cases.carol_world)).2).
Proof.
  refine (signup_then_verifyEmail Scenario.quiet Cases.signupEnv
            "carol@example.org" "s3cret" "Carol" "human" Scenario.unknown
            "9.9.9.9" "safari-ios-new" (35676000, 139650000) (Some "Tokyo")
            Scenario.w0 (Scenario.later 1000 Cases.carol_world)
            _ _ _ _ _ _ _ _ _ _ _ _).
  - discriminate.
  - discriminate.
  - discriminate.
  - discriminate.
  - vm_compute. reflexivity.
  - reflexivity.
  - reflexivity.
  - reflexivity.
  - reflexivity.
  - reflexivity.
  - intros d Hd _. stored_cases Hd; vm_compute; discriminate.
  - exists Cases.carol_answer, Cases.carol_world. split; [exact carol_signed_up | done].
Defined.

Lemma signup_keeps_accounts_distinct_witness :
  NoDup (User.email <$> db Cases.carol_world) ∧ unique_ids (db Cases.carol_world).
Proof.
  refine (signup_keeps_accounts_distinct Scenario.quiet Cases.signupEnv
            (Some "carol@example.org") (Some "s3cret") (Some "Carol")
            (Some Scenario.unknown) (Some "human") Scenario.w0
            Cases.carol_answer Cases.carol_world _ scenario_unique_ids _
            carol_signed_up).
  - apply (bool_decide_unpack _). vm_compute. exact I.
  - intros d Hd. stored_cases Hd; vm_compute; discriminate.
Defined.

Lemma deleteAccount_removes_account_witness :
  (∀ t, t ∈ transactions (Cases.deleteAccount_bank (Some 1)).2 ↔
        t ∈ transactions Cases.bank ∧ t.1.1 ≠ 1 ∧ t.1.2 ≠ 1)
  ∧ clearCookie (Cases.deleteAccount_bank (Some 1)).1 = true.
Proof.
  pose proof (deleteAccount_removes_account (λ p : Z * string, p.1)
                (λ t : Z * Z * Z, t.1.1) (λ t : Z * Z * Z, t.1.2)
                (λ r : string * string, r.1) (λ _ _, Returns tt)
                (Some 1) Cases.bank Scenario.alice scenario_unique_ids) as H.
  destruct H as (_ & Ht & _ & _ & _ & Hc & _); [vm_compute; reflexivity |].
  split; [exact Ht | exact Hc].
Defined.

Lemma deleteAccount_then_gone_witness :
  Cases.deleteAccount_bank (Some 1)
  = (mkAnswer (reply 200 (JsonMessage true
                 "Account and all related data deleted successfully")) true,
     (Cases.deleteAccount_bank (Some 1)).2)
  ∧ checkAuth (Some 1) (users (Cases.deleteAccount_bank (Some 1)).2)
    = (404, ReadMessage false "User not found").
Proof.
  split; [vm_compute; reflexivity |].
  pose proof (deleteAccount_then_gone (λ p : Z * string, p.1)
                (λ t : Z * Z * Z, t.1.1) (λ t : Z * Z * Z, t.1.2)
                (λ r : string * string, r.1) (λ _ _, Returns tt)
                Scenario.quiet (Some 1) Cases.bank Scenario.alice
                "pw" "human" None scenario_unique_ids) as H.
  destruct H as (_ & H & _); [vm_compute; reflexivity |]. exact H.
Defined.

Lemma reset_token_determines_bytes_witness :
  map (randomByte Scenario.quiet) (seq (drawn Scenario.w0) 20)
  = map (randomByte Scenario.quiet) (seq (drawn (Scenario.later 5 Scenario.w0)) 20).
Proof.
  refine (proj2 (reset_token_determines_bytes Scenario.quiet) Scenario.w0
            (Scenario.later 5 Scenario.w0) _).
  reflexivity.
Defined.

Lemma handleChange_keeps_six_boxes_witness :
  EmailVerificationPage.six_boxes
    (EmailVerificationPage.handleChange EmailVerificationPage.initial 2 [233%N]).1.
Proof.
  refine (proj1 (EmailVerificationPageFacts.handleChange_keeps_six_boxes
                   EmailVerificationPage.initial 2 [233%N] _ _)).
  - split; [reflexivity |].
    repeat (apply Forall_cons; split; [exists []; split; [reflexivity | cbn; lia] |]).
    by apply Forall_nil.
  - lia.
Defined.

Lemma paste_of_full_code_witness :
  EmailVerificationPage.autoSubmit
    (EmailVerificationPage.handleChange EmailVerificationPage.initial 3
       (EmailVerificationPage.units "482913 ")).1
  = Some (EmailVerificationPage.units "482913").
Proof.
  refine (proj2 (proj2 (proj2
            (EmailVerificationPageFacts.paste_of_full_code
               EmailVerificationPage.initial 3
               (EmailVerificationPage.units "482913 ") _ _)))).
  - reflexivity.
  - cbn. lia.
Defined.

Lemma paste_of_short_value_witness :
  (EmailVerificationPage.handleChange EmailVerificationPage.initial 4
     [233%N; 52%N]).2
  = Some 2%nat.
Proof.
  refine (proj1 (proj2
            (EmailVerificationPageFacts.paste_of_short_value
               EmailVerificationPage.initial 4 [233%N; 52%N] _ _))).
  - reflexivity.
  - cbn. lia.
Defined.
